(** * NBA / FPL report bots: a shallow embedding and its properties

    The development embeds the decision core of [nba_predictions.py] (team
    directory cache, schedule cache, tie-break chain, report assembly and
    chunking) and of [bot_test.py] (the rolling-window ranking), and proves
    the properties stated about them.

    Conventions.
    - A Python [str] is a list of Unicode code points ([str := list N]);
      [len] is [length], slicing is [take]/[drop].
    - A Python [int] is a [Z].
    - A decoded JSON document is a value of [json]; the operations the code
      applies to such values ([.get], subscripting, truth tests, [int()],
      iteration) are embedded with the exceptions Python raises on values
      of the wrong type.
    - Functions that read or write the module-level caches, the clock or the
      network run in the monad [M]: a state transformer that returns either
      a value or the raised exception, together with the state reached.
      State changes made before an exception is raised are kept, as in
      Python. *)

From Stdlib Require Import ZArith NArith List String Ascii Bool Lia QArith.
From stdpp Require Import base option list sorting gmap strings pretty.

Open Scope Z_scope.
#[global] Set Warnings "-register-all".

(* ===================================================================== *)
(** ** Text *)
(* ===================================================================== *)

Module Text.

(** A Python string: the sequence of its code points. *)
Abbreviation str := (list N).

(** ASCII literals of the source are written as Rocq string literals and
    read through [u]; characters outside ASCII are given by code point. *)
Definition u (s : string) : str :=
  map N_of_ascii (list_ascii_of_string s).

Coercion u : string >-> list.

(** Concatenation of strings; both sides may be literals. *)
Notation "a +++ b" := (@app N (a : str) (b : str))
  (at level 60, right associativity).

(** [str.upper()] replaces each code point by its full uppercase mapping,
    whatever stands around it. The table lists, in increasing order,
    every code point that is not its own mapping, with the mapping
    (Unicode 14.0.0, the character database of CPython 3.11): the ASCII
    letters first, then for instance 223 (sharp s) with [83; 83] and 305
    (dotless i) with [73]. *)
Definition UPPER_TABLE_0 : list (N * list N) :=
  [
    (97, [65]); (98, [66]); (99, [67]); (100, [68]); (101, [69]);
    (102, [70]); (103, [71]); (104, [72]); (105, [73]); (106, [74]);
    (107, [75]); (108, [76]); (109, [77]); (110, [78]); (111, [79]);
    (112, [80]); (113, [81]); (114, [82]); (115, [83]); (116, [84]);
    (117, [85]); (118, [86]); (119, [87]); (120, [88]); (121, [89]);
    (122, [90]); (181, [924]); (223, [83; 83]); (224, [192]); (225, [193]);
    (226, [194]); (227, [195]); (228, [196]); (229, [197]); (230, [198]);
    (231, [199]); (232, [200]); (233, [201]); (234, [202]); (235, [203]);
    (236, [204]); (237, [205]); (238, [206]); (239, [207]); (240, [208]);
    (241, [209]); (242, [210]); (243, [211]); (244, [212]); (245, [213]);
    (246, [214]); (248, [216]); (249, [217]); (250, [218]); (251, [219]);
    (252, [220]); (253, [221]); (254, [222]); (255, [376]); (257, [256]);
    (259, [258]); (261, [260]); (263, [262]); (265, [264]); (267, [266]);
    (269, [268]); (271, [270]); (273, [272]); (275, [274]); (277, [276]);
    (279, [278]); (281, [280]); (283, [282]); (285, [284]); (287, [286]);
    (289, [288]); (291, [290]); (293, [292]); (295, [294]); (297, [296]);
    (299, [298]); (301, [300]); (303, [302]); (305, [73]); (307, [306]);
    (309, [308]); (311, [310]); (314, [313]); (316, [315]); (318, [317]);
    (320, [319]); (322, [321]); (324, [323]); (326, [325]); (328, [327]);
    (329, [700; 78]); (331, [330]); (333, [332]); (335, [334]); (337, [336]);
    (339, [338]); (341, [340]); (343, [342]); (345, [344]); (347, [346]);
    (349, [348]); (351, [350]); (353, [352]); (355, [354]); (357, [356]);
    (359, [358]); (361, [360]); (363, [362]); (365, [364]); (367, [366]);
    (369, [368]); (371, [370]); (373, [372]); (375, [374]); (378, [377]);
    (380, [379]); (382, [381]); (383, [83]); (384, [579]); (387, [386]);
    (389, [388]); (392, [391]); (396, [395])
  ]%N.

Definition UPPER_TABLE_1 : list (N * list N) :=
  [
    (402, [401]); (405, [502]); (409, [408]); (410, [573]); (414, [544]);
    (417, [416]); (419, [418]); (421, [420]); (424, [423]); (429, [428]);
    (432, [431]); (436, [435]); (438, [437]); (441, [440]); (445, [444]);
    (447, [503]); (453, [452]); (454, [452]); (456, [455]); (457, [455]);
    (459, [458]); (460, [458]); (462, [461]); (464, [463]); (466, [465]);
    (468, [467]); (470, [469]); (472, [471]); (474, [473]); (476, [475]);
    (477, [398]); (479, [478]); (481, [480]); (483, [482]); (485, [484]);
    (487, [486]); (489, [488]); (491, [490]); (493, [492]); (495, [494]);
    (496, [74; 780]); (498, [497]); (499, [497]); (501, [500]); (505, [504]);
    (507, [506]); (509, [508]); (511, [510]); (513, [512]); (515, [514]);
    (517, [516]); (519, [518]); (521, [520]); (523, [522]); (525, [524]);
    (527, [526]); (529, [528]); (531, [530]); (533, [532]); (535, [534]);
    (537, [536]); (539, [538]); (541, [540]); (543, [542]); (547, [546]);
    (549, [548]); (551, [550]); (553, [552]); (555, [554]); (557, [556]);
    (559, [558]); (561, [560]); (563, [562]); (572, [571]); (575, [11390]);
    (576, [11391]); (578, [577]); (583, [582]); (585, [584]); (587, [586]);
    (589, [588]); (591, [590]); (592, [11375]); (593, [11373]);
    (594, [11376]); (595, [385]); (596, [390]); (598, [393]); (599, [394]);
    (601, [399]); (603, [400]); (604, [42923]); (608, [403]); (609, [42924]);
    (611, [404]); (613, [42893]); (614, [42922]); (616, [407]); (617, [406]);
    (618, [42926]); (619, [11362]); (620, [42925]); (623, [412]);
    (625, [11374]); (626, [413]); (629, [415]); (637, [11364]); (640, [422]);
    (642, [42949]); (643, [425]); (647, [42929]); (648, [430]); (649, [580]);
    (650, [433]); (651, [434]); (652, [581]); (658, [439]); (669, [42930]);
    (670, [42928]); (837, [921]); (881, [880]); (883, [882]); (887, [886]);
    (891, [1021]); (892, [1022]); (893, [1023]); (912, [921; 776; 769]);
    (940, [902])
  ]%N.

Definition UPPER_TABLE_2 : list (N * list N) :=
  [
    (941, [904]); (942, [905]); (943, [906]); (944, [933; 776; 769]);
    (945, [913]); (946, [914]); (947, [915]); (948, [916]); (949, [917]);
    (950, [918]); (951, [919]); (952, [920]); (953, [921]); (954, [922]);
    (955, [923]); (956, [924]); (957, [925]); (958, [926]); (959, [927]);
    (960, [928]); (961, [929]); (962, [931]); (963, [931]); (964, [932]);
    (965, [933]); (966, [934]); (967, [935]); (968, [936]); (969, [937]);
    (970, [938]); (971, [939]); (972, [908]); (973, [910]); (974, [911]);
    (976, [914]); (977, [920]); (981, [934]); (982, [928]); (983, [975]);
    (985, [984]); (987, [986]); (989, [988]); (991, [990]); (993, [992]);
    (995, [994]); (997, [996]); (999, [998]); (1001, [1000]); (1003, [1002]);
    (1005, [1004]); (1007, [1006]); (1008, [922]); (1009, [929]);
    (1010, [1017]); (1011, [895]); (1013, [917]); (1016, [1015]);
    (1019, [1018]); (1072, [1040]); (1073, [1041]); (1074, [1042]);
    (1075, [1043]); (1076, [1044]); (1077, [1045]); (1078, [1046]);
    (1079, [1047]); (1080, [1048]); (1081, [1049]); (1082, [1050]);
    (1083, [1051]); (1084, [1052]); (1085, [1053]); (1086, [1054]);
    (1087, [1055]); (1088, [1056]); (1089, [1057]); (1090, [1058]);
    (1091, [1059]); (1092, [1060]); (1093, [1061]); (1094, [1062]);
    (1095, [1063]); (1096, [1064]); (1097, [1065]); (1098, [1066]);
    (1099, [1067]); (1100, [1068]); (1101, [1069]); (1102, [1070]);
    (1103, [1071]); (1104, [1024]); (1105, [1025]); (1106, [1026]);
    (1107, [1027]); (1108, [1028]); (1109, [1029]); (1110, [1030]);
    (1111, [1031]); (1112, [1032]); (1113, [1033]); (1114, [1034]);
    (1115, [1035]); (1116, [1036]); (1117, [1037]); (1118, [1038]);
    (1119, [1039]); (1121, [1120]); (1123, [1122]); (1125, [1124]);
    (1127, [1126]); (1129, [1128]); (1131, [1130]); (1133, [1132]);
    (1135, [1134]); (1137, [1136]); (1139, [1138]); (1141, [1140]);
    (1143, [1142]); (1145, [1144]); (1147, [1146]); (1149, [1148]);
    (1151, [1150]); (1153, [1152]); (1163, [1162]); (1165, [1164]);
    (1167, [1166]); (1169, [1168]); (1171, [1170])
  ]%N.

Definition UPPER_TABLE_3 : list (N * list N) :=
  [
    (1173, [1172]); (1175, [1174]); (1177, [1176]); (1179, [1178]);
    (1181, [1180]); (1183, [1182]); (1185, [1184]); (1187, [1186]);
    (1189, [1188]); (1191, [1190]); (1193, [1192]); (1195, [1194]);
    (1197, [1196]); (1199, [1198]); (1201, [1200]); (1203, [1202]);
    (1205, [1204]); (1207, [1206]); (1209, [1208]); (1211, [1210]);
    (1213, [1212]); (1215, [1214]); (1218, [1217]); (1220, [1219]);
    (1222, [1221]); (1224, [1223]); (1226, [1225]); (1228, [1227]);
    (1230, [1229]); (1231, [1216]); (1233, [1232]); (1235, [1234]);
    (1237, [1236]); (1239, [1238]); (1241, [1240]); (1243, [1242]);
    (1245, [1244]); (1247, [1246]); (1249, [1248]); (1251, [1250]);
    (1253, [1252]); (1255, [1254]); (1257, [1256]); (1259, [1258]);
    (1261, [1260]); (1263, [1262]); (1265, [1264]); (1267, [1266]);
    (1269, [1268]); (1271, [1270]); (1273, [1272]); (1275, [1274]);
    (1277, [1276]); (1279, [1278]); (1281, [1280]); (1283, [1282]);
    (1285, [1284]); (1287, [1286]); (1289, [1288]); (1291, [1290]);
    (1293, [1292]); (1295, [1294]); (1297, [1296]); (1299, [1298]);
    (1301, [1300]); (1303, [1302]); (1305, [1304]); (1307, [1306]);
    (1309, [1308]); (1311, [1310]); (1313, [1312]); (1315, [1314]);
    (1317, [1316]); (1319, [1318]); (1321, [1320]); (1323, [1322]);
    (1325, [1324]); (1327, [1326]); (1377, [1329]); (1378, [1330]);
    (1379, [1331]); (1380, [1332]); (1381, [1333]); (1382, [1334]);
    (1383, [1335]); (1384, [1336]); (1385, [1337]); (1386, [1338]);
    (1387, [1339]); (1388, [1340]); (1389, [1341]); (1390, [1342]);
    (1391, [1343]); (1392, [1344]); (1393, [1345]); (1394, [1346]);
    (1395, [1347]); (1396, [1348]); (1397, [1349]); (1398, [1350]);
    (1399, [1351]); (1400, [1352]); (1401, [1353]); (1402, [1354]);
    (1403, [1355]); (1404, [1356]); (1405, [1357]); (1406, [1358]);
    (1407, [1359]); (1408, [1360]); (1409, [1361]); (1410, [1362]);
    (1411, [1363]); (1412, [1364]); (1413, [1365]); (1414, [1366]);
    (1415, [1333; 1362]); (4304, [7312]); (4305, [7313]); (4306, [7314]);
    (4307, [7315]); (4308, [7316]); (4309, [7317]); (4310, [7318]);
    (4311, [7319]); (4312, [7320]); (4313, [7321]); (4314, [7322])
  ]%N.

Definition UPPER_TABLE_4 : list (N * list N) :=
  [
    (4315, [7323]); (4316, [7324]); (4317, [7325]); (4318, [7326]);
    (4319, [7327]); (4320, [7328]); (4321, [7329]); (4322, [7330]);
    (4323, [7331]); (4324, [7332]); (4325, [7333]); (4326, [7334]);
    (4327, [7335]); (4328, [7336]); (4329, [7337]); (4330, [7338]);
    (4331, [7339]); (4332, [7340]); (4333, [7341]); (4334, [7342]);
    (4335, [7343]); (4336, [7344]); (4337, [7345]); (4338, [7346]);
    (4339, [7347]); (4340, [7348]); (4341, [7349]); (4342, [7350]);
    (4343, [7351]); (4344, [7352]); (4345, [7353]); (4346, [7354]);
    (4349, [7357]); (4350, [7358]); (4351, [7359]); (5112, [5104]);
    (5113, [5105]); (5114, [5106]); (5115, [5107]); (5116, [5108]);
    (5117, [5109]); (7296, [1042]); (7297, [1044]); (7298, [1054]);
    (7299, [1057]); (7300, [1058]); (7301, [1058]); (7302, [1066]);
    (7303, [1122]); (7304, [42570]); (7545, [42877]); (7549, [11363]);
    (7566, [42950]); (7681, [7680]); (7683, [7682]); (7685, [7684]);
    (7687, [7686]); (7689, [7688]); (7691, [7690]); (7693, [7692]);
    (7695, [7694]); (7697, [7696]); (7699, [7698]); (7701, [7700]);
    (7703, [7702]); (7705, [7704]); (7707, [7706]); (7709, [7708]);
    (7711, [7710]); (7713, [7712]); (7715, [7714]); (7717, [7716]);
    (7719, [7718]); (7721, [7720]); (7723, [7722]); (7725, [7724]);
    (7727, [7726]); (7729, [7728]); (7731, [7730]); (7733, [7732]);
    (7735, [7734]); (7737, [7736]); (7739, [7738]); (7741, [7740]);
    (7743, [7742]); (7745, [7744]); (7747, [7746]); (7749, [7748]);
    (7751, [7750]); (7753, [7752]); (7755, [7754]); (7757, [7756]);
    (7759, [7758]); (7761, [7760]); (7763, [7762]); (7765, [7764]);
    (7767, [7766]); (7769, [7768]); (7771, [7770]); (7773, [7772]);
    (7775, [7774]); (7777, [7776]); (7779, [7778]); (7781, [7780]);
    (7783, [7782]); (7785, [7784]); (7787, [7786]); (7789, [7788]);
    (7791, [7790]); (7793, [7792]); (7795, [7794]); (7797, [7796]);
    (7799, [7798]); (7801, [7800]); (7803, [7802]); (7805, [7804]);
    (7807, [7806]); (7809, [7808]); (7811, [7810]); (7813, [7812]);
    (7815, [7814]); (7817, [7816]); (7819, [7818]); (7821, [7820]);
    (7823, [7822]); (7825, [7824]); (7827, [7826]); (7829, [7828])
  ]%N.

Definition UPPER_TABLE_5 : list (N * list N) :=
  [
    (7830, [72; 817]); (7831, [84; 776]); (7832, [87; 778]);
    (7833, [89; 778]); (7834, [65; 702]); (7835, [7776]); (7841, [7840]);
    (7843, [7842]); (7845, [7844]); (7847, [7846]); (7849, [7848]);
    (7851, [7850]); (7853, [7852]); (7855, [7854]); (7857, [7856]);
    (7859, [7858]); (7861, [7860]); (7863, [7862]); (7865, [7864]);
    (7867, [7866]); (7869, [7868]); (7871, [7870]); (7873, [7872]);
    (7875, [7874]); (7877, [7876]); (7879, [7878]); (7881, [7880]);
    (7883, [7882]); (7885, [7884]); (7887, [7886]); (7889, [7888]);
    (7891, [7890]); (7893, [7892]); (7895, [7894]); (7897, [7896]);
    (7899, [7898]); (7901, [7900]); (7903, [7902]); (7905, [7904]);
    (7907, [7906]); (7909, [7908]); (7911, [7910]); (7913, [7912]);
    (7915, [7914]); (7917, [7916]); (7919, [7918]); (7921, [7920]);
    (7923, [7922]); (7925, [7924]); (7927, [7926]); (7929, [7928]);
    (7931, [7930]); (7933, [7932]); (7935, [7934]); (7936, [7944]);
    (7937, [7945]); (7938, [7946]); (7939, [7947]); (7940, [7948]);
    (7941, [7949]); (7942, [7950]); (7943, [7951]); (7952, [7960]);
    (7953, [7961]); (7954, [7962]); (7955, [7963]); (7956, [7964]);
    (7957, [7965]); (7968, [7976]); (7969, [7977]); (7970, [7978]);
    (7971, [7979]); (7972, [7980]); (7973, [7981]); (7974, [7982]);
    (7975, [7983]); (7984, [7992]); (7985, [7993]); (7986, [7994]);
    (7987, [7995]); (7988, [7996]); (7989, [7997]); (7990, [7998]);
    (7991, [7999]); (8000, [8008]); (8001, [8009]); (8002, [8010]);
    (8003, [8011]); (8004, [8012]); (8005, [8013]); (8016, [933; 787]);
    (8017, [8025]); (8018, [933; 787; 768]); (8019, [8027]);
    (8020, [933; 787; 769]); (8021, [8029]); (8022, [933; 787; 834]);
    (8023, [8031]); (8032, [8040]); (8033, [8041]); (8034, [8042]);
    (8035, [8043]); (8036, [8044]); (8037, [8045]); (8038, [8046]);
    (8039, [8047]); (8048, [8122]); (8049, [8123]); (8050, [8136]);
    (8051, [8137]); (8052, [8138]); (8053, [8139]); (8054, [8154]);
    (8055, [8155]); (8056, [8184]); (8057, [8185]); (8058, [8170]);
    (8059, [8171]); (8060, [8186]); (8061, [8187]); (8064, [7944; 921]);
    (8065, [7945; 921]); (8066, [7946; 921]); (8067, [7947; 921]);
    (8068, [7948; 921]); (8069, [7949; 921]); (8070, [7950; 921]);
    (8071, [7951; 921])
  ]%N.

Definition UPPER_TABLE_6 : list (N * list N) :=
  [
    (8072, [7944; 921]); (8073, [7945; 921]); (8074, [7946; 921]);
    (8075, [7947; 921]); (8076, [7948; 921]); (8077, [7949; 921]);
    (8078, [7950; 921]); (8079, [7951; 921]); (8080, [7976; 921]);
    (8081, [7977; 921]); (8082, [7978; 921]); (8083, [7979; 921]);
    (8084, [7980; 921]); (8085, [7981; 921]); (8086, [7982; 921]);
    (8087, [7983; 921]); (8088, [7976; 921]); (8089, [7977; 921]);
    (8090, [7978; 921]); (8091, [7979; 921]); (8092, [7980; 921]);
    (8093, [7981; 921]); (8094, [7982; 921]); (8095, [7983; 921]);
    (8096, [8040; 921]); (8097, [8041; 921]); (8098, [8042; 921]);
    (8099, [8043; 921]); (8100, [8044; 921]); (8101, [8045; 921]);
    (8102, [8046; 921]); (8103, [8047; 921]); (8104, [8040; 921]);
    (8105, [8041; 921]); (8106, [8042; 921]); (8107, [8043; 921]);
    (8108, [8044; 921]); (8109, [8045; 921]); (8110, [8046; 921]);
    (8111, [8047; 921]); (8112, [8120]); (8113, [8121]); (8114, [8122; 921]);
    (8115, [913; 921]); (8116, [902; 921]); (8118, [913; 834]);
    (8119, [913; 834; 921]); (8124, [913; 921]); (8126, [921]);
    (8130, [8138; 921]); (8131, [919; 921]); (8132, [905; 921]);
    (8134, [919; 834]); (8135, [919; 834; 921]); (8140, [919; 921]);
    (8144, [8152]); (8145, [8153]); (8146, [921; 776; 768]);
    (8147, [921; 776; 769]); (8150, [921; 834]); (8151, [921; 776; 834]);
    (8160, [8168]); (8161, [8169]); (8162, [933; 776; 768]);
    (8163, [933; 776; 769]); (8164, [929; 787]); (8165, [8172]);
    (8166, [933; 834]); (8167, [933; 776; 834]); (8178, [8186; 921]);
    (8179, [937; 921]); (8180, [911; 921]); (8182, [937; 834]);
    (8183, [937; 834; 921]); (8188, [937; 921]); (8526, [8498]);
    (8560, [8544]); (8561, [8545]); (8562, [8546]); (8563, [8547]);
    (8564, [8548]); (8565, [8549]); (8566, [8550]); (8567, [8551]);
    (8568, [8552]); (8569, [8553]); (8570, [8554]); (8571, [8555]);
    (8572, [8556]); (8573, [8557]); (8574, [8558]); (8575, [8559]);
    (8580, [8579]); (9424, [9398]); (9425, [9399]); (9426, [9400]);
    (9427, [9401]); (9428, [9402]); (9429, [9403]); (9430, [9404]);
    (9431, [9405]); (9432, [9406]); (9433, [9407]); (9434, [9408]);
    (9435, [9409]); (9436, [9410]); (9437, [9411]); (9438, [9412]);
    (9439, [9413]); (9440, [9414]); (9441, [9415]); (9442, [9416]);
    (9443, [9417]); (9444, [9418]); (9445, [9419]); (9446, [9420]);
    (9447, [9421]); (9448, [9422]); (9449, [9423]); (11312, [11264]);
    (11313, [11265]); (11314, [11266]); (11315, [11267]); (11316, [11268]);
    (11317, [11269]); (11318, [11270]); (11319, [11271]); (11320, [11272])
  ]%N.

Definition UPPER_TABLE_7 : list (N * list N) :=
  [
    (11321, [11273]); (11322, [11274]); (11323, [11275]); (11324, [11276]);
    (11325, [11277]); (11326, [11278]); (11327, [11279]); (11328, [11280]);
    (11329, [11281]); (11330, [11282]); (11331, [11283]); (11332, [11284]);
    (11333, [11285]); (11334, [11286]); (11335, [11287]); (11336, [11288]);
    (11337, [11289]); (11338, [11290]); (11339, [11291]); (11340, [11292]);
    (11341, [11293]); (11342, [11294]); (11343, [11295]); (11344, [11296]);
    (11345, [11297]); (11346, [11298]); (11347, [11299]); (11348, [11300]);
    (11349, [11301]); (11350, [11302]); (11351, [11303]); (11352, [11304]);
    (11353, [11305]); (11354, [11306]); (11355, [11307]); (11356, [11308]);
    (11357, [11309]); (11358, [11310]); (11359, [11311]); (11361, [11360]);
    (11365, [570]); (11366, [574]); (11368, [11367]); (11370, [11369]);
    (11372, [11371]); (11379, [11378]); (11382, [11381]); (11393, [11392]);
    (11395, [11394]); (11397, [11396]); (11399, [11398]); (11401, [11400]);
    (11403, [11402]); (11405, [11404]); (11407, [11406]); (11409, [11408]);
    (11411, [11410]); (11413, [11412]); (11415, [11414]); (11417, [11416]);
    (11419, [11418]); (11421, [11420]); (11423, [11422]); (11425, [11424]);
    (11427, [11426]); (11429, [11428]); (11431, [11430]); (11433, [11432]);
    (11435, [11434]); (11437, [11436]); (11439, [11438]); (11441, [11440]);
    (11443, [11442]); (11445, [11444]); (11447, [11446]); (11449, [11448]);
    (11451, [11450]); (11453, [11452]); (11455, [11454]); (11457, [11456]);
    (11459, [11458]); (11461, [11460]); (11463, [11462]); (11465, [11464]);
    (11467, [11466]); (11469, [11468]); (11471, [11470]); (11473, [11472]);
    (11475, [11474]); (11477, [11476]); (11479, [11478]); (11481, [11480]);
    (11483, [11482]); (11485, [11484]); (11487, [11486]); (11489, [11488]);
    (11491, [11490]); (11500, [11499]); (11502, [11501]); (11507, [11506]);
    (11520, [4256]); (11521, [4257]); (11522, [4258]); (11523, [4259]);
    (11524, [4260]); (11525, [4261]); (11526, [4262]); (11527, [4263]);
    (11528, [4264]); (11529, [4265]); (11530, [4266]); (11531, [4267]);
    (11532, [4268]); (11533, [4269]); (11534, [4270]); (11535, [4271]);
    (11536, [4272]); (11537, [4273]); (11538, [4274]); (11539, [4275]);
    (11540, [4276]); (11541, [4277]); (11542, [4278]); (11543, [4279]);
    (11544, [4280]); (11545, [4281]); (11546, [4282]); (11547, [4283])
  ]%N.

Definition UPPER_TABLE_8 : list (N * list N) :=
  [
    (11548, [4284]); (11549, [4285]); (11550, [4286]); (11551, [4287]);
    (11552, [4288]); (11553, [4289]); (11554, [4290]); (11555, [4291]);
    (11556, [4292]); (11557, [4293]); (11559, [4295]); (11565, [4301]);
    (42561, [42560]); (42563, [42562]); (42565, [42564]); (42567, [42566]);
    (42569, [42568]); (42571, [42570]); (42573, [42572]); (42575, [42574]);
    (42577, [42576]); (42579, [42578]); (42581, [42580]); (42583, [42582]);
    (42585, [42584]); (42587, [42586]); (42589, [42588]); (42591, [42590]);
    (42593, [42592]); (42595, [42594]); (42597, [42596]); (42599, [42598]);
    (42601, [42600]); (42603, [42602]); (42605, [42604]); (42625, [42624]);
    (42627, [42626]); (42629, [42628]); (42631, [42630]); (42633, [42632]);
    (42635, [42634]); (42637, [42636]); (42639, [42638]); (42641, [42640]);
    (42643, [42642]); (42645, [42644]); (42647, [42646]); (42649, [42648]);
    (42651, [42650]); (42787, [42786]); (42789, [42788]); (42791, [42790]);
    (42793, [42792]); (42795, [42794]); (42797, [42796]); (42799, [42798]);
    (42803, [42802]); (42805, [42804]); (42807, [42806]); (42809, [42808]);
    (42811, [42810]); (42813, [42812]); (42815, [42814]); (42817, [42816]);
    (42819, [42818]); (42821, [42820]); (42823, [42822]); (42825, [42824]);
    (42827, [42826]); (42829, [42828]); (42831, [42830]); (42833, [42832]);
    (42835, [42834]); (42837, [42836]); (42839, [42838]); (42841, [42840]);
    (42843, [42842]); (42845, [42844]); (42847, [42846]); (42849, [42848]);
    (42851, [42850]); (42853, [42852]); (42855, [42854]); (42857, [42856]);
    (42859, [42858]); (42861, [42860]); (42863, [42862]); (42874, [42873]);
    (42876, [42875]); (42879, [42878]); (42881, [42880]); (42883, [42882]);
    (42885, [42884]); (42887, [42886]); (42892, [42891]); (42897, [42896]);
    (42899, [42898]); (42900, [42948]); (42903, [42902]); (42905, [42904]);
    (42907, [42906]); (42909, [42908]); (42911, [42910]); (42913, [42912]);
    (42915, [42914]); (42917, [42916]); (42919, [42918]); (42921, [42920]);
    (42933, [42932]); (42935, [42934]); (42937, [42936]); (42939, [42938]);
    (42941, [42940]); (42943, [42942]); (42945, [42944]); (42947, [42946]);
    (42952, [42951]); (42954, [42953]); (42961, [42960]); (42967, [42966]);
    (42969, [42968]); (42998, [42997]); (43859, [42931]); (43888, [5024]);
    (43889, [5025]); (43890, [5026]); (43891, [5027]); (43892, [5028])
  ]%N.

Definition UPPER_TABLE_9 : list (N * list N) :=
  [
    (43893, [5029]); (43894, [5030]); (43895, [5031]); (43896, [5032]);
    (43897, [5033]); (43898, [5034]); (43899, [5035]); (43900, [5036]);
    (43901, [5037]); (43902, [5038]); (43903, [5039]); (43904, [5040]);
    (43905, [5041]); (43906, [5042]); (43907, [5043]); (43908, [5044]);
    (43909, [5045]); (43910, [5046]); (43911, [5047]); (43912, [5048]);
    (43913, [5049]); (43914, [5050]); (43915, [5051]); (43916, [5052]);
    (43917, [5053]); (43918, [5054]); (43919, [5055]); (43920, [5056]);
    (43921, [5057]); (43922, [5058]); (43923, [5059]); (43924, [5060]);
    (43925, [5061]); (43926, [5062]); (43927, [5063]); (43928, [5064]);
    (43929, [5065]); (43930, [5066]); (43931, [5067]); (43932, [5068]);
    (43933, [5069]); (43934, [5070]); (43935, [5071]); (43936, [5072]);
    (43937, [5073]); (43938, [5074]); (43939, [5075]); (43940, [5076]);
    (43941, [5077]); (43942, [5078]); (43943, [5079]); (43944, [5080]);
    (43945, [5081]); (43946, [5082]); (43947, [5083]); (43948, [5084]);
    (43949, [5085]); (43950, [5086]); (43951, [5087]); (43952, [5088]);
    (43953, [5089]); (43954, [5090]); (43955, [5091]); (43956, [5092]);
    (43957, [5093]); (43958, [5094]); (43959, [5095]); (43960, [5096]);
    (43961, [5097]); (43962, [5098]); (43963, [5099]); (43964, [5100]);
    (43965, [5101]); (43966, [5102]); (43967, [5103]); (64256, [70; 70]);
    (64257, [70; 73]); (64258, [70; 76]); (64259, [70; 70; 73]);
    (64260, [70; 70; 76]); (64261, [83; 84]); (64262, [83; 84]);
    (64275, [1348; 1350]); (64276, [1348; 1333]); (64277, [1348; 1339]);
    (64278, [1358; 1350]); (64279, [1348; 1341]); (65345, [65313]);
    (65346, [65314]); (65347, [65315]); (65348, [65316]); (65349, [65317]);
    (65350, [65318]); (65351, [65319]); (65352, [65320]); (65353, [65321]);
    (65354, [65322]); (65355, [65323]); (65356, [65324]); (65357, [65325]);
    (65358, [65326]); (65359, [65327]); (65360, [65328]); (65361, [65329]);
    (65362, [65330]); (65363, [65331]); (65364, [65332]); (65365, [65333]);
    (65366, [65334]); (65367, [65335]); (65368, [65336]); (65369, [65337]);
    (65370, [65338]); (66600, [66560]); (66601, [66561]); (66602, [66562]);
    (66603, [66563]); (66604, [66564]); (66605, [66565]); (66606, [66566]);
    (66607, [66567]); (66608, [66568]); (66609, [66569]); (66610, [66570]);
    (66611, [66571]); (66612, [66572]); (66613, [66573]); (66614, [66574])
  ]%N.

Definition UPPER_TABLE_10 : list (N * list N) :=
  [
    (66615, [66575]); (66616, [66576]); (66617, [66577]); (66618, [66578]);
    (66619, [66579]); (66620, [66580]); (66621, [66581]); (66622, [66582]);
    (66623, [66583]); (66624, [66584]); (66625, [66585]); (66626, [66586]);
    (66627, [66587]); (66628, [66588]); (66629, [66589]); (66630, [66590]);
    (66631, [66591]); (66632, [66592]); (66633, [66593]); (66634, [66594]);
    (66635, [66595]); (66636, [66596]); (66637, [66597]); (66638, [66598]);
    (66639, [66599]); (66776, [66736]); (66777, [66737]); (66778, [66738]);
    (66779, [66739]); (66780, [66740]); (66781, [66741]); (66782, [66742]);
    (66783, [66743]); (66784, [66744]); (66785, [66745]); (66786, [66746]);
    (66787, [66747]); (66788, [66748]); (66789, [66749]); (66790, [66750]);
    (66791, [66751]); (66792, [66752]); (66793, [66753]); (66794, [66754]);
    (66795, [66755]); (66796, [66756]); (66797, [66757]); (66798, [66758]);
    (66799, [66759]); (66800, [66760]); (66801, [66761]); (66802, [66762]);
    (66803, [66763]); (66804, [66764]); (66805, [66765]); (66806, [66766]);
    (66807, [66767]); (66808, [66768]); (66809, [66769]); (66810, [66770]);
    (66811, [66771]); (66967, [66928]); (66968, [66929]); (66969, [66930]);
    (66970, [66931]); (66971, [66932]); (66972, [66933]); (66973, [66934]);
    (66974, [66935]); (66975, [66936]); (66976, [66937]); (66977, [66938]);
    (66979, [66940]); (66980, [66941]); (66981, [66942]); (66982, [66943]);
    (66983, [66944]); (66984, [66945]); (66985, [66946]); (66986, [66947]);
    (66987, [66948]); (66988, [66949]); (66989, [66950]); (66990, [66951]);
    (66991, [66952]); (66992, [66953]); (66993, [66954]); (66995, [66956]);
    (66996, [66957]); (66997, [66958]); (66998, [66959]); (66999, [66960]);
    (67000, [66961]); (67001, [66962]); (67003, [66964]); (67004, [66965]);
    (68800, [68736]); (68801, [68737]); (68802, [68738]); (68803, [68739]);
    (68804, [68740]); (68805, [68741]); (68806, [68742]); (68807, [68743]);
    (68808, [68744]); (68809, [68745]); (68810, [68746]); (68811, [68747]);
    (68812, [68748]); (68813, [68749]); (68814, [68750]); (68815, [68751]);
    (68816, [68752]); (68817, [68753]); (68818, [68754]); (68819, [68755]);
    (68820, [68756]); (68821, [68757]); (68822, [68758]); (68823, [68759]);
    (68824, [68760]); (68825, [68761]); (68826, [68762]); (68827, [68763]);
    (68828, [68764]); (68829, [68765]); (68830, [68766]); (68831, [68767])
  ]%N.

Definition UPPER_TABLE_11 : list (N * list N) :=
  [
    (68832, [68768]); (68833, [68769]); (68834, [68770]); (68835, [68771]);
    (68836, [68772]); (68837, [68773]); (68838, [68774]); (68839, [68775]);
    (68840, [68776]); (68841, [68777]); (68842, [68778]); (68843, [68779]);
    (68844, [68780]); (68845, [68781]); (68846, [68782]); (68847, [68783]);
    (68848, [68784]); (68849, [68785]); (68850, [68786]); (71872, [71840]);
    (71873, [71841]); (71874, [71842]); (71875, [71843]); (71876, [71844]);
    (71877, [71845]); (71878, [71846]); (71879, [71847]); (71880, [71848]);
    (71881, [71849]); (71882, [71850]); (71883, [71851]); (71884, [71852]);
    (71885, [71853]); (71886, [71854]); (71887, [71855]); (71888, [71856]);
    (71889, [71857]); (71890, [71858]); (71891, [71859]); (71892, [71860]);
    (71893, [71861]); (71894, [71862]); (71895, [71863]); (71896, [71864]);
    (71897, [71865]); (71898, [71866]); (71899, [71867]); (71900, [71868]);
    (71901, [71869]); (71902, [71870]); (71903, [71871]); (93792, [93760]);
    (93793, [93761]); (93794, [93762]); (93795, [93763]); (93796, [93764]);
    (93797, [93765]); (93798, [93766]); (93799, [93767]); (93800, [93768]);
    (93801, [93769]); (93802, [93770]); (93803, [93771]); (93804, [93772]);
    (93805, [93773]); (93806, [93774]); (93807, [93775]); (93808, [93776]);
    (93809, [93777]); (93810, [93778]); (93811, [93779]); (93812, [93780]);
    (93813, [93781]); (93814, [93782]); (93815, [93783]); (93816, [93784]);
    (93817, [93785]); (93818, [93786]); (93819, [93787]); (93820, [93788]);
    (93821, [93789]); (93822, [93790]); (93823, [93791]); (125218, [125184]);
    (125219, [125185]); (125220, [125186]); (125221, [125187]);
    (125222, [125188]); (125223, [125189]); (125224, [125190]);
    (125225, [125191]); (125226, [125192]); (125227, [125193]);
    (125228, [125194]); (125229, [125195]); (125230, [125196]);
    (125231, [125197]); (125232, [125198]); (125233, [125199]);
    (125234, [125200]); (125235, [125201]); (125236, [125202]);
    (125237, [125203]); (125238, [125204]); (125239, [125205]);
    (125240, [125206]); (125241, [125207]); (125242, [125208]);
    (125243, [125209]); (125244, [125210]); (125245, [125211]);
    (125246, [125212]); (125247, [125213]); (125248, [125214]);
    (125249, [125215]); (125250, [125216]); (125251, [125217])
  ]%N.

Definition UPPER_TABLE : list (N * list N) :=
  UPPER_TABLE_0 ++ UPPER_TABLE_1 ++ UPPER_TABLE_2 ++ UPPER_TABLE_3
  ++ UPPER_TABLE_4 ++ UPPER_TABLE_5 ++ UPPER_TABLE_6 ++ UPPER_TABLE_7
  ++ UPPER_TABLE_8 ++ UPPER_TABLE_9 ++ UPPER_TABLE_10 ++ UPPER_TABLE_11.

(** The entry of [c] in a table sorted by code point. *)
Fixpoint upper_lookup (t : list (N * list N)) (c : N) : option (list N) :=
  match t with
  | [] => None
  | (k, l) :: t' =>
      if (c =? k)%N then Some l
      else if (c <? k)%N then None
      else upper_lookup t' c
  end.

Definition upper_cp (c : N) : list N :=
  default [c] (upper_lookup UPPER_TABLE c).

Definition upper (s : str) : str := concat (map upper_cp s).

(** The code points Python's [str.strip()] removes ([str.isspace]). *)
Definition isspace (c : N) : bool :=
  ((9 <=? c) && (c <=? 13) || (28 <=? c) && (c <=? 32)
   || (c =? 133) || (c =? 160) || (c =? 5760)
   || (8192 <=? c) && (c <=? 8202)
   || (c =? 8232) || (c =? 8233) || (c =? 8239) || (c =? 8287)
   || (c =? 12288))%N.

Fixpoint lstrip (s : str) : str :=
  match s with
  | c :: s' => if isspace c then lstrip s' else s
  | [] => []
  end.

Definition rstrip (s : str) : str := rev (lstrip (rev s)).

Definition strip (s : str) : str := rstrip (lstrip s).

(** [sep.join(parts)] *)
Fixpoint join (sep : str) (parts : list str) : str :=
  match parts with
  | [] => []
  | [p] => p
  | p :: ps => p ++ sep ++ join sep ps
  end.

(** [s.replace(old, new)] for a one-character [old]. *)
Definition replace1 (old : N) (new : str) (s : str) : str :=
  concat (map (fun c => if (c =? old)%N then new else [c]) s).

(** [s.split(sep)] for a one-character separator. *)
Fixpoint split1 (sep : N) (s : str) : list str :=
  match s with
  | [] => [[]]
  | c :: s' =>
      if (c =? sep)%N then [] :: split1 sep s'
      else match split1 sep s' with
           | w :: ws => (c :: w) :: ws
           | [] => [[c]]
           end
  end.

(** The decimal digits of Unicode (category Nd), which are what [\d]
    matches in a pattern on [str] and what [int] reads: they come in
    runs of ten consecutive code points, for the values 0 to 9. The list
    gives the code point of the zero of each run (Unicode 14.0.0); the
    first run is the ASCII digits. *)
Definition DIGIT_ZEROS : list N :=
  [
    48; 1632; 1776; 1984; 2406; 2534; 2662; 2790; 2918; 3046; 3174; 3302;
    3430; 3558; 3664; 3792; 3872; 4160; 4240; 6112; 6160; 6470; 6608; 6784;
    6800; 6992; 7088; 7232; 7248; 42528; 43216; 43264; 43472; 43504; 43600;
    44016; 65296; 66720; 68912; 69734; 69872; 69942; 70096; 70384; 70736;
    70864; 71248; 71360; 71472; 71904; 72016; 72784; 73040; 73120; 92768;
    92864; 93008; 120782; 120792; 120802; 120812; 120822; 123200; 123632;
    125264; 130032
  ]%N.

(** The value of a decimal digit; [None] for any other code point. *)
Definition digit_value (c : N) : option Z :=
  z ← find (fun z => (z <=? c) && (c <? z + 10))%N DIGIT_ZEROS;
  Some (Z.of_N (c - z)).

Definition isdigit (c : N) : bool :=
  match digit_value c with Some _ => true | None => false end.

(** What is needed of a run of digits: none of its code points is white
    space, a sign or an underscore. *)
Definition digit_run_ok (z : N) : bool :=
  forallb (fun i => let c := (z + N.of_nat i)%N in
                    negb (isspace c) && negb (c =? 45)%N && negb (c =? 43)%N
                    && negb (c =? 95)%N)
          (seq 0 10).

(** What is needed of an entry of the case table: the code point is not
    white space, and its mapping is not empty and made of code points
    that are not white space and are their own mapping. *)
Definition upper_entry_ok (e : N * list N) : bool :=
  negb (isspace (fst e))
  && match snd e with [] => false | _ :: _ => true end
  && forallb (fun d => negb (isspace d)
                       && match upper_lookup UPPER_TABLE d with
                          | None => true
                          | Some _ => false
                          end)
             (snd e).

(** The keys of a table increase strictly. *)
Fixpoint increasing (lo : option N) (t : list (N * list N)) : bool :=
  match t with
  | [] => true
  | (k, _) :: t' =>
      match lo with Some l => (l <? k)%N | None => true end
      && increasing (Some k) t'
  end.

(** Value of a run of decimal digits ([int] on a digit string). *)
Definition digits_value (s : str) : Z :=
  fold_left (fun acc c => 10 * acc + default 0 (digit_value c)) s 0.

(** [str(n)] for an int. *)
Definition str_of_Z (n : Z) : str := u (pretty n).

(** [f"{n:0wd}"] for a non-negative int: zero padded to width [w]. *)
Definition zero_pad (w : nat) (n : Z) : str :=
  let d := str_of_Z n in
  replicate (w - length d) 48%N ++ d.

End Text.
Export Text.

(* ===================================================================== *)
(** ** Exceptions, results and the state monad *)
(* ===================================================================== *)

Module Py.

Inductive exn_kind :=
| ValueError | RuntimeError | TypeError | AttributeError | KeyError
| IndexError | ZeroDivisionError | OverflowError
| RequestError.  (* anything raised by the HTTP client *)

(** An exception: its class and [str(e)]. The texts of exceptions raised
    by the interpreter follow CPython and are informative only. *)
Record exn := Exn { exn_kind_of : exn_kind; exn_msg : str }.

Inductive result (A : Type) :=
| Ok (a : A)
| Err (e : exn).
Arguments Ok {A} a.
Arguments Err {A} e.

Definition is_ok {A} (r : result A) : bool :=
  match r with Ok _ => true | Err _ => false end.

#[global] Instance result_ret : MRet result := @Ok.
#[global] Instance result_bind : MBind result := fun A B f r =>
  match r with Ok a => f a | Err e => Err e end.

(** Computations over a state [S]: the value or the exception, and the
    state reached in either case. *)
Definition M (S A : Type) : Type := S -> result A * S.

#[global] Instance M_ret {S} : MRet (M S) := fun A a st => (Ok a, st).
#[global] Instance M_bind {S} : MBind (M S) := fun A B f m st =>
  match m st with
  | (Ok a, st') => f a st'
  | (Err e, st') => (Err e, st')
  end.

Definition raise {S A} (e : exn) : M S A := fun st => (Err e, st).

Definition lift {S A} (r : result A) : M S A := fun st => (r, st).

(** [try: m  except Exception as e: h e] *)
Definition try_except {S A} (m : M S A) (h : exn -> M S A) : M S A :=
  fun st =>
    match m st with
    | (Ok a, st') => (Ok a, st')
    | (Err e, st') => h e st'
    end.

Definition get_state {S} : M S S := fun st => (Ok st, st).
Definition modify {S} (f : S -> S) : M S unit := fun st => (Ok tt, f st).

End Py.
Export Py.

(* ===================================================================== *)
(** ** Decoded JSON and the Python operations applied to it *)
(* ===================================================================== *)

Module Json.

(** What [r.json()] returns. Numbers are integers: every number the code
    reads (identifiers, points, minutes) is an integer field of the
    provider; JSON floats are outside the model. An object is the list of
    its members in document order; [dict_get] reads the first binding of a
    key. *)
Inductive json :=
| JNull
| JBool (b : bool)
| JInt (n : Z)
| JStr (s : str)
| JArr (l : list json)
| JObj (kv : list (str * json)).

Definition type_name (j : json) : str :=
  match j with
  | JNull => "NoneType" | JBool _ => "bool" | JInt _ => "int"
  | JStr _ => "str" | JArr _ => "list" | JObj _ => "dict"
  end.

(** Truth value: [bool(x)], [if x], [not x], [x or y]. *)
Definition truthy (j : json) : bool :=
  match j with
  | JNull => false
  | JBool b => b
  | JInt n => negb (n =? 0)
  | JStr s => negb (bool_decide (s = []))
  | JArr l => negb (bool_decide (l = []))
  | JObj kv => negb (bool_decide (kv = []))
  end.

Definition py_or (a b : json) : json := if truthy a then a else b.

Fixpoint dict_get (kv : list (str * json)) (k : str) : option json :=
  match kv with
  | [] => None
  | (k', v) :: kv' => if bool_decide (k' = k) then Some v else dict_get kv' k
  end.

Definition no_attribute (j : json) (attr : str) : exn :=
  Exn AttributeError
      ("'" +++ type_name j +++ "' object has no attribute '" +++ attr +++ "'").

(** [x.get(k, default)] *)
Definition py_get (x : json) (k : str) (default : json) : result json :=
  match x with
  | JObj kv => Ok (match dict_get kv k with Some v => v | None => default end)
  | _ => Err (no_attribute x "get")
  end.

Definition not_subscriptable (j : json) : exn :=
  Exn TypeError ("'" +++ type_name j +++ "' object is not subscriptable").

(** [x[k]] for a string key. *)
Definition py_item (x : json) (k : str) : result json :=
  match x with
  | JObj kv =>
      match dict_get kv k with
      | Some v => Ok v
      | None => Err (Exn KeyError ("'" +++ k +++ "'"))
      end
  | JArr _ =>
      Err (Exn TypeError "list indices must be integers or slices, not str")
  | JStr _ => Err (Exn TypeError "string indices must be integers, not 'str'")
  | _ => Err (not_subscriptable x)
  end.

(** [x[0]]. A decoded object has string keys only, so [0] is never one. *)
Definition py_item0 (x : json) : result json :=
  match x with
  | JArr (v :: _) => Ok v
  | JArr [] => Err (Exn IndexError "list index out of range")
  | JStr (c :: _) => Ok (JStr [c])
  | JStr [] => Err (Exn IndexError "string index out of range")
  | JObj _ => Err (Exn KeyError "0")
  | _ => Err (not_subscriptable x)
  end.

(** The items a [for] loop (or a generator) visits. *)
Definition py_iter (x : json) : result (list json) :=
  match x with
  | JArr l => Ok l
  | JObj kv => Ok (map (fun p => JStr (fst p)) kv)
  | JStr s => Ok (map (fun c => JStr [c]) s)
  | _ => Err (Exn TypeError ("'" +++ type_name x +++ "' object is not iterable"))
  end.

(** Is [body] a decimal literal that [int()] accepts after the sign:
    digits, with single underscores between digits. *)
Fixpoint int_body (after_digit : bool) (body : str) : bool :=
  match body with
  | [] => after_digit
  | c :: r =>
      if isdigit c then int_body true r
      else if (c =? 95)%N then after_digit && int_body false r
      else false
  end.

(** [int(s)] for a string: white space around, a sign, a decimal body. *)
Definition int_of_str (s : str) : option Z :=
  let t := strip s in
  let sign := match t with c :: _ => if (c =? 45)%N then -1 else 1 | [] => 1 end in
  let body :=
    match t with
    | c :: r => if (c =? 45)%N || (c =? 43)%N then r else t
    | [] => t
    end in
  if int_body false body
  then Some (sign * digits_value (List.filter isdigit body))
  else None.

(** [int(x)] *)
Definition py_int (x : json) : result Z :=
  match x with
  | JInt n => Ok n
  | JBool b => Ok (if b then 1 else 0)
  | JStr s =>
      match int_of_str s with
      | Some n => Ok n
      | None =>
          Err (Exn ValueError
                   ("invalid literal for int() with base 10: '" +++ s +++ "'"))
      end
  | _ =>
      Err (Exn TypeError
               ("int() argument must be a string, a bytes-like object or a "
                +++ "real number, not '" +++ type_name x +++ "'"))
  end.

(** [repr(x)]; the quoting of a string is the plain one (exact when the
    string has no quote, backslash or control character). *)
Fixpoint py_repr (x : json) : str :=
  match x with
  | JNull => "None"
  | JBool b => if b then "True" else "False"
  | JInt n => str_of_Z n
  | JStr s => "'" +++ s +++ "'"
  | JArr l => "[" +++ join ", " (map py_repr l) +++ "]"
  | JObj kv =>
      "{" +++ join ", " (map (fun p => "'" +++ fst p +++ "': " +++ py_repr (snd p)) kv)
      +++ "}"
  end.

(** [str(x)], also what an f-string prints. *)
Definition py_str (x : json) : str :=
  match x with
  | JStr s => s
  | _ => py_repr x
  end.

(** [x == s] for a string literal [s]. *)
Definition eq_str (x : json) (s : str) : bool :=
  match x with
  | JStr t => bool_decide (t = s)
  | _ => false
  end.

End Json.
Export Json.

(* ===================================================================== *)
(** ** Calendar dates and date-times *)
(* ===================================================================== *)

Module Calendar.

(** [datetime.date] *)
Record date := Date { year : Z; month : Z; day : Z }.

Definition is_leap (y : Z) : bool :=
  (y mod 4 =? 0) && (negb (y mod 100 =? 0) || (y mod 400 =? 0)).

Definition days_in_month (y m : Z) : Z :=
  if m =? 2 then (if is_leap y then 29 else 28)
  else if (m =? 4) || (m =? 6) || (m =? 9) || (m =? 11) then 30
  else 31.

(** [dt.date(y, m, d)]: the constructor checks year, month and day in
    this order and raises [ValueError]. *)
Definition date_new (y m d : Z) : result date :=
  if negb ((1 <=? y) && (y <=? 9999))
  then Err (Exn ValueError ("year " +++ str_of_Z y +++ " is out of range"))
  else if negb ((1 <=? m) && (m <=? 12))
  then Err (Exn ValueError "month must be in 1..12")
  else if negb ((1 <=? d) && (d <=? days_in_month y m))
  then Err (Exn ValueError "day is out of range for month")
  else Ok (Date y m d).

Definition valid_date (y m d : Z) : bool :=
  (1 <=? y) && (y <=? 9999) && (1 <=? m) && (m <=? 12)
  && (1 <=? d) && (d <=? days_in_month y m).

(** [a < b] on dates: by year, then month, then day. *)
Definition date_ltb (a b : date) : bool :=
  (year a <? year b)
  || (year a =? year b)
     && ((month a <? month b) || (month a =? month b) && (day a <? day b)).

(** [a >= b] *)
Definition date_geb (a b : date) : bool := negb (date_ltb a b).

(** [d + timedelta(days=1)] *)
Definition next_day (d : date) : result date :=
  if day d <? days_in_month (year d) (month d)
  then Ok (Date (year d) (month d) (day d + 1))
  else if month d <? 12 then Ok (Date (year d) (month d + 1) 1)
  else if year d <? 9999 then Ok (Date (year d + 1) 1 1)
  else Err (Exn OverflowError "date value out of range").

(** [str(d)], [d.isoformat()] *)
Definition date_isoformat (d : date) : str :=
  zero_pad 4 (year d) +++ "-" +++ zero_pad 2 (month d) +++ "-"
  +++ zero_pad 2 (day d).

(** Days before January 1st of year [y], and ordinal of a date
    (January 1st of year 1 is day 1). *)
Definition days_before_year (y : Z) : Z :=
  (y - 1) * 365 + (y - 1) / 4 - (y - 1) / 100 + (y - 1) / 400.

Definition days_before_month (y m : Z) : Z :=
  fold_right Z.add 0
    (map (days_in_month y) (map Z.of_nat (seq 1 (Z.to_nat (m - 1))))).

Definition ymd2ord (d : date) : Z :=
  days_before_year (year d) + days_before_month (year d) (month d) + day d.

(** [datetime.datetime]: the calendar date and the time of day it shows,
    and its UTC offset when it is aware (both in microseconds). *)
Record datetime := DateTime {
  dt_date : date;          (* [.date()] *)
  dt_usec : Z;
  dt_utcoffset : option Z
}.

Definition aware (t : datetime) : bool :=
  match dt_utcoffset t with Some _ => true | None => false end.

(** The position of a date-time on the time line: two aware date-times
    compare by their UTC instants, two naive ones by their fields. *)
Definition dt_instant (t : datetime) : Z :=
  ymd2ord (dt_date t) * 86400000000 + dt_usec t
  - match dt_utcoffset t with Some o => o | None => 0 end.

End Calendar.
Export Calendar.

(* ===================================================================== *)
(** ** Sorting and slicing *)
(* ===================================================================== *)

Module Seq.

(** [l.sort(key=key, reverse=True)]: a stable sort, largest key first;
    items with equal keys keep their order. [ltb] is [<] on keys. For a
    strict weak order the result of a stable sort does not depend on the
    algorithm; insertion is used here. *)
Section Sort.
Context {A K : Type} (ltb : K -> K -> bool) (key : A -> K).

Fixpoint insert_desc (x : A) (l : list A) : list A :=
  match l with
  | [] => [x]
  | y :: l' =>
      if ltb (key x) (key y) then y :: insert_desc x l' else x :: y :: l'
  end.

Definition sort_desc (l : list A) : list A := fold_right insert_desc [] l.

(** [x] may stand before [y]: its key is not below the key of [y]. *)
Definition not_below (x y : A) : Prop := ltb (key x) (key y) = false.
End Sort.

(** [l[:n]] *)
Definition slice_to {A} (n : Z) (l : list A) : list A :=
  if 0 <=? n then take (Z.to_nat n) l
  else take (Z.to_nat (Z.of_nat (length l) + n)) l.

(** [l[s:]] *)
Definition slice_from {A} (s : Z) (l : list A) : list A :=
  if 0 <=? s then drop (Z.to_nat s) l
  else drop (Z.to_nat (Z.of_nat (length l) + s)) l.

(** [range(0, stop, step)] for a positive step: [0, step, 2*step, ...]
    below [stop]. *)
Definition range_step (stop step : nat) : list nat :=
  map (fun k => k * step)%nat (seq 0 ((stop + step - 1) / step)%nat).

Fixpoint fold_result {A B} (f : A -> B -> result A) (a : A) (l : list B)
  : result A :=
  match l with
  | [] => Ok a
  | b :: l' => a' ← f a b; fold_result f a' l'
  end.

End Seq.
Export Seq.

(* ===================================================================== *)
(** ** nba_predictions.py *)
(* ===================================================================== *)

Module NBA.

(** *** Configuration *)

Definition ESPN_SCOREBOARD_URLS : list str :=
  [ u "https://site.api.espn.com/apis/site/v2/sports/basketball/nba/scoreboard";
    u "https://site.web.api.espn.com/apis/v2/sports/basketball/nba/scoreboard" ].

Definition ESPN_TEAMS_URL : str :=
  "https://site.api.espn.com/apis/site/v2/sports/basketball/nba/teams".

(** [ESPN_TEAM_SCHEDULE_URL.format(team_id=team_id)] *)
Definition ESPN_TEAM_SCHEDULE_URL (team_id : Z) : str :=
  "https://site.api.espn.com/apis/site/v2/sports/basketball/nba/teams/"
  +++ str_of_Z team_id +++ "/schedule".

Definition ABBR_FIX_items : list (str * str) :=
  [ (u "GS", u "GSW"); (u "SA", u "SAS"); (u "NY", u "NYK");
    (u "WSH", u "WAS"); (u "NO", u "NOP"); (u "PHO", u "PHX");
    (u "BRK", u "BKN"); (u "CHO", u "CHA") ].

Definition ABBR_FIX : gmap str str := list_to_map ABBR_FIX_items.

Definition MAX_RETRIES : Z := 4.
Definition TEAM_MAP_TTL_SECONDS : Z := 6 * 60 * 60.

Record Matchup := { away_abbr : str; home_abbr : str }.

(** *** Pure helpers *)

Definition normalize_abbr (abbr : str) : str :=
  let abbr := strip (upper abbr) in
  default abbr (ABBR_FIX !! abbr).

(** [normalize_abbr] on a decoded value: the [or] replaces every false
    value by the empty string; a true value that is not a string has no
    [upper]. *)
Definition normalize_abbr_any (abbr : json) : result str :=
  if truthy abbr then
    match abbr with
    | JStr s => Ok (normalize_abbr s)
    | _ => Err (no_attribute abbr "upper")
    end
  else Ok (normalize_abbr []).

(** [re.fullmatch(r"\d{4}-\d{2}-\d{2}", arg)]: ten code points, the
    digits being any decimal digits. *)
Definition date_pattern (arg : str) : bool :=
  match arg with
  | [y1; y2; y3; y4; h1; m1; m2; h2; d1; d2] =>
      isdigit y1 && isdigit y2 && isdigit y3 && isdigit y4 && (h1 =? 45)%N
      && isdigit m1 && isdigit m2 && (h2 =? 45)%N && isdigit d1 && isdigit d2
  | _ => false
  end.

Definition int_of_part (s : str) : result Z := py_int (JStr s).

Definition parse_date_arg (arg : option str) : result (option date) :=
  match arg with
  | None => Ok None
  | Some [] => Ok None
  | Some arg =>
      if negb (date_pattern arg) then Ok None
      else
        parts ← fold_result (fun acc p => n ← int_of_part p; Ok (acc ++ [n]))
                            [] (split1 45 arg);
        match parts with
        | [y; m; d] => dt ← date_new y m d; Ok (Some dt)
        | _ => Err (Exn ValueError "wrong number of values to unpack")
        end
  end.

(** [d.strftime("%Y%m%d")]: month and day on two digits, the year as
    the C library prints it, which is without padding for the years
    before 1000 (glibc). *)
Definition date_to_yyyymmdd (d : date) : str :=
  str_of_Z (year d) +++ zero_pad 2 (month d) +++ zero_pad 2 (day d).

Definition espn_season_year_for_date (d : date) : Z :=
  if 10 <=? month d then year d else year d - 1.

(** *** The process state and its environment *)

Record team := Team { team_id : Z; team_name : str }.

Record state := State {
  TEAM_MAP_CACHE : option (gmap str team);
  TEAM_MAP_CACHE_TS : Z;
  SCHEDULE_WINS_CACHE : gmap (Z * Z * str) (list bool);
  clock : Z;            (* what [time.time()] reads, in seconds *)
  http_calls : nat;     (* HTTP requests issued so far *)
  outbox : list str     (* texts the chat has taken, in order *)
}.

Definition initial_state (now : Z) : state :=
  State None 0 ∅ now 0 [].

Record request := Request { req_url : str; req_params : list (str * str) }.

(** What the process does not define itself: the provider's answer to the
    n-th HTTP request ([session.get], [raise_for_status] and [r.json()]
    taken together), [datetime.fromisoformat] ([None] where it raises
    [ValueError]), and the UTC calendar date at a clock reading. *)
Record world := World {
  provider : nat -> request -> result json;
  fromisoformat : str -> option datetime;
  utcnow_date : Z -> date
}.

(** What a handler reads of the incoming update: [update.message], which
    is [None] when the update carries no message (the command came as an
    edited message, for instance), and else what [reply_text(text)] on
    it does, given the number of texts the chat holds so far: it returns,
    or raises the exception [e] ([Err e]). *)
Record Update := { message : option (nat -> str -> result unit) }.

Definition set_team_map (m : gmap str team) (ts : Z) (st : state) : state :=
  State (Some m) ts (SCHEDULE_WINS_CACHE st) (clock st) (http_calls st)
        (outbox st).

Definition set_schedule (k : Z * Z * str) (v : list bool) (st : state)
  : state :=
  State (TEAM_MAP_CACHE st) (TEAM_MAP_CACHE_TS st)
        (<[k := v]> (SCHEDULE_WINS_CACHE st)) (clock st) (http_calls st)
        (outbox st).

(** [time.sleep(secs)] *)
Definition sleep (secs : Z) : M state unit :=
  modify (fun st =>
    State (TEAM_MAP_CACHE st) (TEAM_MAP_CACHE_TS st) (SCHEDULE_WINS_CACHE st)
          (clock st + secs) (http_calls st) (outbox st)).

Section WithWorld.
Context (W : world).

(** One [session.get(...)], [raise_for_status()], [r.json()]. *)
Definition http_get (req : request) : M state json :=
  fun st =>
    (provider W (http_calls st) req,
     State (TEAM_MAP_CACHE st) (TEAM_MAP_CACHE_TS st) (SCHEDULE_WINS_CACHE st)
           (clock st) (S (http_calls st)) (outbox st)).

(** The loop of [get_json_with_retries] over the remaining attempts. *)
Fixpoint retry_from (attempts : list Z) (last_err : option exn)
  (req : request) : M state json :=
  match attempts with
  | [] =>
      match last_err with
      | Some e => raise e
      | None => raise (Exn TypeError "exceptions must derive from BaseException")
      end
  | attempt :: rest =>
      try_except (http_get req)
        (fun e => sleep (Z.min (2 ^ attempt) 10);; retry_from rest (Some e) req)
  end.

Definition get_json_with_retries (url : str) (params : list (str * str))
  : M state json :=
  retry_from (map Z.of_nat (seq 1 (Z.to_nat MAX_RETRIES))) None
             (Request url params).

(** *** Team directory *)

(** The body of the loop over [teams_list]. *)
Definition team_entry (m : gmap str team) (item : json)
  : result (gmap str team) :=
  t ← py_get (py_or item (JObj [])) "team" (JObj []);
  let team := py_or t (JObj []) in
  tid ← py_get team "id" JNull;
  a ← py_get team "abbreviation" (JStr []);
  abbr ← normalize_abbr_any a;
  sdn ← py_get team "shortDisplayName" JNull;
  dn ← py_get team "displayName" JNull;
  let name := py_or sdn (py_or dn (JStr abbr)) in
  if truthy tid && negb (bool_decide (abbr = [])) then
    id ← py_int tid;
    Ok (<[abbr := Team id (py_str name)]> m)
  else Ok m.

Definition parse_team_list (data : json) : result (gmap str team) :=
  sports ← py_get data "sports" (JArr []);
  leagues ← (if truthy sports
             then s0 ← py_item0 sports; py_get s0 "leagues" (JArr [])
             else Ok (JArr []));
  teams_list ← (if truthy leagues
                then l0 ← py_item0 leagues; py_get l0 "teams" (JArr [])
                else Ok (JArr []));
  items ← py_iter teams_list;
  m ← fold_result team_entry ∅ items;
  if bool_decide (m = ∅)
  then Err (Exn RuntimeError "Failed to load team list from ESPN.")
  else Ok m.

(** [TEAM_MAP_CACHE and (now - TEAM_MAP_CACHE_TS) < TEAM_MAP_TTL_SECONDS] *)
Definition team_map_fresh (st : state) : option (gmap str team) :=
  match TEAM_MAP_CACHE st with
  | Some m =>
      if negb (bool_decide (m = ∅))
         && (clock st - TEAM_MAP_CACHE_TS st <? TEAM_MAP_TTL_SECONDS)
      then Some m else None
  | None => None
  end.

Definition load_team_map : M state (gmap str team) :=
  st ← get_state;
  let now := clock st in
  match team_map_fresh st with
  | Some m => mret m
  | None =>
      data ← get_json_with_retries ESPN_TEAMS_URL [];
      m ← lift (parse_team_list data);
      modify (set_team_map m now);;
      mret m
  end.

(** *** Schedule wins *)

(** [t = c.get("team", {}) or {}] and [tid = t.get("id")]. *)
Definition read_team_id (c : json) : result json :=
  t0 ← py_get c "team" (JObj []);
  py_get (py_or t0 (JObj [])) "id" JNull.

(** The loop over [competitors]: the winner flag of the first competitor
    whose team identifier equals [team_id]; [None] when the loop ends
    without one ([team_won is None]). *)
Fixpoint find_team_won (team_id : Z) (competitors : list json)
  : result (option bool) :=
  match competitors with
  | [] => Ok None
  | c :: rest =>
      tid ← read_team_id c;
      match tid with
      | JNull => find_team_won team_id rest
      | _ =>
          n ← py_int tid;
          if n =? team_id
          then w ← py_get c "winner" JNull; Ok (Some (truthy w))
          else find_team_won team_id rest
      end
  end.

(** [dt.datetime.fromisoformat(date_str.replace("Z", "+00:00"))] inside
    its [try]: every failure, also that of a value without [replace],
    ends in [continue]. *)
Definition parse_game_dt (date_str : json) : option datetime :=
  match date_str with
  | JStr s => fromisoformat W (replace1 90 "+00:00" s)
  | _ => None
  end.

(** The body of the loop over [events]: [Ok None] is a [continue],
    [Ok (Some (game_dt, team_won))] is what is appended to [wins]. *)
Definition scan_event (team_id : Z) (cutoff_date : date) (ev : json)
  : result (option (datetime * bool)) :=
  date_str ← py_get ev "date" JNull;
  if negb (truthy date_str) then Ok None
  else
    match parse_game_dt date_str with
    | None => Ok None
    | Some game_dt =>
        if date_geb (dt_date game_dt) cutoff_date then Ok None
        else
          comps ← py_get ev "competitions" (JArr []);
          if negb (truthy comps) then Ok None
          else
            comp ← py_item0 comps;
            st0 ← py_get comp "status" (JObj []);
            st1 ← py_get st0 "type" (JObj []);
            let status := py_or st1 (JObj []) in
            completed ← py_get status "completed" JNull;
            if negb (truthy completed) then Ok None
            else
              cs ← py_get comp "competitors" (JArr []);
              competitors ← py_iter (py_or cs (JArr []));
              team_won ← find_team_won team_id competitors;
              match team_won with
              | None => Ok None
              | Some w => Ok (Some (game_dt, w))
              end
    end.

Fixpoint scan_events (team_id : Z) (cutoff_date : date) (events : list json)
  : result (list (datetime * bool)) :=
  match events with
  | [] => Ok []
  | ev :: rest =>
      r ← scan_event team_id cutoff_date ev;
      wins ← scan_events team_id cutoff_date rest;
      Ok (match r with Some w => w :: wins | None => wins end)
  end.

(** [wins.sort(key=lambda x: x[0], reverse=True)]. Ordering a naive and
    an aware date-time raises [TypeError]; a sort of two or more items
    compares across any split of them, so it raises exactly when both
    kinds are present. *)
Definition comparable (wins : list (datetime * bool)) : bool :=
  match wins with
  | [] => true
  | w :: ws => forallb (fun x => eqb (aware (fst x)) (aware (fst w))) ws
  end.

Definition sort_wins (wins : list (datetime * bool))
  : result (list (datetime * bool)) :=
  if comparable wins
  then Ok (sort_desc Z.ltb (fun x => dt_instant (fst x)) wins)
  else Err (Exn TypeError
                "can't compare offset-naive and offset-aware datetimes").

(** From the decoded schedule to [win_flags]. *)
Definition compute_win_flags (team_id : Z) (cutoff_date : date) (data : json)
  : result (list bool) :=
  ev0 ← py_get data "events" (JArr []);
  events ← py_iter (py_or ev0 (JArr []));
  wins ← scan_events team_id cutoff_date events;
  sorted ← sort_wins wins;
  Ok (map snd sorted).

Definition cache_key (team_id season_year : Z) (cutoff_date : date)
  : Z * Z * str :=
  (team_id, season_year, date_to_yyyymmdd cutoff_date).

Definition fetch_team_recent_wins (team_id season_year : Z)
  (cutoff_date : date) : M state (list bool) :=
  st ← get_state;
  match SCHEDULE_WINS_CACHE st !! cache_key team_id season_year cutoff_date with
  | Some win_flags => mret win_flags
  | None =>
      data ← get_json_with_retries (ESPN_TEAM_SCHEDULE_URL team_id)
               [(u "season", str_of_Z season_year)];
      win_flags ← lift (compute_win_flags team_id cutoff_date data);
      modify (set_schedule (cache_key team_id season_year cutoff_date)
                           win_flags);;
      mret win_flags
  end.

(** [sum(1 for x in sample if x)] *)
Definition count_wins (sample : list bool) : Z :=
  Z.of_nat (length (filter (fun x => x = true) sample)).

(** The body of [record_last_n] after the fetch. [win_flags] is the list
    held by the cache itself; it is only sliced, which copies. *)
Definition record_of (win_flags : list bool) (n : Z) : Z * Z :=
  let sample := slice_to n win_flags in
  let w := count_wins sample in
  (w, Z.of_nat (length sample) - w).

Definition record_last_n (team_id season_year : Z) (cutoff_date : date)
  (n : Z) : M state (Z * Z) :=
  win_flags ← fetch_team_recent_wins team_id season_year cutoff_date;
  mret (record_of win_flags n).

(** *** Scoreboard *)

(** The loop over [competitors] of one event: the last [home] and the
    last [away] seen. *)
Fixpoint scan_sides (competitors : list json) (home away : option str)
  : result (option str * option str) :=
  match competitors with
  | [] => Ok (home, away)
  | c :: rest =>
      t0 ← py_get c "team" (JObj []);
      let team := py_or t0 (JObj []) in
      a ← py_get team "abbreviation" (JStr []);
      abbr ← normalize_abbr_any a;
      side ← py_get c "homeAway" JNull;
      if eq_str side "home" then scan_sides rest (Some abbr) away
      else if eq_str side "away" then scan_sides rest home (Some abbr)
      else scan_sides rest home away
  end.

(** [if home and away: games.append(Matchup(away_abbr=away, home_abbr=home))] *)
Definition matchup_of (home away : option str) : option Matchup :=
  match home, away with
  | Some (h :: hs), Some (a :: as_) =>
      Some {| away_abbr := a :: as_; home_abbr := h :: hs |}
  | _, _ => None
  end.

Fixpoint scan_games (events : list json) : result (list Matchup) :=
  match events with
  | [] => Ok []
  | ev :: rest =>
      comps ← py_get ev "competitions" (JArr []);
      if negb (truthy comps) then scan_games rest
      else
        c0 ← py_item0 comps;
        cs ← py_get c0 "competitors" (JArr []);
        competitors ← py_iter (py_or cs (JArr []));
        sides ← scan_sides competitors None None;
        games ← scan_games rest;
        match matchup_of (fst sides) (snd sides) with
        | Some g => Ok (g :: games)
        | None => Ok games
        end
  end.

Definition parse_scoreboard (data : json) : result (list Matchup) :=
  ev0 ← py_get data "events" (JArr []);
  events ← py_iter (py_or ev0 (JArr []));
  scan_games events.

(** The loop over [ESPN_SCOREBOARD_URLS]; the whole body is in the [try]. *)
Fixpoint scoreboard_from (urls : list str) (params : list (str * str))
  (last_error : option exn) : M state (list Matchup) :=
  match urls with
  | [] =>
      match last_error with
      | Some e => raise e
      | None => raise (Exn RuntimeError "Error fetching ESPN scoreboard")
      end
  | url :: rest =>
      try_except
        (data ← get_json_with_retries url params;
         lift (parse_scoreboard data))
        (fun e => scoreboard_from rest params (Some e))
  end.

Definition fetch_scoreboard_games_utc (game_date_utc : date)
  : M state (list Matchup) :=
  scoreboard_from ESPN_SCOREBOARD_URLS
                  [(u "dates", date_to_yyyymmdd game_date_utc)] None.

(** *** Prediction *)

Record breakdown := Breakdown {
  info_away : str;
  info_home : str;
  away10 : Z * Z;
  home10 : Z * Z;
  away5 : option (Z * Z);
  home5 : option (Z * Z);
  reason : str
}.

Definition unknown_team (abbr : str) : exn :=
  Exn ValueError ("Unknown team abbreviation: " +++ abbr).

Definition pick_winner (away_abbr home_abbr : str) (cutoff_date : date)
  : M state (str * breakdown) :=
  let away := normalize_abbr away_abbr in
  let home := normalize_abbr home_abbr in
  team_map ← load_team_map;
  match team_map !! away with
  | None => raise (unknown_team away)
  | Some away_team =>
  match team_map !! home with
  | None => raise (unknown_team home)
  | Some home_team =>
      let away_id := team_id away_team in
      let home_id := team_id home_team in
      let season_year := espn_season_year_for_date cutoff_date in
      a10 ← record_last_n away_id season_year cutoff_date 10;
      h10 ← record_last_n home_id season_year cutoff_date 10;
      if negb (fst a10 =? fst h10) then
        let winner := if fst h10 <? fst a10 then away else home in
        mret (winner, Breakdown away home a10 h10 None None "last10")
      else
        a5 ← record_last_n away_id season_year cutoff_date 5;
        h5 ← record_last_n home_id season_year cutoff_date 5;
        if negb (fst a5 =? fst h5) then
          let winner := if fst h5 <? fst a5 then away else home in
          mret (winner, Breakdown away home a10 h10 (Some a5) (Some h5) "last5")
        else
          mret (home,
                Breakdown away home a10 h10 (Some a5) (Some h5) "home_tiebreak")
  end end.

(** [f"{w}-{l}"] *)
Definition record_text (r : Z * Z) : str :=
  str_of_Z (fst r) +++ "-" +++ str_of_Z (snd r).

(** The arrow and the two pictographs of the report, by code point. *)
Definition ARROW : str := [8594%N].
Definition TROPHY : str := [127942%N].
Definition BASKETBALL : str := [127936%N].

Definition format_prediction (winner : str) (info : breakdown) : str :=
  let away := info_away info in
  let home := info_home info in
  let line := away +++ " @ " +++ home +++ "  " +++ ARROW +++ "  " +++ TROPHY
              +++ " *" +++ winner +++ "*" in
  let line := line +++ [10%N] +++ "Last10: " +++ away +++ " "
              +++ record_text (away10 info) +++ " | " +++ home +++ " "
              +++ record_text (home10 info) in
  let line :=
    match away5 info, home5 info with
    | Some a5, Some h5 =>
        line +++ [10%N] +++ "Last5:  " +++ away +++ " " +++ record_text a5
        +++ " | " +++ home +++ " " +++ record_text h5
    | _, _ => line
    end in
  if bool_decide (reason info = u "home_tiebreak")
  then line +++ [10%N] +++ "Tie-break: home team"
  else line.

(** *** The /preds command *)

(** [send_text]: [TARGET_CHAT_ID] is [None], so the text can only go out
    as the reply to the update, and does so when [update and
    update.message]; otherwise nothing happens. What [reply_text]
    raises is raised here; a text it accepted is in the outbox. *)
Definition send_text (update : option Update) (text : str) : M state unit :=
  fun st =>
    match update with
    | Some {| message := Some reply_text |} =>
        match reply_text (length (outbox st)) text with
        | Ok _ =>
            (Ok tt,
             State (TEAM_MAP_CACHE st) (TEAM_MAP_CACHE_TS st)
                   (SCHEDULE_WINS_CACHE st) (clock st) (http_calls st)
                   (outbox st ++ [text]))
        | Err e => (Err e, st)
        end
    | _ => (Ok tt, st)
    end.

Definition get_tomorrow_utc : M state date :=
  st ← get_state;
  lift (next_day (utcnow_date W (clock st))).

(** The body of the loop over [games]: the prediction, or the inline
    error line of the [except] branch. *)
Definition error_line (g : Matchup) (e : exn) : str :=
  normalize_abbr (away_abbr g) +++ " @ " +++ normalize_abbr (home_abbr g)
  +++ "  " +++ ARROW +++ "  (error: " +++ exn_msg e +++ ")".

Definition matchup_line (d : date) (g : Matchup) : M state str :=
  try_except
    (r ← pick_winner (away_abbr g) (home_abbr g) d;
     mret (format_prediction (fst r) (snd r)))
    (fun e => mret (error_line g e)).

Fixpoint matchup_lines (d : date) (games : list Matchup)
  : M state (list str) :=
  match games with
  | [] => mret []
  | g :: rest =>
      line ← matchup_line d g;
      lines ← matchup_lines d rest;
      mret (line :: lines)
  end.

Definition report_header (d : date) : str :=
  BASKETBALL +++ " NBA predictions for *" +++ date_isoformat d
  +++ " (UTC)*" +++ [10%N] +++ "Season start year: "
  +++ str_of_Z (espn_season_year_for_date d) +++ [10%N].

(** The texts sent for a report of [MAX]-character blocks:
    [text] itself when it fits, else [text[i:i+MAX]] for
    [i in range(0, len(text), MAX)]. *)
Definition chunks (MAX : nat) (text : str) : list str :=
  if (length text <=? MAX)%nat then [text]
  else map (fun i => take MAX (drop i text)) (range_step (length text) MAX).

Fixpoint send_all (update : option Update) (texts : list str)
  : M state unit :=
  match texts with
  | [] => mret tt
  | t :: rest => send_text update t;; send_all update rest
  end.

Definition MAX : nat := 3500.

Definition preds_cmd (update : Update) (args : list str) : M state unit :=
  let arg := head args in
  d ← match arg with
      | Some (c :: a) => lift (parse_date_arg (Some (c :: a)))
      | _ => dt ← get_tomorrow_utc; mret (Some dt)
      end;
  match d with
  | None => send_text (Some update) "Use: /preds or /preds YYYY-MM-DD (UTC)"
  | Some d =>
      try_except
        (games ← fetch_scoreboard_games_utc d; mret (Some games))
        (fun e => send_text (Some update)
                            ("Error fetching schedule: " +++ exn_msg e);;
                  mret None)
      ≫= fun fetched =>
      match fetched with
      | None => mret tt
      | Some [] =>
          send_text (Some update)
                    ("No NBA games found for " +++ date_isoformat d
                     +++ " (UTC).")
      | Some games =>
          lines ← matchup_lines d games;
          let out_lines := report_header d :: lines in
          let text := join [10%N; 10%N] out_lines in
          send_all (Some update) (chunks MAX text)
      end
  end.

(** *** The life of the process *)

(** What the process can be asked to do after start-up, in any order;
    [CTick] is time passing between two requests. *)
Inductive call :=
| CLoadTeamMap
| CFetchWins (team_id season_year : Z) (cutoff_date : date)
| CRecordLastN (team_id season_year : Z) (cutoff_date : date) (n : Z)
| CScoreboard (game_date_utc : date)
| CPickWinner (away_abbr home_abbr : str) (cutoff_date : date)
| CPreds (update : Update) (args : list str)
| CTick (secs : Z).

Definition run_call (c : call) (st : state) : state :=
  match c with
  | CLoadTeamMap => snd (load_team_map st)
  | CFetchWins t y d => snd (fetch_team_recent_wins t y d st)
  | CRecordLastN t y d n => snd (record_last_n t y d n st)
  | CScoreboard d => snd (fetch_scoreboard_games_utc d st)
  | CPickWinner a h d => snd (pick_winner a h d st)
  | CPreds update args => snd (preds_cmd update args st)
  | CTick secs => snd (sleep secs st)
  end.

Definition run_calls (cs : list call) (st : state) : state :=
  fold_left (fun st c => run_call c st) cs st.

End WithWorld.

End NBA.
Export NBA.

(* ===================================================================== *)
(** ** bot_test.py: the rolling-window ranking *)
(* ===================================================================== *)

Module FPL.

Definition FPL_BASE : str := "https://fantasy.premierleague.com/api".
Definition LAST_N_GWS : Z := 5.
Definition TOP_N : Z := 5.

(** Python floats, as far as the ranking uses them: the quotient of two
    ints ([None] where [/] raises [OverflowError]; the divisor is not
    zero), and [<] and [==] on the quotients. *)
Record float_ops := FloatOps {
  float : Type;
  int_truediv : Z -> Z -> option float;
  float_ltb : float -> float -> bool;
  float_eqb : float -> float -> bool
}.

(** The exact quotients. *)
Definition Q_float : float_ops :=
  {| float := Q;
     int_truediv := fun a b =>
       Some (if 0 <? b then a # Z.to_pos b else (- a) # Z.to_pos (- b));
     float_ltb := fun x y => negb (Qle_bool y x);
     float_eqb := Qeq_bool |}.

Inductive position := GK | DEF | MID | FWD.

#[global] Instance position_eq_dec : EqDecision position.
Proof. solve_decision. Defined.

(** Keys of a Python dict built from decoded values: [None], numbers
    ([True == 1], [False == 0]) and strings; lists and dicts are
    unhashable. *)
Inductive hkey := KNone | KNum (n : Z) | KStr (s : str).

#[global] Instance hkey_eq_dec : EqDecision hkey.
Proof. solve_decision. Defined.

Definition as_key (x : json) : result hkey :=
  match x with
  | JNull => Ok KNone
  | JBool b => Ok (KNum (if b then 1 else 0))
  | JInt n => Ok (KNum n)
  | JStr s => Ok (KStr s)
  | _ => Err (Exn TypeError ("unhashable type: '" +++ type_name x +++ "'"))
  end.

(** [pos_map.get(x)] for [pos_map = {1: "GK", 2: "DEF", 3: "MID", 4: "FWD"}] *)
Definition pos_map_get (x : json) : result (option position) :=
  k ← as_key x;
  Ok (match k with
      | KNum 1 => Some GK
      | KNum 2 => Some DEF
      | KNum 3 => Some MID
      | KNum 4 => Some FWD
      | _ => None
      end).

(** A dict as the list of its items in insertion order. *)
Fixpoint assoc_set {K V} `{EqDecision K} (k : K) (v : V) (d : list (K * V))
  : list (K * V) :=
  match d with
  | [] => [(k, v)]
  | (k', v') :: d' =>
      if decide (k' = k) then (k', v) :: d' else (k', v') :: assoc_set k v d'
  end.

Fixpoint assoc_get {K V} `{EqDecision K} (k : K) (d : list (K * V))
  : option V :=
  match d with
  | [] => None
  | (k', v) :: d' => if decide (k' = k) then Some v else assoc_get k d'
  end.

(** [{t["id"]: t["name"] for t in boot["teams"]}] *)
Definition teams_of (boot : json) : result (list (hkey * json)) :=
  ts ← py_item boot "teams";
  items ← py_iter ts;
  fold_result (fun d t =>
                 id ← py_item t "id";
                 name ← py_item t "name";
                 k ← as_key id;
                 Ok (assoc_set k name d))
              [] items.

(** [teams.get(x, "Unknown")] *)
Definition teams_get (teams : list (hkey * json)) (x : json) : result json :=
  k ← as_key x;
  Ok (default (JStr "Unknown") (assoc_get k teams)).

(** [acc + v] inside [sum(...)] *)
Definition py_add (acc : Z) (v : json) : result Z :=
  match v with
  | JInt n => Ok (acc + n)
  | JBool b => Ok (acc + (if b then 1 else 0))
  | _ => Err (Exn TypeError
                  ("unsupported operand type(s) for +: 'int' and '"
                   +++ type_name v +++ "'"))
  end.

(** [v > 0] *)
Definition py_gt0 (v : json) : result bool :=
  match v with
  | JInt n => Ok (0 <? n)
  | JBool b => Ok b
  | _ => Err (Exn TypeError
                  ("'>' not supported between instances of '"
                   +++ type_name v +++ "' and 'int'"))
  end.

(** [get_first(d, keys, 0)] for a dict [d]. *)
Fixpoint get_first (d : list (str * json)) (keys : list str) (default : json)
  : json :=
  match keys with
  | [] => default
  | k :: rest =>
      match dict_get d k with
      | Some JNull | None => get_first d rest default
      | Some v => v
      end
  end.

(** [hist[-last_n:]] *)
Definition slice_last (hist : json) (last_n : Z) : result json :=
  match hist with
  | JArr l => Ok (JArr (slice_from (- last_n) l))
  | JStr s => Ok (JStr (slice_from (- last_n) s))
  | JObj _ => Err (Exn TypeError "unhashable type: 'slice'")
  | _ => Err (not_subscriptable hist)
  end.

(** [sum(x.get(field, 0) for x in last)] *)
Definition sum_field (field : str) (last : list json) : result Z :=
  fold_result (fun acc x => v ← py_get x field (JInt 0); py_add acc v) 0 last.

(** [sum(1 for x in last if x.get("minutes", 0) > 0)] *)
Definition count_apps (last : list json) : result Z :=
  fold_result (fun acc x =>
                 v ← py_get x "minutes" (JInt 0);
                 b ← py_gt0 v;
                 Ok (if b : bool then acc + 1 else acc))
              0 last.

(** [sum(get_first(x, keys, 0) for x in last)]; every [x] is a dict when
    this runs, [x.get] having succeeded on each of them. *)
Definition sum_first (keys : list str) (last : list json) : result Z :=
  fold_result (fun acc x =>
                 match x with
                 | JObj d => py_add acc (get_first d keys (JInt 0))
                 | _ => Err (Exn TypeError "argument is not a dict")
                 end)
              0 last.

Section WithFloats.
Context (F : float_ops).

(** [a / b] on ints. *)
Definition py_truediv (a b : Z) : result (float F) :=
  if b =? 0 then Err (Exn ZeroDivisionError "division by zero")
  else match int_truediv F a b with
       | Some q => Ok q
       | None =>
           Err (Exn OverflowError
                    "integer division result too large for a float")
       end.

(** The tuples appended to the lists: [(ppa, pts, apps, mins, name, team)]
    and [(dc_pa, dc_sum, dc_pts, apps, name, team)]. *)
Definition row : Type := float F * Z * Z * Z * str * json.

(** [key=lambda x: (x[0], x[1], x[2], x[3])] *)
Definition sort_key (x : row) : float F * Z * Z * Z :=
  let '(a, b, c, d, _, _) := x in (a, b, c, d).

(** [<] on the key tuples: decided at the first position where the two
    differ. *)
Definition key_ltb (x y : float F * Z * Z * Z) : bool :=
  let '(a1, b1, c1, d1) := x in
  let '(a2, b2, c2, d2) := y in
  if negb (float_eqb F a1 a2) then float_ltb F a1 a2
  else if negb (b1 =? b2) then b1 <? b2
  else if negb (c1 =? c2) then c1 <? c2
  else d1 <? d2.

(** The two dicts of lists. *)
Definition table : Type := list (position * list row).

Definition top_by_pos0 : table := [(GK, []); (DEF, []); (MID, []); (FWD, [])].
Definition top_defcon0 : table := [(DEF, []); (MID, []); (FWD, [])].

Definition has_key (pos : position) (t : table) : bool :=
  bool_decide (is_Some (assoc_get pos t)).

(** [t[pos].append(x)] *)
Definition table_append (pos : position) (x : row) (t : table) : table :=
  map (fun e => if decide (fst e = pos) then (fst e, snd e ++ [x]) else e) t.

(** [for pos in t: t[pos].sort(reverse=True, key=...); t[pos] = t[pos][:top_n]] *)
Definition finalize (top_n : Z) (t : table) : table :=
  map (fun e => (fst e, slice_to top_n (sort_desc key_ltb sort_key (snd e)))) t.

(** [t[pos]] in the result. *)
Definition table_get (pos : position) (t : table) : list row :=
  default [] (assoc_get pos t).

(** The inclusion filter: the two [continue]s. *)
Definition excluded (min_apps min_total_min apps mins : Z) : bool :=
  (apps <? min_apps) || (mins <? min_total_min).

(** The loop body once [hist] is known: the row for [top_by_pos] and, for
    a position of [top_defcon], the row for it; [None] is a [continue]. *)
Definition player_rows (last_n min_apps min_total_min : Z)
  (in_defcon : bool) (name : str) (team : json) (hist : json)
  : result (option (row * option row)) :=
  if negb (truthy hist) then Ok None
  else
    last_j ← slice_last hist last_n;
    last ← py_iter last_j;
    pts ← sum_field "total_points" last;
    mins ← sum_field "minutes" last;
    apps ← count_apps last;
    if excluded min_apps min_total_min apps mins then Ok None
    else
      ppa ← py_truediv pts apps;
      let r : row := (ppa, pts, apps, mins, name, team) in
      if in_defcon then
        dc_sum ← sum_first [u "defensive_contribution"; u "defcon"] last;
        dc_pts ← sum_first [u "defensive_contribution_points";
                            u "defcon_points"] last;
        dc_pa ← py_truediv dc_sum apps;
        Ok (Some (r, Some (dc_pa, dc_sum, dc_pts, apps, name, team)))
      else Ok (Some (r, None)).

(** The process has no state of its own here; what is threaded is the
    number of HTTP requests issued, which selects the provider's answer. *)
Definition fpl_world : Type := nat -> str -> result json.

Section WithProvider.
Context (P : fpl_world).

Definition fpl_get (url : str) : M nat json :=
  fun n => (P n url, S n).

Definition fpl_bootstrap : M nat json :=
  fpl_get (FPL_BASE +++ "/bootstrap-static/").

Definition fpl_element_summary (element_id : json) : M nat json :=
  fpl_get (FPL_BASE +++ "/element-summary/" +++ py_str element_id +++ "/").

Definition add_rows (pos : position) (rows : option (row * option row))
  (acc : table * table) : table * table :=
  match rows with
  | None => acc
  | Some (r, None) => (table_append pos r (fst acc), snd acc)
  | Some (r, Some dr) =>
      (table_append pos r (fst acc), table_append pos dr (snd acc))
  end.

(** The loop over [elements]. *)
Fixpoint players_loop (last_n min_apps min_total_min : Z)
  (teams : list (hkey * json)) (elements : list json) (acc : table * table)
  : M nat (table * table) :=
  match elements with
  | [] => mret acc
  | p :: rest =>
      et ← lift (py_get p "element_type" JNull);
      pos ← lift (pos_map_get et);
      match pos with
      | None => players_loop last_n min_apps min_total_min teams rest acc
      | Some pos =>
          pid ← lift (py_item p "id");
          fn ← lift (py_get p "first_name" (JStr []));
          sn ← lift (py_get p "second_name" (JStr []));
          let name := strip (py_str fn +++ " " +++ py_str sn) in
          tk ← lift (py_get p "team" JNull);
          team ← lift (teams_get teams tk);
          h ← try_except
                (s ← fpl_element_summary pid;
                 hist ← lift (py_get s "history" (JArr []));
                 mret (Some hist))
                (fun _ => mret None);
          match h with
          | None => players_loop last_n min_apps min_total_min teams rest acc
          | Some hist =>
              rows ← lift (player_rows last_n min_apps min_total_min
                             (has_key pos top_defcon0) name team hist);
              players_loop last_n min_apps min_total_min teams rest
                           (add_rows pos rows acc)
          end
      end
  end.

Definition compute_weekly_fpl (top_n last_n min_apps min_total_min : Z)
  : M nat (table * table) :=
  boot ← fpl_bootstrap;
  elements_j ← lift (py_item boot "elements");
  teams ← lift (teams_of boot);
  elements ← lift (py_iter elements_j);
  acc ← players_loop last_n min_apps min_total_min teams elements
          (top_by_pos0, top_defcon0);
  mret (finalize top_n (fst acc), finalize top_n (snd acc)).

End WithProvider.
End WithFloats.

End FPL.
Export FPL.

(* ===================================================================== *)
(** ** A small provider, for concrete runs *)
(* ===================================================================== *)

Module Demo.

(** Reads [YYYY-MM-DDTHH:MM+00:00] (aware, UTC) and [YYYY-MM-DDTHH:MM]
    (naive); a fragment of what [datetime.fromisoformat] accepts. *)
Definition demo_fromisoformat (s : str) : option datetime :=
  match s with
  | y1 :: y2 :: y3 :: y4 :: 45%N :: m1 :: m2 :: 45%N :: d1 :: d2 :: 84%N
    :: h1 :: h2 :: 58%N :: n1 :: n2 :: rest =>
      if forallb isdigit [y1; y2; y3; y4; m1; m2; d1; d2; h1; h2; n1; n2] then
        let t := DateTime
                   (Date (digits_value [y1; y2; y3; y4]) (digits_value [m1; m2])
                         (digits_value [d1; d2]))
                   ((digits_value [h1; h2] * 60 + digits_value [n1; n2])
                    * 60000000) in
        if bool_decide (rest = []) then Some (t None)
        else if bool_decide (rest = u "+00:00") then Some (t (Some 0))
        else None
      else None
  | _ => None
  end.

Definition team_item (id abbr name : string) : json :=
  JObj [(u "team", JObj [(u "id", JStr id); (u "abbreviation", JStr abbr);
                         (u "shortDisplayName", JStr name)])].

Definition teams_json : json :=
  JObj [(u "sports",
         JArr [JObj [(u "leagues",
           JArr [JObj [(u "teams",
             JArr [ team_item "2" "BOS" "Celtics";
                    team_item "9" "GS" "Warriors";
                    team_item "18" "NY" "Knicks";
                    JObj [(u "team", JObj [(u "abbreviation", JStr "LAL")])]
                  ])]])]])].

Definition competitor (id : string) (won : bool) : json :=
  JObj [(u "team", JObj [(u "id", JStr id)]); (u "winner", JBool won)].

(** A completed (or not) game of [id] against [other]. *)
Definition game (date : string) (completed : bool) (id other : string)
  (won : bool) : json :=
  JObj [(u "date", JStr date);
        (u "competitions",
         JArr [JObj [(u "status",
                      JObj [(u "type", JObj [(u "completed", JBool completed)])]);
                     (u "competitors",
                      JArr [competitor other (negb won); competitor id won])]])].

(** Boston before 2026-02-19: W W L, then oldest W; one game without a
    date, one with an unreadable date, one without competitions, one not
    completed, one on the cutoff day and one of other teams. *)
Definition schedule_BOS : json :=
  JObj [(u "events",
         JArr [ game "2026-02-10T00:30Z" true "2" "9" false;
                game "2026-02-14T00:30Z" true "2" "18" true;
                JObj [(u "competitions", JArr [])];
                game "soon" true "2" "9" true;
                JObj [(u "date", JStr "2026-02-15T01:00Z")];
                game "2026-02-17T01:00Z" false "2" "9" true;
                game "2026-02-16T00:00Z" true "2" "18" true;
                game "2026-02-19T00:00Z" true "2" "9" true;
                game "2026-02-12T00:00Z" true "9" "18" true;
                game "2026-01-30T00:00Z" true "2" "9" true ])].

Definition schedule_GSW : json :=
  JObj [(u "events",
         JArr [ game "2026-02-10T00:30Z" true "9" "2" true;
                game "2026-02-13T00:30Z" true "9" "18" false;
                game "2026-01-30T00:00Z" true "9" "2" false ])].

Definition schedule_NYK : json :=
  JObj [(u "events",
         JArr [ game "2026-02-13T00:30Z" true "18" "9" true;
                game "2026-02-14T00:30Z" true "18" "2" false;
                game "2026-02-16T00:00Z" true "18" "2" false ])].

Definition side (abbr home_away : string) : json :=
  JObj [(u "team", JObj [(u "abbreviation", JStr abbr)]);
        (u "homeAway", JStr home_away)].

Definition fixture (away home : string) : json :=
  JObj [(u "competitions",
         JArr [JObj [(u "competitors", JArr [side home "home"; side away "away"])]])].

(** Three games on 2026-02-19; the second names a team the directory
    does not have. *)
Definition scoreboard_json : json :=
  JObj [(u "events",
         JArr [ fixture "GS" "BOS"; fixture "SEA" "NY"; fixture "NY" "GS" ])].

Definition not_found : exn := Exn RequestError "404 Client Error: Not Found".
Definition timed_out : exn := Exn RequestError "Read timed out.".

Definition demo_provider (n : nat) (req : request) : result json :=
  let url := req_url req in
  if bool_decide (url = ESPN_TEAMS_URL) then Ok teams_json
  else if bool_decide (url = ESPN_TEAM_SCHEDULE_URL 2) then Ok schedule_BOS
  else if bool_decide (url = ESPN_TEAM_SCHEDULE_URL 9) then Ok schedule_GSW
  else if bool_decide (url = ESPN_TEAM_SCHEDULE_URL 18) then Ok schedule_NYK
  else if bool_decide (url ∈ ESPN_SCOREBOARD_URLS) then Ok scoreboard_json
  else Err not_found.

Definition demo_world : world :=
  World demo_provider demo_fromisoformat (fun _ => Date 2026 2 18).

(** A provider that answers nothing. *)
Definition dead_world : world :=
  World (fun _ _ => Err timed_out) demo_fromisoformat
        (fun _ => Date 2026 2 18).

Definition feb19 : date := Date 2026 2 19.

(** An update with a message, in a chat that takes every text. *)
Definition listening : Update := {| message := Some (fun _ _ => Ok tt) |}.

(** A process whose directory was loaded at time 0, six hours ago. *)
Definition loaded_map : gmap str team :=
  {[ u "BOS" := Team 2 "Celtics" ]}.

Definition stale_state : state :=
  State (Some loaded_map) 0 ∅ TEAM_MAP_TTL_SECONDS 0 [].

End Demo.

(* ===================================================================== *)
(** ** Relations between the state before and after a computation *)
(* ===================================================================== *)

Module Frame.

(** Every run of [m] takes a state to one related to it by [R], whether
    it returns or raises. *)
Definition keeps {A} (R : state -> state -> Prop) (m : M state A) : Prop :=
  forall st, R st (snd (m st)).

(** The three module-level caches are as they were. *)
Definition same_caches (st st' : state) : Prop :=
  TEAM_MAP_CACHE st' = TEAM_MAP_CACHE st
  /\ TEAM_MAP_CACHE_TS st' = TEAM_MAP_CACHE_TS st
  /\ SCHEDULE_WINS_CACHE st' = SCHEDULE_WINS_CACHE st.

(** Every entry of the schedule cache is still there, unchanged. *)
Definition schedule_kept (st st' : state) : Prop :=
  SCHEDULE_WINS_CACHE st ⊆ SCHEDULE_WINS_CACHE st'.

End Frame.
Export Frame.

(* ===================================================================== *)
(** ** The schedule computation, as described *)
(* ===================================================================== *)

(** The description of the outcome history, restated on decoded
    documents: which events count, and with which flag. These definitions
    follow the description, not the code; the code is compared with them
    below. *)
Module ScheduleSpec.

(** A member of an object, when the value is an object that has it. *)
Definition field (k : str) (j : json) : option json :=
  match j with
  | JObj kv => dict_get kv k
  | _ => None
  end.

Definition items (j : json) : list json :=
  match j with
  | JArr l => l
  | _ => []
  end.

(** An identifier, as a number. *)
Definition as_int (j : json) : option Z :=
  match j with
  | JInt n => Some n
  | JBool b => Some (if b then 1 else 0)
  | JStr s => int_of_str s
  | _ => None
  end.

Section Described.
Context (W : world) (team_id : Z) (cutoff_date : date).

(** The game's date-time: the event has a date, a non-empty string,
    and it reads as an ISO 8601 date-time, [Z] standing for [+00:00]. *)
Definition game_time (ev : json) : option datetime :=
  match field "date" ev with
  | Some (JStr (c :: s)) => fromisoformat W (replace1 90 "+00:00" (c :: s))
  | _ => None
  end.


(** The first competition of the event. *)
Definition competition (ev : json) : option json :=
  cs ← field "competitions" ev;
  head (items cs).

(** The status indicates completion. *)
Definition completed (ev : json) : bool :=
  match c0 ← competition ev; s ← field "status" c0; t ← field "type" s;
        field "completed" t with
  | Some v => truthy v
  | None => false
  end.

(** The competitor record matching the team identifier. *)
Definition is_team (c : json) : bool :=
  match t ← field "team" c; i ← field "id" t; as_int i with
  | Some n => n =? team_id
  | None => false
  end.

Definition team_record (ev : json) : option json :=
  c0 ← competition ev;
  cs ← field "competitors" c0;
  head (List.filter is_team (items cs)).

(** Won or lost, from the record's winner flag. *)
Definition team_won (ev : json) : option bool :=
  c ← team_record ev;
  Some (match field "winner" c with Some v => truthy v | None => false end).

(** The event counts: played strictly before the cutoff date, completed,
    with a record for the team. *)
Definition outcome (ev : json) : option (datetime * bool) :=
  t ← game_time ev;
  if date_ltb (dt_date t) cutoff_date && completed ev
  then w ← team_won ev; Some (t, w)
  else None.

End Described.

(** The events of a schedule document. *)
Definition events_of (data : json) : list json :=
  match field "events" data with
  | Some e => items e
  | None => []
  end.



(** *** The shape of a schedule document

    Members may be absent; a member that is present has the type the
    provider documents (an absent or false value stands for an empty
    one, as the code reads it). *)










End ScheduleSpec.

(* ===================================================================== *)
(** ** The ranking: what is asked of floats and of the provider *)
(* ===================================================================== *)

Module Ranking.

(** [==] on quotients is symmetric and [<] is asymmetric, as they are on
    Python floats that are numbers. *)
Definition float_order (F : float_ops) : Prop :=
  (forall a b, float_eqb F a b = float_eqb F b a)
  /\ (forall a b, float_ltb F a b = true -> float_ltb F b a = false).

(** A fixed input set: the provider's answer to a request does not depend
    on when the request is made. *)
Definition steady (P : fpl_world) : Prop :=
  forall i j url, P i url = P j url.

(** The value or exception of [m] does not depend on the number of
    requests issued before it runs. *)
Definition reproducible {A} (m : M nat A) : Prop :=
  forall n n', fst (m n) = fst (m n').

(** The exception is not a division by zero. *)
Definition no_division (e : exn) : Prop := exn_kind_of e <> ZeroDivisionError.

End Ranking.
Export Ranking.

Module FplDemo.

Definition gw (minutes points : Z) : json :=
  JObj [(u "minutes", JInt minutes); (u "total_points", JInt points)].

Definition player (id type_ : Z) (first second : string) (team : Z) : json :=
  JObj [(u "id", JInt id); (u "element_type", JInt type_);
        (u "first_name", JStr first); (u "second_name", JStr second);
        (u "team", JInt team)].

Definition bootstrap_json : json :=
  JObj [(u "elements",
         JArr [ player 1 4 "Ollie" "Watkins" 2;
                player 2 4 "Erling" "Haaland" 1;
                player 3 3 "Phil" "Foden" 1;
                player 4 4 "Bench" "Warmer" 2;
                player 5 9 "Team" "Manager" 1;
                player 6 4 "Jhon" "Duran" 2 ]);
        (u "teams",
         JArr [ JObj [(u "id", JInt 1); (u "name", JStr "Man City")];
                JObj [(u "id", JInt 2); (u "name", JStr "Aston Villa")] ])].

Definition history (rows : list json) : json :=
  JObj [(u "history", JArr rows)].

Definition summary_url (id : Z) : str :=
  FPL_BASE +++ "/element-summary/" +++ str_of_Z id +++ "/".

(** Watkins 6.5 a game over four games, Haaland 9.5 over four, Duran 6.5
    over two; the history of Foden cannot be fetched; Warmer never
    played. *)
Definition demo_fpl (n : nat) (url : str) : result json :=
  if bool_decide (url = FPL_BASE +++ "/bootstrap-static/")
  then Ok bootstrap_json
  else if bool_decide (url = summary_url 1)
  then Ok (history [gw 90 2; gw 90 9; gw 0 0; gw 80 6; gw 90 2; gw 75 9])
  else if bool_decide (url = summary_url 2)
  then Ok (history [gw 90 13; gw 90 2; gw 90 8; gw 0 0; gw 90 15])
  else if bool_decide (url = summary_url 4)
  then Ok (history [gw 0 0; gw 0 0; gw 0 0])
  else if bool_decide (url = summary_url 6)
  then Ok (history [gw 20 1; gw 0 0; gw 0 0; gw 0 0; gw 90 12])
  else Err (Exn RequestError "503 Server Error").

(** The history of a player who never played. *)
Definition never_played : json := JArr [gw 0 0; gw 0 0; gw 0 0].

(** The history of a regular: four appearances among the last five
    games, 26 points in them. *)
Definition regular : json :=
  JArr [gw 90 2; gw 90 9; gw 0 0; gw 80 6; gw 90 2; gw 75 9].

End FplDemo.

(* ===================================================================== *)
(** ** Auxiliary notions for the fetch layer and the caches *)
(* ===================================================================== *)

Module Fetching.

(** Seconds slept after the first [failures] attempts have failed:
    [min(2 ** attempt, 10)] after attempt 1, 2, ... *)
Definition backoff (failures : nat) : Z :=
  fold_right Z.add 0
    (map (fun a => Z.min (2 ^ a) 10) (map Z.of_nat (seq 1 failures))).

(** The state after [k] more requests and [secs] seconds of sleep. *)
Definition after_requests (k : nat) (secs : Z) (st : state) : state :=
  State (TEAM_MAP_CACHE st) (TEAM_MAP_CACHE_TS st) (SCHEDULE_WINS_CACHE st)
        (clock st + secs) (http_calls st + k) (outbox st).

(** Time does not run backwards, and a team directory that is still
    within its time to live at the end has not been replaced. *)
Definition directory_kept (st st' : state) : Prop :=
  clock st <= clock st'
  /\ (forall m, TEAM_MAP_CACHE st = Some m -> m <> ∅ ->
        clock st' - TEAM_MAP_CACHE_TS st < TEAM_MAP_TTL_SECONDS ->
        TEAM_MAP_CACHE st' = Some m
        /\ TEAM_MAP_CACHE_TS st' = TEAM_MAP_CACHE_TS st).

(** Every key is a non-empty abbreviation in normal form. *)
Definition normal_keys (m : gmap str team) : Prop :=
  forall k t, m !! k = Some t -> k <> [] /\ normalize_abbr k = k.

(** The steps of the clock between requests do not go backwards. *)
Definition forward (c : call) : Prop :=
  match c with
  | CTick secs => 0 <= secs
  | _ => True
  end.

End Fetching.
Export Fetching.

Module Demo2.

(** The provider of [Demo], out of reach for the first two requests. *)
Definition flaky_world : world :=
  World (fun n req => if (n <? 2)%nat then Err Demo.timed_out
                      else Demo.demo_provider n req)
        Demo.demo_fromisoformat (fun _ => Date 2026 2 18).

End Demo2.

(* ===================================================================== *)
(** ** Auxiliary notions for predictions and replies *)
(* ===================================================================== *)

Module Replies.

(** A record over at most [n] games. *)
Definition record_within (n : Z) (r : Z * Z) : Prop :=
  0 <= fst r /\ 0 <= snd r /\ fst r + snd r <= n.

(** Nothing was handed to the chat transport. *)
Definition silent (st st' : state) : Prop := outbox st' = outbox st.

(** Between [kmin] and [kmax] requests were issued and at most [secs]
    seconds slept; the caches and the outbox are as they were. *)
Definition spent (kmin kmax : nat) (secs : Z) (st st' : state) : Prop :=
  (http_calls st + kmin <= http_calls st' <= http_calls st + kmax)%nat
  /\ clock st <= clock st' <= clock st + secs
  /\ same_caches st st'
  /\ outbox st' = outbox st.

(** An abbreviation as the scoreboard loop keeps it: not empty, and in
    normal form. *)
Definition normal_abbr (a : str) : Prop := a <> [] /\ normalize_abbr a = a.

Definition normal_matchup (g : Matchup) : Prop :=
  normal_abbr (away_abbr g) /\ normal_abbr (home_abbr g).

(** The state after [texts] were sent. *)
Definition sent (texts : list str) (st : state) : state :=
  State (TEAM_MAP_CACHE st) (TEAM_MAP_CACHE_TS st) (SCHEDULE_WINS_CACHE st)
        (clock st) (http_calls st) (outbox st ++ texts).

(** [zero_pad w n] has [w] characters, all digits, and reads back as
    [n]. *)
Definition padded_ok (w : nat) (n : Z) : bool :=
  (length (zero_pad w n) =? w)%nat && forallb isdigit (zero_pad w n)
  && (digits_value (zero_pad w n) =? n).

Definition USAGE : str := "Use: /preds or /preds YYYY-MM-DD (UTC)".

(** The update carries a message, and the chat takes every text. *)
Definition takes_all (update : Update) : Prop :=
  exists reply_text,
    message update = Some reply_text /\ forall n text, reply_text n text = Ok tt.

End Replies.
Export Replies.
(* ===================================================================== *)
(** ** Auxiliary notions for the rows of the ranking *)
(* ===================================================================== *)

Module RankingRows.

Section Rows.
Context (F : float_ops).

(** A row [(ppa, pts, apps, mins, name, team)] of [top_by_pos] as the
    loop builds it under the thresholds. *)
Definition top_row_ok (last_n min_apps min_total_min : Z) (r : row F) : Prop :=
  let '(ppa, pts, apps, mins, name, _) := r in
  1 <= apps /\ min_apps <= apps /\ min_total_min <= mins
  /\ (1 <= last_n -> apps <= last_n)
  /\ py_truediv F pts apps = Ok ppa
  /\ strip name = name.

(** A row [(dc_pa, dc_sum, dc_pts, apps, name, team)] of [top_defcon]. *)
Definition defcon_row_ok (last_n min_apps : Z) (r : row F) : Prop :=
  let '(dc_pa, dc_sum, _, apps, name, _) := r in
  1 <= apps /\ min_apps <= apps
  /\ (1 <= last_n -> apps <= last_n)
  /\ py_truediv F dc_sum apps = Ok dc_pa
  /\ strip name = name.

(** Every row of every list of the table satisfies [Q] at its position. *)
Definition table_all (Q : position -> row F -> Prop) (t : table F) : Prop :=
  Forall (fun e => Forall (Q (fst e)) (snd e)) t.
End Rows.

(** [pos_map.get(p.get("element_type"))] is a position. *)
Definition has_position (p : json) : bool :=
  match py_get p "element_type" JNull ≫= pos_map_get with
  | Ok (Some _) => true
  | _ => false
  end.

Definition BOOTSTRAP_URL : str := FPL_BASE +++ "/bootstrap-static/".

End RankingRows.
Export RankingRows.

(* ===================================================================== *)
(** ** Auxiliary notions for the cost of a prediction *)
(* ===================================================================== *)

Module Cost.

(** At most [kmax] requests were issued and at most [secs] seconds
    slept; nothing was sent. *)
Definition cost (kmax : nat) (secs : Z) (st st' : state) : Prop :=
  (http_calls st <= http_calls st' <= http_calls st + kmax)%nat
  /\ clock st <= clock st' <= clock st + secs
  /\ outbox st' = outbox st.

(** The team directory and its time stamp are as they were. *)
Definition directory_same (st st' : state) : Prop :=
  TEAM_MAP_CACHE st' = TEAM_MAP_CACHE st
  /\ TEAM_MAP_CACHE_TS st' = TEAM_MAP_CACHE_TS st.

(** A provider and a clock for 2024-12-31. *)
Definition new_year_eve_world : world :=
  World Demo.demo_provider Demo.demo_fromisoformat (fun _ => Date 2024 12 31).

End Cost.
Export Cost.

(* ===================================================================== *)
(** ** Floats that are numbers *)
(* ===================================================================== *)

Module Linear.

(** [<] and [==] on the quotients behave as on numbers: besides
    [float_order], two quotients that are not equal are ordered one way
    or the other, [<] and [==] are transitive, [==] can be replaced on
    either side of [<], and [<] excludes [==]. This is so for the
    quotients of two ints, which are never NaN. *)
Definition float_linear (F : float_ops) : Prop :=
  float_order F
  /\ (forall a b, float_eqb F a b = false -> float_ltb F a b = false ->
                  float_ltb F b a = true)
  /\ (forall a b c, float_ltb F a b = true -> float_ltb F b c = true ->
                    float_ltb F a c = true)
  /\ (forall a b c, float_eqb F a b = true -> float_eqb F b c = true ->
                    float_eqb F a c = true)
  /\ (forall a b c, float_eqb F a b = true ->
                    float_ltb F a c = float_ltb F b c
                    /\ float_ltb F c a = float_ltb F c b)
  /\ (forall a b, float_ltb F a b = true -> float_eqb F a b = false).

(** Three forwards with 6.5, 9.5 and 6.5 points a game. *)
Definition forwards : table Q_float :=
  [(GK, []);
   (FWD, [((13 # 2)%Q, 26, 4, 335, u "Ollie Watkins", JStr "Aston Villa");
          ((19 # 2)%Q, 38, 4, 360, u "Erling Haaland", JStr "Man City");
          ((13 # 2)%Q, 13, 2, 110, u "Jhon Duran", JStr "Aston Villa")])].

End Linear.
Export Linear.

(* ===================================================================== *)
(** ** The tie-break chain, as described *)
(* ===================================================================== *)

(** The counts of the description, stated on the sequence of outcomes
    (most recent game first) without the code's own counting. *)
Module ChainSpec.

(** The last [n] games of a team. *)
Definition last_games (n : nat) (outcomes : list bool) : list bool :=
  take n outcomes.

(** The number of games won among [games]. *)
Fixpoint games_won (games : list bool) : Z :=
  match games with
  | [] => 0
  | true :: rest => 1 + games_won rest
  | false :: rest => games_won rest
  end.

(** The number of games lost among [games]. *)
Fixpoint games_lost (games : list bool) : Z :=
  match games with
  | [] => 0
  | true :: rest => games_lost rest
  | false :: rest => 1 + games_lost rest
  end.

End ChainSpec.
Export ChainSpec.

(** Two teams with seven games each: three wins among the last ten for
    both, three among the last five for Boston and one for Golden
    State; and schedule documents that end the computation. *)
Module Demo3.

Definition week_BOS : json :=
  JObj [(u "events",
         JArr [ Demo.game "2026-02-01T00:00Z" true "2" "18" false;
                Demo.game "2026-02-02T00:00Z" true "2" "18" false;
                Demo.game "2026-02-03T00:00Z" true "2" "18" false;
                Demo.game "2026-02-04T00:00Z" true "2" "18" false;
                Demo.game "2026-02-05T00:00Z" true "2" "18" true;
                Demo.game "2026-02-06T00:00Z" true "2" "18" true;
                Demo.game "2026-02-07T00:00Z" true "2" "18" true ])].

Definition week_GSW : json :=
  JObj [(u "events",
         JArr [ Demo.game "2026-02-01T00:00Z" true "9" "18" true;
                Demo.game "2026-02-02T00:00Z" true "9" "18" true;
                Demo.game "2026-02-03T00:00Z" true "9" "18" true;
                Demo.game "2026-02-04T00:00Z" true "9" "18" false;
                Demo.game "2026-02-05T00:00Z" true "9" "18" false;
                Demo.game "2026-02-06T00:00Z" true "9" "18" false;
                Demo.game "2026-02-07T00:00Z" true "9" "18" false ])].

(** Two games that count, the date of the second without offset. *)
Definition schedule_mixed : json :=
  JObj [(u "events",
         JArr [ Demo.game "2026-02-10T00:30Z" true "2" "9" false;
                Demo.game "2026-02-14T00:30" true "2" "18" true ])].

(** A game that counts, followed by an event whose competition has a
    null status. *)
Definition schedule_null_status : json :=
  JObj [(u "events",
         JArr [ Demo.game "2026-02-10T00:30Z" true "2" "9" true;
                JObj [(u "date", JStr "2026-02-14T00:30Z");
                      (u "competitions",
                       JArr [JObj [(u "status", JNull);
                                   (u "competitors",
                                    JArr [Demo.competitor "2" true])]])] ])].

(** A game that counts, followed by a completed game of other teams, one
    of them with an identifier that is not a number. *)
Definition schedule_odd_id : json :=
  JObj [(u "events",
         JArr [ Demo.game "2026-02-10T00:30Z" true "2" "9" true;
                Demo.game "2026-02-14T00:30Z" true "18" "TBD" true ])].

Definition week_provider (n : nat) (req : request) : result json :=
  let url := req_url req in
  if bool_decide (url = ESPN_TEAMS_URL) then Ok Demo.teams_json
  else if bool_decide (url = ESPN_TEAM_SCHEDULE_URL 2) then Ok week_BOS
  else if bool_decide (url = ESPN_TEAM_SCHEDULE_URL 9) then Ok week_GSW
  else Err Demo.not_found.

Definition week_world : world :=
  World week_provider Demo.demo_fromisoformat (fun _ => Date 2026 2 18).

End Demo3.

(* ===================================================================== *)
(** * Properties *)
(* ===================================================================== *)

(* --------------------------------------------------------------------- *)
(** *** Facts about [upper] and [strip] *)

Lemma upper_lookup_in t c l : upper_lookup t c = Some l -> In (c, l) t.
Proof.
  induction t as [|[k l'] t IH]; [discriminate|].
  cbn [upper_lookup]. destruct (N.eqb_spec c k) as [->|_].
  - intros [= ->]. by left.
  - destruct (c <? k)%N; [discriminate|]. intros H. right. by apply IH.
Qed.

(** The table is in order, so that the search finds every entry. *)
Lemma upper_lookup_complete t c l lo :
  increasing lo t = true -> In (c, l) t -> upper_lookup t c = Some l.
Proof.
  revert lo. induction t as [|[k l'] t IH]; intros lo Hinc Hin; [done|].
  cbn [increasing] in Hinc. apply andb_true_iff in Hinc as [_ Hinc].
  cbn [upper_lookup]. destruct Hin as [[= -> ->]|Hin].
  - by rewrite N.eqb_refl.
  - assert (forall t' lo', increasing (Some lo') t' = true ->
              forall c' l'', In (c', l'') t' -> (lo' < c')%N) as Habove.
    { clear. induction t' as [|[k l] t' IH]; intros lo' Hinc c' l'' Hin;
        [done|].
      cbn [increasing] in Hinc. apply andb_true_iff in Hinc as [Hk Hinc].
      apply N.ltb_lt in Hk. destruct Hin as [[= -> ->]|Hin]; [done|].
      specialize (IH _ Hinc _ _ Hin). lia. }
    pose proof (Habove _ _ Hinc _ _ Hin) as Hlt.
    rewrite (proj2 (N.eqb_neq c k)) by lia.
    rewrite (proj2 (N.ltb_ge c k)) by lia.
    by apply (IH (Some k)).
Qed.

Lemma upper_table_increasing : increasing None UPPER_TABLE = true.
Proof. vm_compute. reflexivity. Qed.

Lemma upper_table_ok : forallb upper_entry_ok UPPER_TABLE = true.
Proof. vm_compute. reflexivity. Qed.

(** A code point is its own mapping, or has an entry of the table. *)
Lemma upper_cp_cases c :
  (upper_lookup UPPER_TABLE c = None /\ upper_cp c = [c])
  \/ (exists l, upper_cp c = l /\ upper_entry_ok (c, l) = true).
Proof.
  unfold upper_cp. destruct (upper_lookup UPPER_TABLE c) as [l|] eqn:E.
  - right. exists l. split; [reflexivity|].
    pose proof upper_table_ok as Hok. rewrite forallb_forall in Hok.
    apply Hok. by apply upper_lookup_in.
  - by left.
Qed.

(** The code points of a mapping are their own mapping: applying
    [upper] twice is applying it once. *)
Lemma upper_cp_fixed c d : In d (upper_cp c) -> upper_cp d = [d].
Proof.
  destruct (upper_cp_cases c) as [[Hc ->]|(l & -> & Hok)].
  - intros [<-|[]]. unfold upper_cp. by rewrite Hc.
  - intros Hd. unfold upper_entry_ok in Hok. cbn [fst snd] in Hok.
    apply andb_true_iff in Hok as [_ Hall].
    rewrite forallb_forall in Hall. specialize (Hall d Hd).
    apply andb_true_iff in Hall as [_ Hnone].
    unfold upper_cp. by destruct (upper_lookup UPPER_TABLE d).
Qed.

Lemma upper_cp_space c : isspace c = true -> upper_cp c = [c].
Proof.
  intros Hc. destruct (upper_cp_cases c) as [[_ ->]|(l & _ & Hok)]; [done|].
  unfold upper_entry_ok in Hok. cbn [fst] in Hok. by rewrite Hc in Hok.
Qed.

Lemma upper_cp_nonspace c :
  isspace c = false ->
  upper_cp c <> [] /\ forallb (fun d => negb (isspace d)) (upper_cp c) = true.
Proof.
  intros Hc. destruct (upper_cp_cases c) as [[_ ->]|(l & -> & Hok)].
  - split; [done|]. simpl. by rewrite Hc.
  - unfold upper_entry_ok in Hok. cbn [fst snd] in Hok.
    apply andb_true_iff in Hok as [[_ Hne]%andb_true_iff Hall].
    split; [by destruct l|].
    rewrite forallb_forall in Hall |- *. intros d Hd.
    specialize (Hall d Hd). by apply andb_true_iff in Hall as [-> _].
Qed.

Lemma upper_app a b : upper (a ++ b) = upper a ++ upper b.
Proof. unfold upper. by rewrite map_app, concat_app. Qed.

Lemma upper_cons c s : upper (c :: s) = upper_cp c ++ upper s.
Proof. reflexivity. Qed.

Lemma upper_fixed l :
  (forall d, In d l -> upper_cp d = [d]) -> upper l = l.
Proof.
  induction l as [|d l IH]; intros H; [done|].
  rewrite upper_cons, (H d) by (by left).
  rewrite IH by (intros; apply H; by right). reflexivity.
Qed.

Lemma upper_idem s : upper (upper s) = upper s.
Proof.
  induction s as [|c s IH]; [done|].
  rewrite upper_cons, upper_app, IH. f_equal.
  apply upper_fixed. intros d. apply upper_cp_fixed.
Qed.

(** White space is its own mapping. *)
Lemma upper_spaces w : forallb isspace w = true -> upper w = w.
Proof.
  intros H. apply upper_fixed. intros d Hd.
  rewrite forallb_forall in H. by apply upper_cp_space, H.
Qed.

(** Each comparison of a boolean formula is replaced by its value when
    linear arithmetic decides it. *)
Ltac decide_N_tests :=
  repeat match goal with
         | |- context [(?a <=? ?b)%N] =>
             first [ rewrite (proj2 (N.leb_le a b)) by lia
                   | rewrite (proj2 (N.leb_gt a b)) by lia ]
         | |- context [(?a =? ?b)%N] =>
             first [ rewrite (proj2 (N.eqb_eq a b)) by lia
                   | rewrite (proj2 (N.eqb_neq a b)) by lia ]
         end.

Lemma isspace_printable c : (33 <= c <= 132)%N -> isspace c = false.
Proof. intros H. unfold isspace. decide_N_tests. reflexivity. Qed.

Lemma forallb_rev {A} (f : A -> bool) l :
  forallb f (rev l) = forallb f l.
Proof.
  induction l as [|x l IH]; [done|].
  simpl. rewrite forallb_app, IH. simpl.
  rewrite andb_true_r. apply andb_comm.
Qed.

(** Removing leading white space goes through a mapping of code points
    that keeps white space as it is and puts no white space at the
    front of what it maps the other code points to. *)
Lemma lstrip_mapped (f : N -> list N) s :
  (forall c, isspace c = true -> f c = [c]) ->
  (forall c, isspace c = false ->
             match f c with d :: _ => isspace d = false | [] => False end) ->
  lstrip (concat (map f s)) = concat (map f (lstrip s)).
Proof.
  intros Hsp Hns. induction s as [|c s IH]; [done|].
  cbn [map concat lstrip]. destruct (isspace c) eqn:E.
  - rewrite (Hsp c E). cbn [app lstrip]. rewrite E. exact IH.
  - specialize (Hns c E). cbn [map concat].
    destruct (f c) as [|d l]; [done|].
    cbn [app lstrip]. by rewrite Hns.
Qed.

Lemma lstrip_upper s : lstrip (upper s) = upper (lstrip s).
Proof.
  apply lstrip_mapped; [apply upper_cp_space|].
  intros c Hc. destruct (upper_cp_nonspace c Hc) as [Hne Hall].
  destruct (upper_cp c) as [|d l]; [done|].
  simpl in Hall. apply andb_true_iff in Hall as [Hd _].
  by apply negb_true_iff in Hd.
Qed.

Lemma upper_rev s : rev (upper s) = concat (map (fun c => rev (upper_cp c)) (rev s)).
Proof.
  induction s as [|c s IH]; [done|].
  rewrite upper_cons, rev_app_distr, IH. cbn [rev].
  rewrite map_app, concat_app. cbn [map concat]. by rewrite app_nil_r.
Qed.

Lemma strip_upper s : strip (upper s) = upper (strip s).
Proof.
  unfold strip, rstrip. rewrite lstrip_upper, upper_rev.
  rewrite lstrip_mapped.
  - set (t := lstrip (rev (lstrip s))).
    rewrite <- (rev_involutive t) at 1. rewrite <- upper_rev.
    apply rev_involutive.
  - intros c Hc. by rewrite (upper_cp_space c Hc).
  - intros c Hc. destruct (upper_cp_nonspace c Hc) as [Hne Hall].
    rewrite <- forallb_rev in Hall.
    destruct (rev (upper_cp c)) as [|d l] eqn:E.
    + apply (f_equal (@length N)) in E. rewrite length_rev in E.
      by destruct (upper_cp c).
    + simpl in Hall. apply andb_true_iff in Hall as [Hd _].
      by apply negb_true_iff in Hd.
Qed.

Lemma lstrip_idem s : lstrip (lstrip s) = lstrip s.
Proof.
  induction s as [|c s IH]; [done|].
  simpl. destruct (isspace c) eqn:E; [apply IH|]. simpl. by rewrite E.
Qed.

(** [lstrip] only removes a prefix made of white space. *)
Lemma lstrip_suffix s : exists w, s = w ++ lstrip s /\ forallb isspace w = true.
Proof.
  induction s as [|c s (w & Hw & Hs)]; [by exists []|].
  simpl. destruct (isspace c) eqn:E.
  - exists (c :: w). simpl. rewrite E, Hs. split; [by f_equal|done].
  - by exists [].
Qed.

Lemma lstrip_fixed s :
  match s with c :: _ => isspace c = false | [] => True end -> lstrip s = s.
Proof. destruct s as [|c s]; [done|]. simpl. by intros ->. Qed.

Lemma lstrip_head s :
  match lstrip s with c :: _ => isspace c = false | [] => True end.
Proof.
  induction s as [|c s IH]; [done|].
  simpl. destruct (isspace c) eqn:E; [apply IH|done].
Qed.

Lemma lstrip_all_space w : forallb isspace w = true -> lstrip w = [].
Proof.
  induction w as [|c w IH]; [done|].
  simpl. intros [-> H]%andb_true_iff. auto.
Qed.

(** Removing trailing white space from a string that does not start with
    white space leaves a string that does not start with white space. *)
Lemma lstrip_rstrip_fixed s : lstrip s = s -> lstrip (rstrip s) = rstrip s.
Proof.
  intros Hs. unfold rstrip.
  destruct (lstrip_suffix (rev s)) as (w & Hw & Hsp).
  assert (s = rev (lstrip (rev s)) ++ rev w) as Hdec.
  { rewrite <- rev_app_distr, <- Hw. by rewrite rev_involutive. }
  destruct (rev (lstrip (rev s))) as [|c t] eqn:Et; [done|].
  apply lstrip_fixed.
  pose proof (lstrip_head s) as Hh. rewrite Hs in Hh.
  rewrite Hdec in Hh. exact Hh.
Qed.

Lemma strip_idem s : strip (strip s) = strip s.
Proof.
  unfold strip.
  rewrite (lstrip_rstrip_fixed (lstrip s)) by apply lstrip_idem.
  unfold rstrip. by rewrite rev_involutive, lstrip_idem.
Qed.

(* --------------------------------------------------------------------- *)
(** *** Running computations *)

Lemma run_bind {S A B} (m : M S A) (f : A -> M S B) st :
  (m ≫= f) st =
  match m st with
  | (Ok a, st') => f a st'
  | (Err e, st') => (Err e, st')
  end.
Proof. reflexivity. Qed.

Lemma run_bind_ok {S A B} (m : M S A) (f : A -> M S B) st a st' :
  m st = (Ok a, st') -> (m ≫= f) st = f a st'.
Proof. intros H. by rewrite run_bind, H. Qed.

Lemma run_bind_err {S A B} (m : M S A) (f : A -> M S B) st e st' :
  m st = (Err e, st') -> (m ≫= f) st = (Err e, st').
Proof. intros H. by rewrite run_bind, H. Qed.

(* --------------------------------------------------------------------- *)
(** *** Abbreviations *)

Lemma strip_upper_idem s : strip (upper (strip (upper s))) = strip (upper s).
Proof.
  rewrite (strip_upper s), upper_idem, (strip_upper (strip s)), strip_idem.
  reflexivity.
Qed.

Lemma normalize_abbr_fixed_stripped s :
  ABBR_FIX !! strip (upper s) = None ->
  normalize_abbr (strip (upper s)) = strip (upper s).
Proof.
  intros H. unfold normalize_abbr. rewrite strip_upper_idem. by rewrite H.
Qed.

Lemma ABBR_FIX_values_fixed :
  Forall (fun kv => normalize_abbr (snd kv) = snd kv) ABBR_FIX_items.
Proof. repeat constructor. Qed.

Lemma ABBR_FIX_keys_mapped :
  Forall (fun kv => normalize_abbr (fst kv) = snd kv) ABBR_FIX_items.
Proof. repeat constructor. Qed.

(** C8. [normalize_abbr] is defined on every string (the call on a string
    value never raises), applying it twice is the same as applying it
    once, and every alias of the correction table is mapped to its
    canonical form, in particular GS to GSW and NY to NYK. The strings
    are those of Python, of any code points: a dotless i followed by nd
    gives IND, a sharp s gives SS. *)
Theorem normalize_abbr_total_idempotent :
  (forall x : str,
      normalize_abbr_any (JStr x) = Ok (normalize_abbr x)
      /\ normalize_abbr (normalize_abbr x) = normalize_abbr x)
  /\ normalize_abbr "GS" = u "GSW"
  /\ normalize_abbr "NY" = u "NYK"
  /\ (forall k v, In (k, v) ABBR_FIX_items -> normalize_abbr k = v)
  /\ normalize_abbr [305; 110; 100]%N = u "IND"
  /\ normalize_abbr [223]%N = u "SS".
Proof.
  split; [|split; [reflexivity|split; [reflexivity|split;
    [|split; vm_compute; reflexivity]]]].
  - intros x. split.
    + unfold normalize_abbr_any. simpl.
      destruct x; [reflexivity|]. by rewrite bool_decide_eq_false_2.
    + unfold normalize_abbr at 2 3.
      destruct (ABBR_FIX !! strip (upper x)) as [v|] eqn:E; simpl.
      * apply elem_of_list_to_map_2 in E.
        pose proof ABBR_FIX_values_fixed as HF.
        rewrite Forall_forall in HF. apply (HF _ E).
      * by apply normalize_abbr_fixed_stripped.
  - intros k v Hin. apply (proj2 (list_elem_of_In _ _)) in Hin.
    pose proof ABBR_FIX_keys_mapped as HF.
    rewrite Forall_forall in HF. apply (HF _ Hin).
Qed.

(* --------------------------------------------------------------------- *)
(** *** Chunking *)

Section Chunks.
Context {A : Type}.
Implicit Types l : list A.

Lemma take_plus_app l n m :
  take (n + m) l = take n l ++ take m (drop n l).
Proof.
  revert l. induction n as [|n IH]; intros l; [done|].
  destruct l as [|x l]; [by rewrite drop_nil, !take_nil|].
  simpl. by rewrite IH.
Qed.

(** The pieces cut at [a*n, (a+1)*n, ...], [k] of them, put together
    again. *)
Lemma concat_pieces l n a k :
  concat (map (fun i => take n (drop i l))
              (map (fun j => j * n)%nat (seq a k)))
  = take (k * n) (drop (a * n) l).
Proof.
  revert a. induction k as [|k IH]; intros a; [done|].
  simpl. rewrite IH, take_plus_app, drop_drop.
  do 3 f_equal. lia.
Qed.

Lemma pieces_cover (len n : nat) :
  (1 <= n)%nat -> (len <= (len + n - 1) / n * n)%nat.
Proof.
  intros Hn.
  pose proof (Nat.div_mod_eq (len + n - 1) n) as Hd.
  pose proof (Nat.mod_upper_bound (len + n - 1) n) as Hm.
  nia.
Qed.
End Chunks.

Lemma chunks_sound (MAX : nat) (text : str) :
  (1 <= MAX)%nat ->
  concat (chunks MAX text) = text
  /\ Forall (fun c => (length c <= MAX)%nat) (chunks MAX text).
Proof.
  intros HM. unfold chunks.
  destruct (Nat.leb_spec (length text) MAX) as [Hle|Hgt].
  - split; [simpl; by rewrite app_nil_r|].
    constructor; [done|constructor].
  - split.
    + unfold range_step. rewrite concat_pieces. simpl.
      rewrite drop_0. apply take_ge. by apply pieces_cover.
    + apply Forall_forall. intros c Hc.
      apply list_elem_of_fmap in Hc as (i & -> & _).
      rewrite length_take. lia.
Qed.

(** C5. For every text and every [MAX >= 1], the blocks sent for the text
    are consecutive substrings: put together in order they give the text
    back exactly, and none is longer than [MAX]; so it is for the
    sender's [MAX = 3500]. *)
Theorem chunks_roundtrip (MAX : nat) (text : str) :
  (1 <= MAX)%nat ->
  (concat (chunks MAX text) = text
   /\ Forall (fun c => (length c <= MAX)%nat) (chunks MAX text))
  /\ (concat (chunks NBA.MAX text) = text
      /\ Forall (fun c => (length c <= 3500)%nat) (chunks NBA.MAX text)).
Proof.
  intros HM. split.
  - by apply chunks_sound.
  - apply chunks_sound. unfold NBA.MAX. lia.
Qed.

Lemma chunks_roundtrip_witness :
  concat (chunks 3 (u "abcdefgh")) = u "abcdefgh"
  /\ Forall (fun c => (length c <= 3)%nat) (chunks 3 (u "abcdefgh")).
Proof. apply (chunks_roundtrip 3 (u "abcdefgh")). lia. Defined.

Example chunks_example :
  chunks 3 (u "abcdefgh") = [u "abc"; u "def"; u "gh"].
Proof. reflexivity. Qed.

(* --------------------------------------------------------------------- *)
(** *** Reading the date argument *)

Lemma digit_runs_ok : forallb digit_run_ok DIGIT_ZEROS = true.
Proof. vm_compute. reflexivity. Qed.

(** A digit is the [i]-th code point of one of the runs. *)
Lemma isdigit_inv c :
  isdigit c = true ->
  exists z i, In z DIGIT_ZEROS /\ (i < 10)%nat /\ c = (z + N.of_nat i)%N.
Proof.
  unfold isdigit, digit_value.
  destruct (find _ DIGIT_ZEROS) as [z|] eqn:E; [|discriminate]. intros _.
  apply find_some in E as [Hin Hz].
  apply andb_true_iff in Hz as [H1 H2].
  apply N.leb_le in H1. apply N.ltb_lt in H2.
  exists z, (N.to_nat (c - z)). split; [done|]. split; lia.
Qed.

(** On the ASCII digits the value is the usual one. *)
Lemma digit_value_ascii c :
  (48 <= c <= 57)%N -> digit_value c = Some (Z.of_N c - 48).
Proof.
  intros H. unfold digit_value, DIGIT_ZEROS. cbn [find].
  rewrite (proj2 (N.leb_le 48 c)) by lia.
  rewrite (proj2 (N.ltb_lt c (48 + 10))) by lia.
  cbn [andb mbind option_bind]. f_equal. lia.
Qed.

Lemma isdigit_plain c :
  isdigit c = true ->
  isspace c = false /\ (c =? 45)%N = false /\ (c =? 43)%N = false
  /\ (c =? 95)%N = false.
Proof.
  intros (z & i & Hz & Hi & ->)%isdigit_inv.
  pose proof digit_runs_ok as Hok. rewrite forallb_forall in Hok.
  specialize (Hok z Hz). unfold digit_run_ok in Hok.
  rewrite forallb_forall in Hok.
  specialize (Hok i ltac:(apply in_seq; lia)). cbv zeta in Hok.
  repeat (apply andb_true_iff in Hok as [Hok ?]).
  repeat match goal with
         | H : negb _ = true |- _ => apply negb_true_iff in H
         end.
  by repeat split.
Qed.

Lemma isdigit_not_space c : isdigit c = true -> isspace c = false.
Proof. by intros (H & _)%isdigit_plain. Qed.

Lemma isdigit_not_sign c :
  isdigit c = true -> (c =? 45)%N = false /\ (c =? 43)%N = false.
Proof. by intros (_ & H1 & H2 & _)%isdigit_plain. Qed.

Lemma lstrip_digits s : forallb isdigit s = true -> lstrip s = s.
Proof.
  destruct s as [|c s]; [done|].
  simpl. intros [H _]%andb_true_iff. by rewrite isdigit_not_space.
Qed.

Lemma strip_digits s : forallb isdigit s = true -> strip s = s.
Proof.
  intros H. unfold strip, rstrip.
  rewrite (lstrip_digits s H).
  rewrite lstrip_digits by (by rewrite forallb_rev).
  apply rev_involutive.
Qed.

Lemma int_body_digits s : forallb isdigit s = true -> int_body true s = true.
Proof.
  induction s as [|c s IH]; [done|].
  simpl. intros [-> H]%andb_true_iff. auto.
Qed.

Lemma filter_digits s :
  forallb isdigit s = true -> List.filter isdigit s = s.
Proof.
  induction s as [|c s IH]; [done|].
  simpl. intros [-> H]%andb_true_iff. by rewrite IH.
Qed.

(** [int] on a non-empty run of ASCII digits is its decimal value. *)
Lemma int_of_part_digits s :
  s <> [] -> forallb isdigit s = true -> int_of_part s = Ok (digits_value s).
Proof.
  intros Hne Hd. unfold int_of_part, py_int, int_of_str.
  rewrite (strip_digits s Hd).
  destruct s as [|c r]; [done|].
  pose proof Hd as Hd'. simpl in Hd'.
  apply andb_true_iff in Hd' as [Hc Hr].
  destruct (isdigit_not_sign c Hc) as [-> ->]. cbn [orb].
  rewrite (filter_digits (c :: r) Hd).
  cbn [int_body]. rewrite Hc, (int_body_digits r Hr).
  f_equal. destruct (digits_value (c :: r)); reflexivity.
Qed.

Lemma date_new_valid y m d :
  valid_date y m d = true -> date_new y m d = Ok (Date y m d).
Proof.
  unfold valid_date, date_new. intros H.
  repeat (apply andb_true_iff in H as [H ?]).
  repeat match goal with Hx : _ = true |- _ => rewrite Hx; clear Hx end.
  reflexivity.
Qed.

Lemma date_new_invalid y m d :
  valid_date y m d = false ->
  exists msg, date_new y m d = Err (Exn ValueError msg).
Proof.
  unfold valid_date, date_new.
  destruct (1 <=? y), (y <=? 9999), (1 <=? m), (m <=? 12), (1 <=? d),
    (d <=? days_in_month y m); simpl; intros H;
    first [discriminate H | eauto].
Qed.

(** A string of the shape [dddd-dd-dd] is read as its three numbers. *)
Lemma parse_date_arg_pattern s :
  date_pattern s = true ->
  parse_date_arg (Some s)
  = (dt ← date_new (digits_value (take 4 s))
                   (digits_value (take 2 (drop 5 s)))
                   (digits_value (drop 8 s));
     Ok (Some dt)).
Proof.
  intros Hp. unfold parse_date_arg. rewrite Hp.
  do 10 (destruct s as [|? s]; [discriminate Hp|]).
  destruct s; [|discriminate Hp].
  cbn [date_pattern] in Hp.
  do 9 (apply andb_true_iff in Hp as [Hp ?]).
  repeat match goal with
         | H : (_ =? 45)%N = true |- _ => apply N.eqb_eq in H; subst
         end.
  cbn [negb split1].
  repeat match goal with
         | H : isdigit ?c = true |- _ =>
             rewrite (proj1 (isdigit_not_sign c H))
         end.
  cbn [N.eqb Pos.eqb fold_result mbind result_bind].
  rewrite !int_of_part_digits
    by (first [ discriminate
              | cbn [forallb];
                repeat match goal with
                       | H : isdigit _ = true |- _ => rewrite H; clear H
                       end; reflexivity ]).
  reflexivity.
Qed.

(** C10. [parse_date_arg] returns [None] for a missing or empty argument
    and for every string that does not match [dddd-dd-dd] (the digits
    being the decimal digits of any script, as for the pattern); for a
    matching string it returns the date when year, month and day form a
    calendar date and raises [ValueError] otherwise, as on "2025-13-40";
    the /preds handler lets that exception through: nothing is sent and
    the handler ends with the exception. *)
Theorem parse_date_arg_spec :
  parse_date_arg None = Ok None
  /\ parse_date_arg (Some []) = Ok None
  /\ (forall s, date_pattern s = false -> parse_date_arg (Some s) = Ok None)
  /\ (forall s, date_pattern s = true ->
        let y := digits_value (take 4 s) in
        let m := digits_value (take 2 (drop 5 s)) in
        let d := digits_value (drop 8 s) in
        (valid_date y m d = true ->
           parse_date_arg (Some s) = Ok (Some (Date y m d)))
        /\ (valid_date y m d = false ->
           exists msg, parse_date_arg (Some s) = Err (Exn ValueError msg)))
  /\ (exists msg,
        parse_date_arg (Some (u "2025-13-40")) = Err (Exn ValueError msg))
  /\ parse_date_arg
       (Some [1634; 1632; 1634; 1638; 45; 1632; 1634; 45; 1633; 1641]%N)
     = Ok (Some (Date 2026 2 19))
  /\ (forall W update s rest e st,
        parse_date_arg (Some s) = Err e ->
        preds_cmd W update (s :: rest) st = (Err e, st)).
Proof.
  split; [reflexivity|]. split; [reflexivity|].
  split; [|split; [|split; [eexists; vm_compute; reflexivity|
                            split; [vm_compute; reflexivity|]]]].
  - intros s Hp. unfold parse_date_arg. rewrite Hp.
    by destruct s.
  - intros s Hp y m d. rewrite (parse_date_arg_pattern s Hp).
    fold y m d. split.
    + intros Hv. by rewrite (date_new_valid _ _ _ Hv).
    + intros Hv. destruct (date_new_invalid _ _ _ Hv) as [msg ->]. eauto.
  - intros W update s rest e st He.
    destruct s as [|c a]; [discriminate He|].
    unfold preds_cmd. cbn [head].
    rewrite run_bind. unfold lift. by rewrite He.
Qed.

Lemma parse_date_arg_spec_witness :
  parse_date_arg (Some (u "2026-02-19")) = Ok (Some (Date 2026 2 19))
  /\ (exists msg,
        parse_date_arg (Some (u "2025-02-30")) = Err (Exn ValueError msg))
  /\ parse_date_arg (Some (u "tomorrow")) = Ok None.
Proof.
  destruct parse_date_arg_spec as (_ & _ & Hno & Hyes & _).
  split; [|split].
  - apply (Hyes (u "2026-02-19")); vm_compute; reflexivity.
  - apply (Hyes (u "2025-02-30")); vm_compute; reflexivity.
  - apply (Hno (u "tomorrow")). vm_compute. reflexivity.
Defined.

(* --------------------------------------------------------------------- *)
(** *** Concrete runs *)

Example demo_team_map :
  fst (load_team_map Demo.demo_world (initial_state 1000))
  = Ok ({[ u "BOS" := Team 2 "Celtics"; u "GSW" := Team 9 "Warriors";
           u "NYK" := Team 18 "Knicks" ]}).
Proof. vm_compute. reflexivity. Qed.

Example demo_wins_BOS :
  fst (fetch_team_recent_wins Demo.demo_world 2 2025 Demo.feb19
         (initial_state 1000))
  = Ok [true; true; false; true].
Proof. vm_compute. reflexivity. Qed.

(** A date without offset next to dates with one: the sort cannot order
    them and the computation ends with [TypeError]. *)
Example mixed_dates_raise :
  exists msg,
    compute_win_flags Demo.demo_world 2 Demo.feb19
      (JObj [(u "events",
              JArr [ Demo.game "2026-02-10T00:30Z" true "2" "9" false;
                     Demo.game "2026-02-14T00:30" true "2" "18" true ])])
    = Err (Exn TypeError msg).
Proof. eexists. vm_compute. reflexivity. Qed.

Example demo_pick :
  fst (pick_winner Demo.demo_world "gs" "bos" Demo.feb19 (initial_state 1000))
  = Ok (u "BOS",
        Breakdown "GSW" "BOS" (1, 2) (3, 1) None None "last10").
Proof. vm_compute. reflexivity. Qed.

(* --------------------------------------------------------------------- *)
(** *** What a computation leaves in place *)

#[global] Instance same_caches_preorder : PreOrder same_caches.
Proof.
  split.
  - by intros st.
  - intros a b c (H1 & H2 & H3) (H4 & H5 & H6).
    unfold same_caches. by rewrite H4, H5, H6.
Qed.

#[global] Instance schedule_kept_preorder : PreOrder schedule_kept.
Proof.
  split.
  - intros st. unfold schedule_kept. reflexivity.
  - intros a b c H1 H2. unfold schedule_kept in *. by etrans.
Qed.

Lemma same_caches_schedule_kept st st' :
  same_caches st st' -> schedule_kept st st'.
Proof. intros (_ & _ & H). unfold schedule_kept. by rewrite H. Qed.

Section Keeps.
Context (R : state -> state -> Prop) `{!PreOrder R}.

Lemma keeps_ret {A} (a : A) : keeps R (mret a).
Proof. by intros st. Qed.

Lemma keeps_raise {A} e : keeps R (@raise state A e).
Proof. by intros st. Qed.

Lemma keeps_lift {A} (r : result A) : keeps R (lift r).
Proof. by intros st. Qed.

Lemma keeps_get_state : keeps R get_state.
Proof. by intros st. Qed.


Lemma keeps_bind {A B} (m : M state A) (f : A -> M state B) :
  keeps R m -> (forall a, keeps R (f a)) -> keeps R (m ≫= f).
Proof.
  intros Hm Hf st. rewrite run_bind.
  specialize (Hm st). destruct (m st) as [[a|e] st1]; [|exact Hm].
  etrans; [exact Hm|apply Hf].
Qed.

Lemma keeps_try {A} (m : M state A) h :
  keeps R m -> (forall e, keeps R (h e)) -> keeps R (try_except m h).
Proof.
  intros Hm Hh st. unfold try_except.
  specialize (Hm st). destruct (m st) as [[a|e] st1]; [exact Hm|].
  etrans; [exact Hm|apply Hh].
Qed.
End Keeps.

Lemma keeps_weaken {A} (R R' : state -> state -> Prop) (m : M state A) :
  (forall st st', R st st' -> R' st st') -> keeps R m -> keeps R' m.
Proof. intros H Hm st. apply H, Hm. Qed.

Section Network.
Context (W : world).

Lemma http_get_caches req : keeps same_caches (http_get W req).
Proof. by intros st. Qed.

Lemma sleep_caches secs : keeps same_caches (sleep secs).
Proof. by intros st. Qed.

Lemma send_text_caches update text :
  keeps same_caches (send_text update text).
Proof.
  intros st. unfold send_text.
  destruct update as [[[reply_text|]]|]; [|done|done].
  by destruct (reply_text _ _).
Qed.

Lemma retry_from_caches attempts last_err req :
  keeps same_caches (retry_from W attempts last_err req).
Proof.
  revert last_err. induction attempts as [|a rest IH]; intros last_err.
  - destruct last_err; apply keeps_raise; apply _.
  - simpl. apply keeps_try; [apply _|apply http_get_caches|].
    intros e. apply keeps_bind; [apply _|apply sleep_caches|].
    intros _. apply IH.
Qed.

(** The fetch layer touches no cache: a failed (or successful) download
    leaves the team directory and the schedule cache as they were. *)
Lemma get_json_with_retries_caches url params :
  keeps same_caches (get_json_with_retries W url params).
Proof. apply retry_from_caches. Qed.

Lemma scoreboard_from_caches urls params last_error :
  keeps same_caches (scoreboard_from W urls params last_error).
Proof.
  revert last_error. induction urls as [|url rest IH]; intros last_error.
  - destruct last_error; apply keeps_raise; apply _.
  - simpl. apply keeps_try; [apply _| |intros e; apply IH].
    apply keeps_bind; [apply _|apply get_json_with_retries_caches|].
    intros data. apply keeps_lift; apply _.
Qed.

Lemma send_all_caches update texts :
  keeps same_caches (send_all update texts).
Proof.
  induction texts as [|t rest IH]; [apply keeps_ret; apply _|].
  simpl. apply keeps_bind; [apply _|apply send_text_caches|].
  intros _. apply IH.
Qed.
End Network.

(* --------------------------------------------------------------------- *)
(** *** The team directory *)

Section Directory.
Context (W : world).

(** What a lookup of the directory does, case by case. *)
Lemma load_team_map_run st :
  match team_map_fresh st with
  | Some m => load_team_map W st = (Ok m, st)
  | None =>
      match get_json_with_retries W ESPN_TEAMS_URL [] st with
      | (Err e, st1) => load_team_map W st = (Err e, st1)
      | (Ok data, st1) =>
          match parse_team_list data with
          | Err e => load_team_map W st = (Err e, st1)
          | Ok m => load_team_map W st = (Ok m, set_team_map m (clock st) st1)
          end
      end
  end.
Proof.
  unfold load_team_map. rewrite run_bind. cbn [get_state].
  destruct (team_map_fresh st) as [m|]; [reflexivity|].
  rewrite run_bind.
  destruct (get_json_with_retries W ESPN_TEAMS_URL [] st) as [[data|e] st1];
    [|reflexivity].
  rewrite run_bind. unfold lift.
  destruct (parse_team_list data) as [m|e]; reflexivity.
Qed.

Lemma stale_not_fresh st :
  TEAM_MAP_TTL_SECONDS <= clock st - TEAM_MAP_CACHE_TS st ->
  team_map_fresh st = None.
Proof.
  intros H. unfold team_map_fresh.
  destruct (TEAM_MAP_CACHE st) as [m|]; [|done].
  rewrite (proj2 (Z.ltb_ge _ _)) by lia. by rewrite andb_false_r.
Qed.

Lemma load_team_map_schedule_kept : keeps schedule_kept (load_team_map W).
Proof.
  intros st. pose proof (load_team_map_run st) as H.
  destruct (team_map_fresh st) as [m|]; [by rewrite H|].
  pose proof (get_json_with_retries_caches W ESPN_TEAMS_URL [] st) as Hc.
  destruct (get_json_with_retries W ESPN_TEAMS_URL [] st) as [[data|e] st1];
    [|rewrite H; by apply same_caches_schedule_kept].
  destruct (parse_team_list data) as [m|e]; rewrite H;
    [|by apply same_caches_schedule_kept].
  destruct Hc as (_ & _ & Hs). unfold schedule_kept. simpl in *.
  by rewrite Hs.
Qed.
End Directory.

(** C2, as the code has it. When the directory is looked up after the
    six hours have elapsed and the reload fails, in the download or in the
    reading of the downloaded list, the error goes to the caller whether
    or not a previous mapping exists; the previous mapping and its time
    stamp stay in the cache as they were, but are not used to answer. *)
Theorem load_team_map_reload_failure W st e st' :
  TEAM_MAP_TTL_SECONDS <= clock st - TEAM_MAP_CACHE_TS st ->
  (get_json_with_retries W ESPN_TEAMS_URL [] st = (Err e, st')
   \/ exists data,
       get_json_with_retries W ESPN_TEAMS_URL [] st = (Ok data, st')
       /\ parse_team_list data = Err e) ->
  load_team_map W st = (Err e, st')
  /\ TEAM_MAP_CACHE st' = TEAM_MAP_CACHE st
  /\ TEAM_MAP_CACHE_TS st' = TEAM_MAP_CACHE_TS st.
Proof.
  intros Hstale Hfail.
  pose proof (load_team_map_run W st) as Hrun.
  rewrite (stale_not_fresh st Hstale) in Hrun.
  pose proof (get_json_with_retries_caches W ESPN_TEAMS_URL [] st) as Hc.
  destruct Hfail as [Hf|(data & Hf & Hp)]; rewrite Hf in Hrun, Hc.
  - split; [exact Hrun|]. destruct Hc as (H1 & H2 & _). by split.
  - rewrite Hp in Hrun.
    split; [exact Hrun|]. destruct Hc as (H1 & H2 & _). by split.
Qed.

Lemma load_team_map_reload_failure_witness :
  fst (load_team_map Demo.dead_world Demo.stale_state) = Err Demo.timed_out
  /\ TEAM_MAP_CACHE (snd (load_team_map Demo.dead_world Demo.stale_state))
     = Some Demo.loaded_map.
Proof.
  destruct (load_team_map_reload_failure Demo.dead_world Demo.stale_state
              Demo.timed_out
              (snd (get_json_with_retries Demo.dead_world ESPN_TEAMS_URL []
                      Demo.stale_state))) as (H1 & H2 & _).
  - vm_compute. discriminate.
  - left. vm_compute. reflexivity.
  - rewrite H1. split; [reflexivity|exact H2].
Defined.

(** C2, as stated, fails: the directory holds a mapping loaded six hours
    ago, the provider does not answer, and the lookup raises the download
    error instead of answering from the mapping it still holds. *)
Lemma load_team_map_stale_fallback_counterexample :
  TEAM_MAP_CACHE Demo.stale_state = Some Demo.loaded_map
  /\ Demo.loaded_map <> ∅
  /\ TEAM_MAP_TTL_SECONDS
     <= clock Demo.stale_state - TEAM_MAP_CACHE_TS Demo.stale_state
  /\ fst (get_json_with_retries Demo.dead_world ESPN_TEAMS_URL []
            Demo.stale_state) = Err Demo.timed_out
  /\ fst (load_team_map Demo.dead_world Demo.stale_state)
     = Err Demo.timed_out
  /\ fst (load_team_map Demo.dead_world Demo.stale_state)
     <> Ok Demo.loaded_map.
Proof.
  split; [reflexivity|].
  split; [intros H; by apply (f_equal (fun m => m !! u "BOS")) in H|].
  split; [vm_compute; discriminate|].
  split; [vm_compute; reflexivity|].
  split; [vm_compute; reflexivity|].
  vm_compute. discriminate.
Qed.

(* --------------------------------------------------------------------- *)
(** *** The schedule cache *)

Section Schedule.
Context (W : world).

(** What [fetch_team_recent_wins] does, case by case. *)
Lemma fetch_team_recent_wins_run team_id season_year cutoff_date st :
  let key := cache_key team_id season_year cutoff_date in
  match SCHEDULE_WINS_CACHE st !! key with
  | Some win_flags =>
      fetch_team_recent_wins W team_id season_year cutoff_date st
      = (Ok win_flags, st)
  | None =>
      match get_json_with_retries W (ESPN_TEAM_SCHEDULE_URL team_id)
              [(u "season", str_of_Z season_year)] st with
      | (Err e, st1) =>
          fetch_team_recent_wins W team_id season_year cutoff_date st
          = (Err e, st1)
      | (Ok data, st1) =>
          match compute_win_flags W team_id cutoff_date data with
          | Err e =>
              fetch_team_recent_wins W team_id season_year cutoff_date st
              = (Err e, st1)
          | Ok win_flags =>
              fetch_team_recent_wins W team_id season_year cutoff_date st
              = (Ok win_flags, set_schedule key win_flags st1)
          end
      end
  end.
Proof.
  intros key. unfold fetch_team_recent_wins. rewrite run_bind.
  cbn [get_state]. fold key.
  destruct (SCHEDULE_WINS_CACHE st !! key) as [v|]; [reflexivity|].
  rewrite run_bind.
  destruct (get_json_with_retries W _ _ st) as [[data|e] st1]; [|reflexivity].
  rewrite run_bind. unfold lift.
  destruct (compute_win_flags W team_id cutoff_date data) as [v|e];
    reflexivity.
Qed.

(** A cached key is answered from the cache: same sequence, same state,
    so no request is issued. *)
Lemma fetch_team_recent_wins_hit team_id season_year cutoff_date st v :
  SCHEDULE_WINS_CACHE st !! cache_key team_id season_year cutoff_date
  = Some v ->
  fetch_team_recent_wins W team_id season_year cutoff_date st = (Ok v, st).
Proof.
  intros H.
  pose proof (fetch_team_recent_wins_run team_id season_year cutoff_date st)
    as Hrun.
  cbv zeta in Hrun. by rewrite H in Hrun.
Qed.

(** A sequence that was returned is in the cache under its key. *)
Lemma fetch_team_recent_wins_stored team_id season_year cutoff_date st v st1 :
  fetch_team_recent_wins W team_id season_year cutoff_date st = (Ok v, st1) ->
  SCHEDULE_WINS_CACHE st1 !! cache_key team_id season_year cutoff_date
  = Some v.
Proof.
  intros H.
  pose proof (fetch_team_recent_wins_run team_id season_year cutoff_date st)
    as Hrun.
  cbv zeta in Hrun.
  destruct (SCHEDULE_WINS_CACHE st !! _) as [v0|] eqn:Hc.
  - rewrite Hrun in H. by inversion H; subst.
  - destruct (get_json_with_retries W _ _ st) as [[data|e] st0];
      [|rewrite Hrun in H; discriminate H].
    destruct (compute_win_flags W team_id cutoff_date data) as [v0|e];
      rewrite Hrun in H; [|discriminate H].
    inversion H; subst. simpl. apply lookup_insert_eq.
Qed.

Lemma fetch_team_recent_wins_kept team_id season_year cutoff_date :
  keeps schedule_kept
    (fetch_team_recent_wins W team_id season_year cutoff_date).
Proof.
  intros st.
  pose proof (fetch_team_recent_wins_run team_id season_year cutoff_date st)
    as Hrun.
  cbv zeta in Hrun.
  destruct (SCHEDULE_WINS_CACHE st !! _) as [v0|] eqn:Hc.
  { rewrite Hrun. reflexivity. }
  pose proof (get_json_with_retries_caches W (ESPN_TEAM_SCHEDULE_URL team_id)
                [(u "season", str_of_Z season_year)] st) as Hk.
  destruct (get_json_with_retries W _ _ st) as [[data|e] st0];
    [|rewrite Hrun; by apply same_caches_schedule_kept].
  destruct (compute_win_flags W team_id cutoff_date data) as [v0|e];
    rewrite Hrun; [|by apply same_caches_schedule_kept].
  destruct Hk as (_ & _ & Hs). unfold schedule_kept. simpl in *.
  rewrite Hs. apply insert_subseteq. exact Hc.
Qed.

Lemma record_last_n_kept team_id season_year cutoff_date n :
  keeps schedule_kept (record_last_n W team_id season_year cutoff_date n).
Proof.
  unfold record_last_n.
  apply keeps_bind; [apply _|apply fetch_team_recent_wins_kept|].
  intros v. apply keeps_ret; apply _.
Qed.

Lemma pick_winner_kept away home cutoff_date :
  keeps schedule_kept (pick_winner W away home cutoff_date).
Proof.
  unfold pick_winner.
  apply keeps_bind; [apply _|apply load_team_map_schedule_kept|].
  intros m.
  destruct (m !! normalize_abbr away); [|apply keeps_raise; apply _].
  destruct (m !! normalize_abbr home); [|apply keeps_raise; apply _].
  apply keeps_bind; [apply _|apply record_last_n_kept|]. intros a10.
  apply keeps_bind; [apply _|apply record_last_n_kept|]. intros h10.
  destruct (negb (a10.1 =? h10.1)); [apply keeps_ret; apply _|].
  apply keeps_bind; [apply _|apply record_last_n_kept|]. intros a5.
  apply keeps_bind; [apply _|apply record_last_n_kept|]. intros h5.
  destruct (negb (a5.1 =? h5.1)); apply keeps_ret; apply _.
Qed.

Lemma matchup_line_kept d g : keeps schedule_kept (matchup_line W d g).
Proof.
  unfold matchup_line. apply keeps_try; [apply _| |].
  - apply keeps_bind; [apply _|apply pick_winner_kept|].
    intros r. apply keeps_ret; apply _.
  - intros e. apply keeps_ret; apply _.
Qed.

Lemma matchup_lines_kept d games :
  keeps schedule_kept (matchup_lines W d games).
Proof.
  induction games as [|g rest IH]; [apply keeps_ret; apply _|].
  simpl. apply keeps_bind; [apply _|apply matchup_line_kept|].
  intros line. apply keeps_bind; [apply _|apply IH|].
  intros lines. apply keeps_ret; apply _.
Qed.

Lemma same_caches_kept {A} (m : M state A) :
  keeps same_caches m -> keeps schedule_kept m.
Proof. apply keeps_weaken, same_caches_schedule_kept. Qed.

Lemma preds_cmd_kept update args :
  keeps schedule_kept (preds_cmd W update args).
Proof.
  unfold preds_cmd.
  apply keeps_bind; [apply _| |].
  { destruct (head args) as [[|c a]|].
    - apply keeps_bind; [apply _| |intros ?; apply keeps_ret; apply _].
      unfold get_tomorrow_utc.
      apply keeps_bind; [apply _|apply keeps_get_state; apply _|].
      intros ?. apply keeps_lift; apply _.
    - apply keeps_lift; apply _.
    - apply keeps_bind; [apply _| |intros ?; apply keeps_ret; apply _].
      unfold get_tomorrow_utc.
      apply keeps_bind; [apply _|apply keeps_get_state; apply _|].
      intros ?. apply keeps_lift; apply _. }
  intros [d|]; [|apply same_caches_kept, send_text_caches].
  apply keeps_bind; [apply _| |].
  { apply keeps_try; [apply _| |].
    - apply keeps_bind; [apply _| |intros ?; apply keeps_ret; apply _].
      apply same_caches_kept, scoreboard_from_caches.
    - intros e. apply keeps_bind; [apply _| |intros ?; apply keeps_ret; apply _].
      apply same_caches_kept, send_text_caches. }
  intros [[|g games]|].
  - apply same_caches_kept, send_text_caches.
  - apply keeps_bind; [apply _|apply matchup_lines_kept|].
    intros lines. apply same_caches_kept, send_all_caches.
  - apply keeps_ret; apply _.
Qed.

Lemma run_call_kept c st : schedule_kept st (run_call W c st).
Proof.
  destruct c; simpl.
  - apply load_team_map_schedule_kept.
  - apply fetch_team_recent_wins_kept.
  - apply record_last_n_kept.
  - apply (same_caches_kept _ (scoreboard_from_caches W _ _ _)).
  - apply pick_winner_kept.
  - apply preds_cmd_kept.
  - apply (same_caches_kept _ (sleep_caches _)).
Qed.

(** Whatever the process does, the entries of the schedule cache stay. *)
Lemma run_calls_kept cs st : schedule_kept st (run_calls W cs st).
Proof.
  revert st. induction cs as [|c cs IH]; intros st; [reflexivity|].
  simpl. etrans; [apply (run_call_kept c)|apply IH].
Qed.
End Schedule.

(** C3. Once [fetch_team_recent_wins] has returned the sequence for a key
    (team id, season year, cutoff date), then after any further activity
    of the process the cache still holds that same sequence under the
    key, and a call with the same key returns it without changing the
    state: no request is issued. *)
Theorem schedule_cache_immutable W team_id season_year cutoff_date st v st1 :
  fetch_team_recent_wins W team_id season_year cutoff_date st = (Ok v, st1) ->
  forall later : list call,
    let st2 := run_calls W later st1 in
    SCHEDULE_WINS_CACHE st2 !! cache_key team_id season_year cutoff_date
    = Some v
    /\ fetch_team_recent_wins W team_id season_year cutoff_date st2
       = (Ok v, st2)
    /\ http_calls (snd (fetch_team_recent_wins W team_id season_year
                          cutoff_date st2)) = http_calls st2.
Proof.
  intros Hfetch later st2.
  assert (SCHEDULE_WINS_CACHE st2 !! cache_key team_id season_year cutoff_date
          = Some v) as Hc.
  { pose proof (run_calls_kept W later st1) as Hk.
    unfold schedule_kept in Hk.
    eapply lookup_weaken; [|exact Hk].
    by eapply fetch_team_recent_wins_stored. }
  split; [exact Hc|].
  rewrite (fetch_team_recent_wins_hit W _ _ _ _ _ Hc). by split.
Qed.

Lemma schedule_cache_immutable_witness :
  let st1 := snd (fetch_team_recent_wins Demo.demo_world 2 2025 Demo.feb19
                    (initial_state 1000)) in
  let st2 := run_calls Demo.demo_world
               [CTick 30000; CPreds Demo.listening [u "2026-02-19"];
                CFetchWins 9 2025 Demo.feb19] st1 in
  fetch_team_recent_wins Demo.demo_world 2 2025 Demo.feb19 st2
  = (Ok [true; true; false; true], st2).
Proof.
  intros st1 st2.
  apply (schedule_cache_immutable Demo.demo_world 2 2025 Demo.feb19
           (initial_state 1000) [true; true; false; true] st1).
  vm_compute. reflexivity.
Defined.

(* --------------------------------------------------------------------- *)
(** *** The tie-break chain *)

Lemma record_last_n_run W team_id season_year cutoff_date n st v st' :
  fetch_team_recent_wins W team_id season_year cutoff_date st = (Ok v, st') ->
  record_last_n W team_id season_year cutoff_date n st
  = (Ok (record_of v n), st').
Proof. intros H. unfold record_last_n. by rewrite (run_bind_ok _ _ _ _ _ H). Qed.

Lemma count_wins_games_won sample : count_wins sample = games_won sample.
Proof.
  unfold count_wins. induction sample as [|[] sample IH].
  - reflexivity.
  - cbn [games_won]. rewrite <- IH. rewrite filter_cons_True by done.
    cbn [length]. lia.
  - cbn [games_won]. rewrite <- IH. by rewrite filter_cons_False by done.
Qed.

Lemma length_games sample :
  Z.of_nat (length sample) = games_won sample + games_lost sample.
Proof.
  induction sample as [|[] sample IH]; cbn [length games_won games_lost]; lia.
Qed.

Lemma record_of_described outcomes n :
  record_of outcomes (Z.of_nat n)
  = (games_won (last_games n outcomes), games_lost (last_games n outcomes)).
Proof.
  unfold record_of, slice_to, last_games.
  rewrite (proj2 (Z.leb_le 0 (Z.of_nat n))) by lia. rewrite Nat2Z.id.
  rewrite count_wins_games_won, length_games. f_equal. lia.
Qed.

(** C1. For two abbreviations that resolve in the team directory and a
    cutoff date (the two schedules being obtained), [pick_winner] returns,
    and its winner follows the chain: more games won among the last 10
    before the cutoff wins with reason "last10"; at equal last-10 wins,
    more games won among the last 5 wins with reason "last5"; at equal
    last-5 wins the home team wins with reason "home_tiebreak". The
    breakdown carries the games won and lost among the last 10. *)
Theorem pick_winner_chain W away_abbr home_abbr cutoff_date st
  team_map away_team home_team away_outcomes home_outcomes st1 st2 st3 :
  let away := normalize_abbr away_abbr in
  let home := normalize_abbr home_abbr in
  let season_year := espn_season_year_for_date cutoff_date in
  load_team_map W st = (Ok team_map, st1) ->
  team_map !! away = Some away_team ->
  team_map !! home = Some home_team ->
  fetch_team_recent_wins W (team_id away_team) season_year cutoff_date st1
  = (Ok away_outcomes, st2) ->
  fetch_team_recent_wins W (team_id home_team) season_year cutoff_date st2
  = (Ok home_outcomes, st3) ->
  let a10 := games_won (last_games 10 away_outcomes) in
  let h10 := games_won (last_games 10 home_outcomes) in
  let a5 := games_won (last_games 5 away_outcomes) in
  let h5 := games_won (last_games 5 home_outcomes) in
  exists winner info,
    pick_winner W away_abbr home_abbr cutoff_date st = (Ok (winner, info), st3)
    /\ away10 info = (a10, games_lost (last_games 10 away_outcomes))
    /\ home10 info = (h10, games_lost (last_games 10 home_outcomes))
    /\ (h10 < a10 -> winner = away /\ reason info = u "last10")
    /\ (a10 < h10 -> winner = home /\ reason info = u "last10")
    /\ (a10 = h10 -> h5 < a5 -> winner = away /\ reason info = u "last5")
    /\ (a10 = h10 -> a5 < h5 -> winner = home /\ reason info = u "last5")
    /\ (a10 = h10 -> a5 = h5 ->
        winner = home /\ reason info = u "home_tiebreak").
Proof.
  intros away home season_year Hload Haway Hhome HfA HfH a10 h10 a5 h5.
  (* the two later readings come from the cache *)
  assert (SCHEDULE_WINS_CACHE st3
            !! cache_key (team_id home_team) season_year cutoff_date
          = Some home_outcomes) as HcH
    by (by eapply fetch_team_recent_wins_stored).
  assert (SCHEDULE_WINS_CACHE st3
            !! cache_key (team_id away_team) season_year cutoff_date
          = Some away_outcomes) as HcA.
  { pose proof (fetch_team_recent_wins_kept W (team_id home_team) season_year
                  cutoff_date st2) as Hk.
    rewrite HfH in Hk. unfold schedule_kept in Hk.
    eapply lookup_weaken; [|exact Hk].
    by eapply fetch_team_recent_wins_stored. }
  pose proof (fetch_team_recent_wins_hit W _ _ _ _ _ HcA) as HfA'.
  pose proof (fetch_team_recent_wins_hit W _ _ _ _ _ HcH) as HfH'.
  unfold pick_winner. fold away home season_year.
  rewrite (run_bind_ok _ _ _ _ _ Hload), Haway, Hhome.
  rewrite (run_bind_ok _ _ _ _ _ (record_last_n_run _ _ _ _ 10 _ _ _ HfA)).
  rewrite (run_bind_ok _ _ _ _ _ (record_last_n_run _ _ _ _ 10 _ _ _ HfH)).
  change 10 with (Z.of_nat 10). rewrite !record_of_described.
  cbn [fst]. fold a10 h10.
  destruct (Z.eqb_spec a10 h10) as [E10|N10]; cbn [negb].
  - rewrite (run_bind_ok _ _ _ _ _ (record_last_n_run _ _ _ _ 5 _ _ _ HfA')).
    rewrite (run_bind_ok _ _ _ _ _ (record_last_n_run _ _ _ _ 5 _ _ _ HfH')).
    change 5 with (Z.of_nat 5). rewrite !record_of_described.
    cbn [fst]. fold a5 h5.
    destruct (Z.eqb_spec a5 h5) as [E5|N5]; cbn [negb].
    + eexists _, _. split; [reflexivity|]. cbn [reason away10 home10].
      repeat split; intros; first [lia | reflexivity].
    + eexists _, _. split; [reflexivity|]. cbn [reason away10 home10].
      destruct (Z.ltb_spec h5 a5);
        repeat split; intros; first [lia | reflexivity].
  - eexists _, _. split; [reflexivity|]. cbn [reason away10 home10].
    destruct (Z.ltb_spec h10 a10);
      repeat split; intros; first [lia | reflexivity].
Qed.

Lemma pick_winner_chain_witness :
  (exists info,
      fst (pick_winner Demo.demo_world "bos" "gs" Demo.feb19
             (initial_state 1000)) = Ok (u "BOS", info)
      /\ away10 info = (3, 1) /\ home10 info = (1, 2)
      /\ reason info = u "last10")
  /\ (exists info,
         fst (pick_winner Demo.demo_world "gs" "bos" Demo.feb19
                (initial_state 1000)) = Ok (u "BOS", info)
         /\ reason info = u "last10")
  /\ (exists info,
         fst (pick_winner Demo3.week_world "bos" "gs" Demo.feb19
                (initial_state 1000)) = Ok (u "BOS", info)
         /\ away10 info = (3, 4) /\ home10 info = (3, 4)
         /\ reason info = u "last5")
  /\ (exists info,
         fst (pick_winner Demo3.week_world "gs" "bos" Demo.feb19
                (initial_state 1000)) = Ok (u "BOS", info)
         /\ reason info = u "last5")
  /\ (exists info,
         fst (pick_winner Demo.demo_world "ny" "GS" Demo.feb19
                (initial_state 1000)) = Ok (u "GSW", info)
         /\ reason info = u "home_tiebreak").
Proof.
  split; [|split; [|split; [|split]]].
  - edestruct (pick_winner_chain Demo.demo_world "bos" "gs" Demo.feb19
                 (initial_state 1000))
      as (winner & info & Hrun & Ha & Hh & Haway & _);
      [vm_compute; reflexivity..|].
    destruct Haway as [-> Hreason]; [vm_compute; reflexivity|].
    exists info. rewrite Hrun. split; [vm_compute; reflexivity|].
    split; [etrans; [exact Ha|vm_compute; reflexivity]|].
    split; [etrans; [exact Hh|vm_compute; reflexivity]|exact Hreason].
  - edestruct (pick_winner_chain Demo.demo_world "gs" "bos" Demo.feb19
                 (initial_state 1000))
      as (winner & info & Hrun & _ & _ & _ & Hhome & _);
      [vm_compute; reflexivity..|].
    destruct Hhome as [-> Hreason]; [vm_compute; reflexivity|].
    exists info. rewrite Hrun. split; [vm_compute; reflexivity|exact Hreason].
  - edestruct (pick_winner_chain Demo3.week_world "bos" "gs" Demo.feb19
                 (initial_state 1000))
      as (winner & info & Hrun & Ha & Hh & _ & _ & Haway & _);
      [vm_compute; reflexivity..|].
    destruct Haway as [-> Hreason];
      [vm_compute; reflexivity|vm_compute; reflexivity|].
    exists info. rewrite Hrun. split; [vm_compute; reflexivity|].
    split; [etrans; [exact Ha|vm_compute; reflexivity]|].
    split; [etrans; [exact Hh|vm_compute; reflexivity]|exact Hreason].
  - edestruct (pick_winner_chain Demo3.week_world "gs" "bos" Demo.feb19
                 (initial_state 1000))
      as (winner & info & Hrun & _ & _ & _ & _ & _ & Hhome & _);
      [vm_compute; reflexivity..|].
    destruct Hhome as [-> Hreason];
      [vm_compute; reflexivity|vm_compute; reflexivity|].
    exists info. rewrite Hrun. split; [vm_compute; reflexivity|exact Hreason].
  - edestruct (pick_winner_chain Demo.demo_world "ny" "GS" Demo.feb19
                 (initial_state 1000))
      as (winner & info & Hrun & _ & _ & _ & _ & _ & _ & Htie);
      [vm_compute; reflexivity..|].
    destruct Htie as [-> Hreason];
      [vm_compute; reflexivity|vm_compute; reflexivity|].
    exists info. rewrite Hrun. split; [vm_compute; reflexivity|exact Hreason].
Defined.

(* --------------------------------------------------------------------- *)
(** *** Sorting *)

Section SortFacts.
Context {A K : Type} (ltb : K -> K -> bool) (key : A -> K).

Lemma insert_desc_perm x l : insert_desc ltb key x l ≡ₚ x :: l.
Proof.
  induction l as [|y l IH]; [done|].
  simpl. destruct (ltb (key x) (key y)); [|done].
  rewrite IH. apply Permutation_swap.
Qed.

Lemma sort_desc_perm l : sort_desc ltb key l ≡ₚ l.
Proof.
  induction l as [|x l IH]; [done|].
  simpl. rewrite insert_desc_perm. by rewrite IH.
Qed.

Lemma sort_desc_length l : length (sort_desc ltb key l) = length l.
Proof. apply Permutation_length, sort_desc_perm. Qed.

(** No item is followed by one with a larger key; [<] need only be
    asymmetric for this. *)
Hypothesis ltb_asym : forall a b, ltb a b = true -> ltb b a = false.

Lemma insert_desc_sorted x l :
  Sorted (not_below ltb key) l ->
  Sorted (not_below ltb key) (insert_desc ltb key x l).
Proof.
  induction 1 as [|y l Hs IH Hhd]; [by repeat constructor|].
  simpl. destruct (ltb (key x) (key y)) eqn:E.
  - constructor; [exact IH|].
    destruct l as [|z l]; simpl.
    + constructor. by apply ltb_asym.
    + destruct (ltb (key x) (key z)).
      * constructor. by inversion Hhd.
      * constructor. by apply ltb_asym.
  - constructor; [by constructor|]. by constructor.
Qed.

Lemma sort_desc_sorted l :
  Sorted (not_below ltb key) (sort_desc ltb key l).
Proof.
  induction l as [|x l IH]; [constructor|].
  simpl. by apply insert_desc_sorted.
Qed.
End SortFacts.



(* --------------------------------------------------------------------- *)
(** *** The schedule computation against its description *)

Import ScheduleSpec.


Lemma py_get_object kv k d :
  py_get (JObj kv) k d = Ok (default d (dict_get kv k)).
Proof. unfold py_get. by destruct (dict_get kv k). Qed.






Section AgainstDescription.
Context (W : world) (team_id : Z) (cutoff_date : date).













End AgainstDescription.


(** Events that do not count can end the whole computation. In each of
    the three documents the events that count are known, yet no sequence
    is computed: a game time without offset next to one with an offset
    cannot be ordered; a null status has no [get]; the identifier of
    another team that is not a number cannot be read. *)
Lemma compute_win_flags_aborts_counterexample :
  (map snd (omap (outcome Demo.demo_world 2 Demo.feb19)
              (events_of Demo3.schedule_mixed)) = [false; true]
   /\ compute_win_flags Demo.demo_world 2 Demo.feb19 Demo3.schedule_mixed
      = Err (Exn TypeError
                 "can't compare offset-naive and offset-aware datetimes"))
  /\ (map snd (omap (outcome Demo.demo_world 2 Demo.feb19)
                 (events_of Demo3.schedule_null_status)) = [true]
      /\ compute_win_flags Demo.demo_world 2 Demo.feb19
           Demo3.schedule_null_status
         = Err (Exn AttributeError
                    "'NoneType' object has no attribute 'get'"))
  /\ (map snd (omap (outcome Demo.demo_world 2 Demo.feb19)
                 (events_of Demo3.schedule_odd_id)) = [true]
      /\ compute_win_flags Demo.demo_world 2 Demo.feb19
           Demo3.schedule_odd_id
         = Err (Exn ValueError
                    "invalid literal for int() with base 10: 'TBD'")).
Proof. repeat split; vm_compute; reflexivity. Qed.

(* --------------------------------------------------------------------- *)
(** *** One line per matchup *)

Section Report.
Context (W : world) (d : date).

(** The loop body never raises: a failed prediction becomes the error
    line of its matchup. *)
Lemma matchup_line_run g st :
  matchup_line W d g st
  = match pick_winner W (away_abbr g) (home_abbr g) d st with
    | (Ok r, st') => (Ok (format_prediction (fst r) (snd r)), st')
    | (Err e, st') => (Ok (error_line g e), st')
    end.
Proof.
  unfold matchup_line, try_except. rewrite run_bind.
  by destruct (pick_winner W (away_abbr g) (home_abbr g) d st) as [[r|e] st'].
Qed.

Lemma matchup_lines_cons g rest st :
  matchup_lines W d (g :: rest) st
  = match matchup_line W d g st with
    | (Ok line, st1) =>
        match matchup_lines W d rest st1 with
        | (Ok lines, st2) => (Ok (line :: lines), st2)
        | (Err e, st2) => (Err e, st2)
        end
    | (Err e, st1) => (Err e, st1)
    end.
Proof.
  cbn [matchup_lines]. rewrite run_bind.
  destruct (matchup_line W d g st) as [[line|e] st1]; [|done].
  rewrite run_bind.
  by destruct (matchup_lines W d rest st1) as [[lines|e] st2].
Qed.

Lemma matchup_lines_total games st :
  exists lines st',
    matchup_lines W d games st = (Ok lines, st')
    /\ length lines = length games.
Proof.
  revert st. induction games as [|g rest IH]; intros st.
  - by exists [], st.
  - rewrite matchup_lines_cons, matchup_line_run.
    destruct (pick_winner W (away_abbr g) (home_abbr g) d st)
      as [[r|e] st1];
      destruct (IH st1) as (lines & st2 & -> & Hlen);
      eexists _, _; (split; [reflexivity|]); simpl; by rewrite Hlen.
Qed.
End Report.

(** C7. The loop over the matchups of a scoreboard never raises and
    yields one block per matchup, in order: the block of a matchup is its
    formatted prediction when [pick_winner] returns for it, and its
    inline error line when [pick_winner] raises (an abbreviation that
    does not resolve, or any other failure); in both cases the loop goes
    on with the matchups that follow. *)
Theorem matchup_lines_isolated W d games st :
  exists lines st',
    matchup_lines W d games st = (Ok lines, st')
    /\ length lines = length games
    /\ forall i g,
        games !! i = Some g ->
        let before := snd (matchup_lines W d (take i games) st) in
        lines !! i
        = Some match pick_winner W (away_abbr g) (home_abbr g) d before with
               | (Ok r, _) => format_prediction (fst r) (snd r)
               | (Err e, _) => error_line g e
               end.
Proof.
  revert st. induction games as [|g rest IH]; intros st.
  - exists [], st. by repeat split.
  - rewrite matchup_lines_cons, matchup_line_run.
    destruct (pick_winner W (away_abbr g) (home_abbr g) d st)
      as [[r|e] st1] eqn:Hpick;
      destruct (IH st1) as (lines & st2 & Hrun & Hlen & Hidx);
      rewrite Hrun; eexists _, _;
      (split; [reflexivity|]); (split; [simpl; by rewrite Hlen|]);
      intros [|i] g' Hg'; simpl in Hg'.
    + injection Hg' as <-. cbn [take]. simpl. by rewrite Hpick.
    + cbn [take]. rewrite matchup_lines_cons, matchup_line_run, Hpick.
      specialize (Hidx i g' Hg').
      destruct (matchup_lines W d (take i rest) st1) as [[ls|e'] st3] eqn:Ht;
        simpl in *; exact Hidx.
    + injection Hg' as <-. cbn [take]. simpl. by rewrite Hpick.
    + cbn [take]. rewrite matchup_lines_cons, matchup_line_run, Hpick.
      specialize (Hidx i g' Hg').
      destruct (matchup_lines W d (take i rest) st1) as [[ls|e'] st3] eqn:Ht;
        simpl in *; exact Hidx.
Qed.

Lemma matchup_lines_isolated_witness :
  exists lines,
    fst (matchup_lines Demo.demo_world Demo.feb19
           [ {| away_abbr := "GSW"; home_abbr := "BOS" |};
             {| away_abbr := "SEA"; home_abbr := "NYK" |};
             {| away_abbr := "NYK"; home_abbr := "GSW" |} ]
           (initial_state 1000)) = Ok lines
    /\ length lines = 3%nat
    /\ lines !! 1%nat
       = Some ("SEA @ NYK  " +++ ARROW
               +++ "  (error: Unknown team abbreviation: SEA)")
    /\ lines !! 2%nat
       = Some ("NYK @ GSW  " +++ ARROW +++ "  " +++ TROPHY +++ " *GSW*"
               +++ [10%N] +++ "Last10: NYK 1-2 | GSW 1-2"
               +++ [10%N] +++ "Last5:  NYK 1-2 | GSW 1-2"
               +++ [10%N] +++ "Tie-break: home team").
Proof.
  destruct (matchup_lines_isolated Demo.demo_world Demo.feb19
              [ {| away_abbr := "GSW"; home_abbr := "BOS" |};
                {| away_abbr := "SEA"; home_abbr := "NYK" |};
                {| away_abbr := "NYK"; home_abbr := "GSW" |} ]
              (initial_state 1000))
    as (lines & st' & Hrun & Hlen & Hidx).
  exists lines. rewrite Hrun.
  split; [reflexivity|]. split; [exact Hlen|]. split.
  - rewrite (Hidx 1%nat _ eq_refl). vm_compute. reflexivity.
  - rewrite (Hidx 2%nat _ eq_refl). vm_compute. reflexivity.
Defined.

(** The blocks reach the report: what /preds sends for a scoreboard with
    games is the header and the blocks, joined by blank lines and cut
    into chunks. *)
Lemma send_text_taken update text st :
  takes_all update -> send_text (Some update) text st = (Ok tt, sent [text] st).
Proof.
  intros (reply_text & Hm & Hall). unfold send_text.
  destruct update as [m]. cbn [message] in Hm. subst m.
  by rewrite Hall.
Qed.

Lemma send_text_no_message update text st :
  message update = None -> send_text (Some update) text st = (Ok tt, st).
Proof. destruct update as [m]. cbn [message]. by intros ->. Qed.

Lemma sent_sent a b st : sent b (sent a st) = sent (a ++ b) st.
Proof. unfold sent. simpl. by rewrite <- app_assoc. Qed.

Lemma send_all_run update texts st :
  takes_all update -> send_all (Some update) texts st = (Ok tt, sent texts st).
Proof.
  intros Hup. revert st. induction texts as [|t rest IH]; intros st.
  - unfold sent. simpl. rewrite app_nil_r. by destruct st.
  - cbn [send_all]. rewrite run_bind, (send_text_taken _ _ _ Hup).
    by rewrite IH, sent_sent.
Qed.




Lemma preds_cmd_report W update arg d g games st st1 :
  takes_all update ->
  arg <> [] ->
  parse_date_arg (Some arg) = Ok (Some d) ->
  fetch_scoreboard_games_utc W d st = (Ok (g :: games), st1) ->
  exists lines st2,
    matchup_lines W d (g :: games) st1 = (Ok lines, st2)
    /\ fst (preds_cmd W update [arg] st) = Ok tt
    /\ outbox (snd (preds_cmd W update [arg] st))
       = outbox st2
         ++ chunks MAX (join [10%N; 10%N] (report_header d :: lines)).
Proof.
  intros Hup Harg Hparse Hfetch.
  destruct (matchup_lines_total W d (g :: games) st1)
    as (lines & st2 & Hlines & _).
  exists lines, st2. split; [exact Hlines|].
  destruct arg as [|c a]; [done|].
  assert (preds_cmd W update [c :: a] st
          = send_all (Some update)
              (chunks MAX (join [10%N; 10%N] (report_header d :: lines)))
              st2) as ->.
  { unfold preds_cmd. cbn [head].
    rewrite run_bind. unfold lift at 1. rewrite Hparse.
    rewrite run_bind. unfold try_except at 1.
    rewrite run_bind, Hfetch. cbn [mret M_ret].
    by rewrite run_bind, Hlines. }
  rewrite (send_all_run _ _ _ Hup). by split.
Qed.

(* --------------------------------------------------------------------- *)
(** *** The rolling-window ranking *)

Lemma result_bind_err {A B} (r : result A) (f : A -> result B) e :
  r ≫= f = Err e -> r = Err e \/ exists a, r = Ok a /\ f a = Err e.
Proof. destruct r as [a|e']; simpl; [eauto|]. intros [= ->]. by left. Qed.

Lemma fold_result_err {A B} (P : exn -> Prop) (f : A -> B -> result A) l :
  (forall a b e, f a b = Err e -> P e) ->
  forall a e, fold_result f a l = Err e -> P e.
Proof.
  intros Hf. induction l as [|b l IH]; intros a e; [discriminate|].
  cbn [fold_result]. intros [H|(a' & _ & H)]%result_bind_err; eauto.
Qed.

Lemma py_get_no_division x k d e : py_get x k d = Err e -> no_division e.
Proof. destruct x; simpl; intros [= <-]; discriminate. Qed.

Lemma py_add_no_division a v e : py_add a v = Err e -> no_division e.
Proof. destruct v; simpl; intros [= <-]; discriminate. Qed.

Lemma py_gt0_no_division v e : py_gt0 v = Err e -> no_division e.
Proof. destruct v; simpl; intros [= <-]; discriminate. Qed.

Lemma sum_field_no_division k last e :
  sum_field k last = Err e -> no_division e.
Proof.
  apply (fold_result_err no_division). intros a b e'.
  intros [H|(v & _ & H)]%result_bind_err.
  - by eapply py_get_no_division.
  - by eapply py_add_no_division.
Qed.

Lemma count_apps_no_division last e : count_apps last = Err e -> no_division e.
Proof.
  apply (fold_result_err no_division). intros a b e'.
  intros [H|(v & _ & [H|(c & _ & H)]%result_bind_err)]%result_bind_err.
  - by eapply py_get_no_division.
  - by eapply py_gt0_no_division.
  - discriminate H.
Qed.

Lemma sum_first_no_division keys last e :
  sum_first keys last = Err e -> no_division e.
Proof.
  apply (fold_result_err no_division). intros a b e'.
  destruct b; try (intros [= <-]; discriminate).
  apply py_add_no_division.
Qed.

Lemma slice_last_no_division hist n e :
  slice_last hist n = Err e -> no_division e.
Proof. destruct hist; simpl; intros [= <-]; discriminate. Qed.

Lemma py_iter_no_division x e : py_iter x = Err e -> no_division e.
Proof. destruct x; simpl; intros [= <-]; discriminate. Qed.

Lemma py_truediv_no_division F a b e :
  b <> 0 -> py_truediv F a b = Err e -> no_division e.
Proof.
  intros Hb. unfold py_truediv. rewrite (proj2 (Z.eqb_neq b 0) Hb).
  destruct (int_truediv F a b); intros [= <-]; discriminate.
Qed.

Lemma survivor_has_played min_apps min_total_min apps mins :
  1 <= min_apps ->
  excluded min_apps min_total_min apps mins = false ->
  1 <= apps.
Proof.
  unfold excluded. intros Hmin [H _]%orb_false_iff.
  apply Z.ltb_ge in H. lia.
Qed.

(** C6, as the code has it. For every threshold configuration with
    [min_apps >= 1], a player who survives the inclusion filter has at
    least one appearance, and neither division of the loop body divides
    by zero: no error of the loop body is a [ZeroDivisionError], and in
    every row that is produced the quotients are those of divisions by a
    number of appearances that is at least one. *)
Theorem player_rows_no_division_by_zero F last_n min_apps min_total_min
  in_defcon name team hist :
  1 <= min_apps ->
  (forall apps mins,
      excluded min_apps min_total_min apps mins = false -> 1 <= apps)
  /\ (forall e,
        player_rows F last_n min_apps min_total_min in_defcon name team hist
        = Err e ->
        exn_kind_of e <> ZeroDivisionError)
  /\ (forall r dr,
        player_rows F last_n min_apps min_total_min in_defcon name team hist
        = Ok (Some (r, dr)) ->
        let '(ppa, pts, apps, _, _, _) := r in
        1 <= apps
        /\ py_truediv F pts apps = Ok ppa
        /\ match dr with
           | Some (dc_pa, dc_sum, _, dc_apps, _, _) =>
               dc_apps = apps /\ py_truediv F dc_sum apps = Ok dc_pa
           | None => in_defcon = false
           end).
Proof.
  intros Hmin. split; [|split].
  { intros apps mins. by apply survivor_has_played. }
  - intros e. unfold player_rows.
    destruct (truthy hist); cbn [negb]; [|discriminate].
    intros [H|(last_j & _ & H)]%result_bind_err;
      [by eapply slice_last_no_division|].
    apply result_bind_err in H as [H|(last & _ & H)];
      [by eapply py_iter_no_division|].
    apply result_bind_err in H as [H|(pts & _ & H)];
      [by eapply sum_field_no_division|].
    apply result_bind_err in H as [H|(mins & _ & H)];
      [by eapply sum_field_no_division|].
    apply result_bind_err in H as [H|(apps & _ & H)];
      [by eapply count_apps_no_division|].
    destruct (excluded min_apps min_total_min apps mins) eqn:Hex;
      [discriminate H|].
    pose proof (survivor_has_played _ _ _ _ Hmin Hex) as Happs.
    apply result_bind_err in H as [H|(ppa & _ & H)];
      [eapply py_truediv_no_division; [|exact H]; lia|].
    destruct in_defcon; [|discriminate H].
    apply result_bind_err in H as [H|(dc_sum & _ & H)];
      [by eapply sum_first_no_division|].
    apply result_bind_err in H as [H|(dc_pts & _ & H)];
      [by eapply sum_first_no_division|].
    apply result_bind_err in H as [H|(dc_pa & _ & H)];
      [eapply py_truediv_no_division; [|exact H]; lia|].
    discriminate H.
  - intros r dr. unfold player_rows.
    destruct (negb (truthy hist)); [discriminate|].
    destruct (slice_last hist last_n) as [last_j|?];
      cbn [mbind result_bind]; [|discriminate].
    destruct (py_iter last_j) as [last|?];
      cbn [mbind result_bind]; [|discriminate].
    destruct (sum_field "total_points" last) as [pts|?];
      cbn [mbind result_bind]; [|discriminate].
    destruct (sum_field "minutes" last) as [mins|?];
      cbn [mbind result_bind]; [|discriminate].
    destruct (count_apps last) as [apps|?];
      cbn [mbind result_bind]; [|discriminate].
    destruct (excluded min_apps min_total_min apps mins) eqn:Hex;
      [discriminate|].
    pose proof (survivor_has_played _ _ _ _ Hmin Hex) as Happs.
    destruct (py_truediv F pts apps) as [ppa|?] eqn:Hppa;
      cbn [mbind result_bind]; [|discriminate].
    cbv zeta. destruct in_defcon.
    + destruct (sum_first [u "defensive_contribution"; u "defcon"] last)
        as [dc_sum|?]; cbn [mbind result_bind]; [|discriminate].
      destruct (sum_first _ last) as [dc_pts|?];
        cbn [mbind result_bind]; [|discriminate].
      destruct (py_truediv F dc_sum apps) as [dc_pa|?] eqn:Hdc;
        cbn [mbind result_bind]; [|discriminate].
      intros [= <- <-]. by rewrite Hppa, Hdc.
    + intros [= <- <-]. by rewrite Hppa.
Qed.

Lemma player_rows_no_division_by_zero_witness :
  let name : str := "Ollie Watkins" in
  let team := JStr "Aston Villa" in
  player_rows Q_float 5 2 0 true name team FplDemo.regular
  = Ok (Some ((26 # 4, 26, 4, 335, name, team),
              Some (0 # 4, 0, 0, 4, name, team)))
  /\ 1 <= 4
  /\ py_truediv Q_float 26 4 = Ok (26 # 4)
  /\ py_truediv Q_float 0 4 = Ok (0 # 4)
  /\ (forall apps mins, excluded 2 0 apps mins = false -> 1 <= apps)
  /\ (forall e,
        player_rows Q_float 5 2 0 true "Bench Warmer" (JStr "Aston Villa")
                    FplDemo.never_played = Err e ->
        exn_kind_of e <> ZeroDivisionError).
Proof.
  intros name team.
  assert (player_rows Q_float 5 2 0 true name team FplDemo.regular
          = Ok (Some ((26 # 4, 26, 4, 335, name, team),
                      Some (0 # 4, 0, 0, 4, name, team)))) as Hrun
    by (vm_compute; reflexivity).
  destruct (player_rows_no_division_by_zero Q_float 5 2 0 true name team
              FplDemo.regular ltac:(lia)) as (Hfilter & _ & Hrows).
  destruct (Hrows _ _ Hrun) as (Happs & Hppa & _ & Hdc).
  split; [exact Hrun|]. split; [exact Happs|]. split; [exact Hppa|].
  split; [exact Hdc|]. split; [exact Hfilter|].
  apply (player_rows_no_division_by_zero Q_float 5 2 0 true
           "Bench Warmer" (JStr "Aston Villa") FplDemo.never_played).
  lia.
Defined.

(** C6, as stated, fails: with the appearance filter switched off
    ([min_apps = 0], as [min_total_min = 0] switches the other one off) a
    player who never played survives the filter with no appearance, and
    the division raises [ZeroDivisionError], which ends the whole
    computation. *)
Lemma division_by_zero_counterexample :
  count_apps [FplDemo.gw 0 0; FplDemo.gw 0 0; FplDemo.gw 0 0] = Ok 0
  /\ excluded 0 0 0 0 = false
  /\ ~ (1 <= 0)
  /\ player_rows Q_float 5 0 0 true "Bench Warmer" (JStr "Aston Villa")
                 FplDemo.never_played
     = Err (Exn ZeroDivisionError "division by zero")
  /\ fst (compute_weekly_fpl Q_float FplDemo.demo_fpl 5 5 0 0 0%nat)
     = Err (Exn ZeroDivisionError "division by zero").
Proof.
  split; [reflexivity|]. split; [reflexivity|]. split; [lia|].
  split; vm_compute; reflexivity.
Qed.
(* --------------------------------------------------------------------- *)
(** *** Order and length of the ranking *)

Lemma key_ltb_asym F :
  float_order F ->
  forall a b, key_ltb F a b = true -> key_ltb F b a = false.
Proof.
  intros [Hsym Hasym] [[[a1 b1] c1] d1] [[[a2 b2] c2] d2].
  unfold key_ltb. rewrite (Hsym a2 a1).
  destruct (float_eqb F a1 a2); cbn [negb]; [|apply Hasym].
  rewrite (Z.eqb_sym b2 b1), (Z.eqb_sym c2 c1).
  destruct (Z.eqb_spec b1 b2); cbn [negb]; [|intros H; lia].
  destruct (Z.eqb_spec c1 c2); cbn [negb]; intros H; lia.
Qed.

Lemma Sorted_take {A} (R : A -> A -> Prop) n l :
  Sorted R l -> Sorted R (take n l).
Proof.
  intros H. revert n. induction H as [|x l Hs IH Hhd]; intros n.
  - rewrite take_nil. constructor.
  - destruct n as [|n]; [constructor|].
    cbn [take]. constructor; [apply IH|].
    destruct Hhd as [|y l Hxy]; [rewrite take_nil; constructor|].
    destruct n; constructor. exact Hxy.
Qed.

Lemma slice_to_length {A} top_n (l : list A) :
  0 <= top_n -> Z.of_nat (length (slice_to top_n l)) <= top_n.
Proof.
  intros H. unfold slice_to. rewrite (proj2 (Z.leb_le 0 top_n) H).
  rewrite length_take. lia.
Qed.

Lemma slice_to_sorted {A} (R : A -> A -> Prop) top_n l :
  Sorted R l -> Sorted R (slice_to top_n l).
Proof. intros H. unfold slice_to. destruct (0 <=? top_n); by apply Sorted_take. Qed.

Section Finalize.
Context (F : float_ops).

Lemma table_get_finalize top_n pos (t : table F) :
  table_get F pos (finalize F top_n t)
  = match assoc_get pos t with
    | Some l => slice_to top_n (sort_desc (key_ltb F) (sort_key F) l)
    | None => []
    end.
Proof.
  unfold table_get, finalize.
  induction t as [|[k l] t IH]; [done|].
  cbn [map assoc_get fst snd].
  destruct (decide (k = pos)); [done|exact IH].
Qed.

Lemma finalize_ranked top_n pos (t : table F) :
  float_order F -> 0 <= top_n ->
  Z.of_nat (length (table_get F pos (finalize F top_n t))) <= top_n
  /\ Sorted (not_below (key_ltb F) (sort_key F))
            (table_get F pos (finalize F top_n t)).
Proof.
  intros HF Htop. rewrite table_get_finalize.
  destruct (assoc_get pos t) as [l|].
  - split; [by apply slice_to_length|].
    apply slice_to_sorted, sort_desc_sorted, key_ltb_asym, HF.
  - split; [simpl; lia|constructor].
Qed.
End Finalize.

(* --------------------------------------------------------------------- *)
(** *** Reproducibility *)

Lemma run_bind_ok_inv {S A B} (m : M S A) (f : A -> M S B) st b st' :
  (m ≫= f) st = (Ok b, st') ->
  exists a st1, m st = (Ok a, st1) /\ f a st1 = (Ok b, st').
Proof.
  rewrite run_bind. destruct (m st) as [[a|e] st1]; [eauto|discriminate].
Qed.

Section Reproducible.
Context (F : float_ops) (P : fpl_world) (HP : steady P).

Lemma reproducible_ret {A} (a : A) : reproducible (mret a : M nat A).
Proof. by intros n n'. Qed.

Lemma reproducible_lift {A} (r : result A) : reproducible (lift r : M nat A).
Proof. by intros n n'. Qed.

Lemma reproducible_bind {A B} (m : M nat A) (f : A -> M nat B) :
  reproducible m -> (forall a, reproducible (f a)) ->
  reproducible (m ≫= f).
Proof.
  intros Hm Hf n n'. rewrite !run_bind. specialize (Hm n n').
  destruct (m n) as [[a|e] n1], (m n') as [[a'|e'] n1'];
    simpl in Hm; try discriminate Hm.
  - injection Hm as <-. apply Hf.
  - by injection Hm as <-.
Qed.

Lemma reproducible_try {A} (m : M nat A) h :
  reproducible m -> (forall e, reproducible (h e)) ->
  reproducible (try_except m h).
Proof.
  intros Hm Hh n n'. unfold try_except. specialize (Hm n n').
  destruct (m n) as [[a|e] n1], (m n') as [[a'|e'] n1'];
    simpl in Hm; try discriminate Hm.
  - by injection Hm as <-.
  - injection Hm as <-. apply Hh.
Qed.

Lemma fpl_get_reproducible url : reproducible (fpl_get P url).
Proof. intros n n'. unfold fpl_get. simpl. apply HP. Qed.

Lemma players_loop_reproducible last_n min_apps min_total_min teams
  elements acc :
  reproducible
    (players_loop F P last_n min_apps min_total_min teams elements acc).
Proof.
  revert acc. induction elements as [|p rest IH]; intros acc.
  { apply reproducible_ret. }
  cbn [players_loop].
  apply reproducible_bind; [apply reproducible_lift|intros et].
  apply reproducible_bind; [apply reproducible_lift|intros [pos|]];
    [|apply IH].
  apply reproducible_bind; [apply reproducible_lift|intros pid].
  apply reproducible_bind; [apply reproducible_lift|intros fn].
  apply reproducible_bind; [apply reproducible_lift|intros sn].
  apply reproducible_bind; [apply reproducible_lift|intros tk].
  apply reproducible_bind; [apply reproducible_lift|intros team].
  apply reproducible_bind.
  { apply reproducible_try; [|intros e; apply reproducible_ret].
    apply reproducible_bind; [apply fpl_get_reproducible|intros s].
    apply reproducible_bind; [apply reproducible_lift|intros hist].
    apply reproducible_ret. }
  intros [hist|]; [|apply IH].
  apply reproducible_bind; [apply reproducible_lift|intros rows].
  apply IH.
Qed.

Lemma compute_weekly_fpl_reproducible top_n last_n min_apps min_total_min :
  reproducible (compute_weekly_fpl F P top_n last_n min_apps min_total_min).
Proof.
  unfold compute_weekly_fpl.
  apply reproducible_bind; [apply fpl_get_reproducible|intros boot].
  apply reproducible_bind; [apply reproducible_lift|intros elements_j].
  apply reproducible_bind; [apply reproducible_lift|intros teams].
  apply reproducible_bind; [apply reproducible_lift|intros elements].
  apply reproducible_bind; [apply players_loop_reproducible|intros acc].
  apply reproducible_ret.
Qed.
End Reproducible.

(** C9. When [compute_weekly_fpl] returns, the list of each position
    category has at most [top_n] entries and is non-increasing in the
    key (points per appearance, total points, appearances, total
    minutes); and on a fixed input set every call returns this same
    output. [top_n] is a count ([0 <= top_n]). *)
Theorem compute_weekly_fpl_ranking F P top_n last_n min_apps min_total_min
  n top defcon n' :
  float_order F ->
  0 <= top_n ->
  compute_weekly_fpl F P top_n last_n min_apps min_total_min n
  = (Ok (top, defcon), n') ->
  (forall pos,
      Z.of_nat (length (table_get F pos top)) <= top_n
      /\ Sorted (not_below (key_ltb F) (sort_key F)) (table_get F pos top))
  /\ (steady P ->
      forall m,
        fst (compute_weekly_fpl F P top_n last_n min_apps min_total_min m)
        = Ok (top, defcon)).
Proof.
  intros HF Htop Hrun. split.
  - intros pos. unfold compute_weekly_fpl in Hrun.
    apply run_bind_ok_inv in Hrun as (boot & n1 & _ & Hrun).
    apply run_bind_ok_inv in Hrun as (elements_j & n2 & _ & Hrun).
    apply run_bind_ok_inv in Hrun as (teams & n3 & _ & Hrun).
    apply run_bind_ok_inv in Hrun as (elements & n4 & _ & Hrun).
    apply run_bind_ok_inv in Hrun as (acc & n5 & _ & Hrun).
    injection Hrun as <- <- _.
    by apply finalize_ranked.
  - intros HP m.
    rewrite (compute_weekly_fpl_reproducible F P HP _ _ _ _ m n).
    by rewrite Hrun.
Qed.

Lemma Q_float_order : float_order Q_float.
Proof.
  split; simpl.
  - intros a b. destruct (Qeq_bool a b) eqn:E.
    + symmetry. apply Qeq_bool_iff. symmetry. by apply Qeq_bool_iff.
    + symmetry. apply not_true_is_false. intros H.
      apply Qeq_bool_iff in H. symmetry in H. apply Qeq_bool_iff in H.
      congruence.
  - intros a b H. apply negb_true_iff in H. apply negb_false_iff.
    apply Qle_bool_iff. apply not_true_iff_false in H.
    apply Qlt_le_weak, Qnot_le_lt. intros Hba. apply H.
    by apply Qle_bool_iff.
Qed.

Lemma compute_weekly_fpl_ranking_witness :
  exists top defcon,
    fst (compute_weekly_fpl Q_float FplDemo.demo_fpl 2 5 2 0 7%nat)
    = Ok (top, defcon)
    /\ map (fun r => r.1.2) (table_get Q_float FWD top)
       = [u "Erling Haaland"; u "Ollie Watkins"]
    /\ Sorted (not_below (key_ltb Q_float) (sort_key Q_float))
              (table_get Q_float FWD top).
Proof.
  edestruct (compute_weekly_fpl_ranking Q_float FplDemo.demo_fpl 2 5 2 0
               0%nat) as [Hrank Hsame].
  - apply Q_float_order.
  - lia.
  - vm_compute. reflexivity.
  - eexists _, _. split; [|split].
    + apply Hsame. intros i j url. reflexivity.
    + vm_compute. reflexivity.
    + apply (Hrank FWD).
Defined.

(* --------------------------------------------------------------------- *)
(** *** The fetch layer: retries and backoff *)

Section Retries.
Context (W : world).

Lemma retry_from_cons attempt rest last_err req st :
  retry_from W (attempt :: rest) last_err req st
  = match provider W (http_calls st) req with
    | Ok doc => (Ok doc, after_requests 1 0 st)
    | Err e =>
        retry_from W rest (Some e) req
          (after_requests 1 (Z.min (2 ^ attempt) 10) st)
    end.
Proof.
  cbn [retry_from]. unfold try_except, http_get.
  destruct (provider W (http_calls st) req) as [doc|e].
  - unfold after_requests. by rewrite Z.add_0_r, Nat.add_1_r.
  - rewrite run_bind. cbn [sleep modify]. unfold after_requests. simpl.
    by rewrite Nat.add_1_r.
Qed.

Lemma after_requests_twice k1 s1 k2 s2 st :
  after_requests k2 s2 (after_requests k1 s1 st)
  = after_requests (k1 + k2) (s1 + s2) st.
Proof. unfold after_requests. simpl. f_equal; lia. Qed.

Lemma backoff_succ a k :
  fold_right Z.add 0
    (map (fun a => Z.min (2 ^ a) 10) (map Z.of_nat (seq a (S k))))
  = Z.min (2 ^ Z.of_nat a) 10
    + fold_right Z.add 0
        (map (fun a => Z.min (2 ^ a) 10) (map Z.of_nat (seq (S a) k))).
Proof. reflexivity. Qed.

(** After [k] failed attempts the loop goes on with the attempts that
    are left, [k] requests and the sleeps later. *)
Lemma retry_from_failures k : forall a len last_err req st,
  (1 <= k <= len)%nat ->
  (forall i, (i < k)%nat ->
     is_ok (provider W (http_calls st + i) req) = false) ->
  exists e,
    provider W (http_calls st + (k - 1)) req = Err e
    /\ retry_from W (map Z.of_nat (seq a len)) last_err req st
       = retry_from W (map Z.of_nat (seq (a + k) (len - k))) (Some e) req
           (after_requests k
              (fold_right Z.add 0
                 (map (fun a => Z.min (2 ^ a) 10) (map Z.of_nat (seq a k))))
              st).
Proof.
  induction k as [|k IH]; intros a len last_err req st Hk Hfail; [lia|].
  destruct len as [|len]; [lia|].
  cbn [seq map]. rewrite retry_from_cons.
  pose proof (Hfail 0%nat ltac:(lia)) as H0. rewrite Nat.add_0_r in H0.
  destruct (provider W (http_calls st) req) as [doc|e0] eqn:E0;
    [discriminate H0|].
  destruct k as [|k].
  - exists e0. split.
    + rewrite Nat.add_0_r. exact E0.
    + simpl. rewrite Nat.add_1_r, Z.add_0_r, Nat.sub_0_r. reflexivity.
  - destruct (IH (S a) len (Some e0) req
                (after_requests 1 (Z.min (2 ^ Z.of_nat a) 10) st))
      as (e & He & Hrun).
    + lia.
    + intros i Hi. cbn [after_requests http_calls].
      replace (http_calls st + 1 + i)%nat with (http_calls st + S i)%nat
        by lia.
      apply Hfail. lia.
    + exists e. split.
      * cbn [after_requests http_calls] in He.
        replace (http_calls st + (S (S k) - 1))%nat
          with (http_calls st + 1 + (S k - 1))%nat by lia.
        exact He.
      * rewrite Hrun, after_requests_twice.
        replace (S a + S k)%nat with (a + S (S k))%nat by lia.
        replace (len - S k)%nat with (S len - S (S k))%nat by lia.
        reflexivity.
Qed.
End Retries.

(** X1. If the provider fails the first [k] attempts ([k < 4]) and
    answers the next one, [get_json_with_retries] returns that answer
    after exactly [k + 1] requests and the backoff sleeps of the [k]
    failures; the caches and the outbox are untouched. *)
Theorem get_json_with_retries_first_success W url params st k doc :
  (k < 4)%nat ->
  (forall i, (i < k)%nat ->
     is_ok (provider W (http_calls st + i) (Request url params)) = false) ->
  provider W (http_calls st + k) (Request url params) = Ok doc ->
  get_json_with_retries W url params st
  = (Ok doc, after_requests (S k) (backoff k) st).
Proof.
  intros Hk Hfail Hok. unfold get_json_with_retries, MAX_RETRIES.
  change (Z.to_nat 4) with 4%nat.
  destruct k as [|k].
  - cbn [seq map]. rewrite retry_from_cons.
    rewrite Nat.add_0_r in Hok. rewrite Hok. reflexivity.
  - destruct (retry_from_failures W (S k) 1 4 None (Request url params) st)
      as (e & _ & ->); [lia|exact Hfail|].
    destruct (4 - S k)%nat as [|len] eqn:Hlen; [lia|].
    cbn [seq map]. rewrite retry_from_cons. cbn [after_requests http_calls].
    rewrite Hok, after_requests_twice.
    rewrite Z.add_0_r, Nat.add_1_r. reflexivity.
Qed.

Lemma get_json_with_retries_first_success_witness :
  get_json_with_retries Demo2.flaky_world ESPN_TEAMS_URL []
    (initial_state 1000)
  = (Ok Demo.teams_json, State None 0 ∅ 1006 3 []).
Proof.
  rewrite (get_json_with_retries_first_success Demo2.flaky_world
             ESPN_TEAMS_URL [] (initial_state 1000) 2 Demo.teams_json).
  - vm_compute. reflexivity.
  - lia.
  - intros [|[|i]] Hi; [reflexivity|reflexivity|lia].
  - vm_compute. reflexivity.
Defined.

(** X2. If the provider fails all four attempts, the error of the fourth
    is raised after four requests and 2 + 4 + 8 + 10 = 24 seconds of
    sleep: the loop sleeps after the last failure too. *)
Theorem get_json_with_retries_exhausted W url params st e :
  (forall i, (i < 3)%nat ->
     is_ok (provider W (http_calls st + i) (Request url params)) = false) ->
  provider W (http_calls st + 3) (Request url params) = Err e ->
  get_json_with_retries W url params st = (Err e, after_requests 4 24 st).
Proof.
  intros Hfail Hlast. unfold get_json_with_retries, MAX_RETRIES.
  change (Z.to_nat 4) with 4%nat.
  destruct (retry_from_failures W 4 1 4 None (Request url params) st)
    as (e' & He' & ->).
  - lia.
  - intros i Hi. destruct (Nat.eq_dec i 3%nat) as [->|Hne].
    + by rewrite Hlast.
    + apply Hfail. lia.
  - cbn [Nat.sub Nat.add] in He'. rewrite Hlast in He'.
    injection He' as <-. reflexivity.
Qed.

Lemma get_json_with_retries_exhausted_witness :
  get_json_with_retries Demo.dead_world ESPN_TEAMS_URL [] (initial_state 1000)
  = (Err Demo.timed_out, State None 0 ∅ 1024 4 []).
Proof.
  rewrite (get_json_with_retries_exhausted Demo.dead_world ESPN_TEAMS_URL []
             (initial_state 1000) Demo.timed_out).
  - vm_compute. reflexivity.
  - intros i Hi. reflexivity.
  - reflexivity.
Defined.

(** X3. Whatever the provider does, one call of [get_json_with_retries]
    issues between one and four requests, sleeps at most 24 seconds, and
    leaves the caches and the outbox as they were. *)
Theorem get_json_with_retries_bounded W url params st :
  let st' := snd (get_json_with_retries W url params st) in
  (http_calls st < http_calls st' <= http_calls st + 4)%nat
  /\ clock st <= clock st' <= clock st + 24
  /\ same_caches st st'
  /\ outbox st' = outbox st.
Proof.
  unfold get_json_with_retries, MAX_RETRIES.
  change (Z.to_nat 4) with 4%nat. cbn [seq map].
  rewrite retry_from_cons.
  destruct (provider W (http_calls st) _) as [d1|e1];
    [simpl; unfold same_caches; repeat split; lia|].
  rewrite retry_from_cons. cbn [after_requests http_calls].
  destruct (provider W (http_calls st + 1) _) as [d2|e2];
    [simpl; unfold same_caches; repeat split; lia|].
  rewrite retry_from_cons. cbn [after_requests http_calls].
  destruct (provider W (http_calls st + 1 + 1) _) as [d3|e3];
    [simpl; unfold same_caches; repeat split; lia|].
  rewrite retry_from_cons. cbn [after_requests http_calls].
  destruct (provider W (http_calls st + 1 + 1 + 1) _) as [d4|e4];
    simpl; unfold same_caches; repeat split; lia.
Qed.

(* --------------------------------------------------------------------- *)
(** *** The team directory within its time to live *)

#[global] Instance directory_kept_preorder : PreOrder directory_kept.
Proof.
  split.
  - intros st. split; [lia|]. intros m Hm _ _. by split.
  - intros a b c [Hab Kab] [Hbc Kbc]. split; [lia|].
    intros m Hm Hne Hfresh.
    destruct (Kab m Hm Hne ltac:(lia)) as [Hb Hts].
    rewrite <- Hts in Hfresh.
    destruct (Kbc m Hb Hne Hfresh) as [Hc Hts'].
    split; [exact Hc|congruence].
Qed.

(** A step that leaves the caches alone and does not set the clock back. *)
Lemma quiet_directory_kept st st' :
  same_caches st st' -> clock st <= clock st' -> directory_kept st st'.
Proof.
  intros (Hc & Hts & _) Hclock. split; [exact Hclock|].
  intros m Hm _ _. split; congruence.
Qed.

Ltac keeps_auto leaf :=
  repeat first
    [ apply keeps_ret; apply _
    | apply keeps_raise; apply _
    | apply keeps_lift; apply _
    | apply keeps_get_state; apply _
    | leaf
    | apply keeps_bind; [apply _| |intros ?]
    | apply keeps_try; [apply _| |intros ?]
    | match goal with
      | |- keeps _ (match ?x with _ => _ end) => destruct x
      end ].

Section DirectoryKept.
Context (W : world).

Lemma http_get_directory req : keeps directory_kept (http_get W req).
Proof. intros st. apply quiet_directory_kept; [done|simpl; lia]. Qed.

Lemma sleep_directory secs : 0 <= secs -> keeps directory_kept (sleep secs).
Proof. intros H st. apply quiet_directory_kept; [done|simpl; lia]. Qed.

Lemma send_text_directory update text :
  keeps directory_kept (send_text update text).
Proof.
  intros st. apply quiet_directory_kept; [apply send_text_caches|].
  unfold send_text. destruct update as [[[reply_text|]]|]; [|simpl; lia..].
  destruct (reply_text _ _); simpl; lia.
Qed.

Lemma backoff_step_nonneg a : 0 <= Z.min (2 ^ a) 10.
Proof. pose proof (Z.pow_nonneg 2 a). lia. Qed.

Lemma retry_from_directory attempts last_err req :
  keeps directory_kept (retry_from W attempts last_err req).
Proof.
  revert last_err. induction attempts as [|a rest IH]; intros last_err.
  - destruct last_err; apply keeps_raise; apply _.
  - cbn [retry_from].
    keeps_auto ltac:(first [ apply http_get_directory
                           | apply sleep_directory, backoff_step_nonneg
                           | apply IH ]).
Qed.

Lemma get_json_with_retries_directory url params :
  keeps directory_kept (get_json_with_retries W url params).
Proof. apply retry_from_directory. Qed.

Lemma scoreboard_from_directory urls params last_error :
  keeps directory_kept (scoreboard_from W urls params last_error).
Proof.
  revert last_error. induction urls as [|url rest IH]; intros last_error.
  - destruct last_error; apply keeps_raise; apply _.
  - cbn [scoreboard_from].
    keeps_auto ltac:(first [ apply get_json_with_retries_directory
                           | apply IH ]).
Qed.

Lemma send_all_directory update texts :
  keeps directory_kept (send_all update texts).
Proof.
  induction texts as [|t rest IH]; [apply keeps_ret; apply _|].
  cbn [send_all].
  keeps_auto ltac:(first [apply send_text_directory | apply IH]).
Qed.

Lemma load_team_map_directory : keeps directory_kept (load_team_map W).
Proof.
  intros st. pose proof (load_team_map_run W st) as Hrun.
  destruct (team_map_fresh st) as [m|] eqn:Hfresh;
    [rewrite Hrun; reflexivity|].
  pose proof (get_json_with_retries_directory ESPN_TEAMS_URL [] st) as Hk.
  destruct (get_json_with_retries W ESPN_TEAMS_URL [] st) as [[data|e] st1];
    [|by rewrite Hrun].
  destruct (parse_team_list data) as [m'|e]; rewrite Hrun; [|exact Hk].
  destruct Hk as [Hclock _]. simpl in Hclock.
  split; [simpl; exact Hclock|].
  intros m Hm Hne Hlive. exfalso. simpl in Hlive.
  unfold team_map_fresh in Hfresh. rewrite Hm in Hfresh.
  rewrite bool_decide_eq_false_2 in Hfresh by done.
  cbn [negb andb] in Hfresh.
  destruct (Z.ltb_spec (clock st - TEAM_MAP_CACHE_TS st)
              TEAM_MAP_TTL_SECONDS); [discriminate Hfresh|lia].
Qed.

Lemma fetch_team_recent_wins_directory team_id season_year cutoff_date :
  keeps directory_kept
    (fetch_team_recent_wins W team_id season_year cutoff_date).
Proof.
  intros st.
  pose proof (fetch_team_recent_wins_run W team_id season_year cutoff_date st)
    as Hrun.
  cbv zeta in Hrun.
  destruct (SCHEDULE_WINS_CACHE st !! _) as [v0|];
    [rewrite Hrun; reflexivity|].
  pose proof (get_json_with_retries_directory
                (ESPN_TEAM_SCHEDULE_URL team_id)
                [(u "season", str_of_Z season_year)] st) as Hk.
  destruct (get_json_with_retries W _ _ st) as [[data|e] st0];
    [|by rewrite Hrun].
  destruct (compute_win_flags W team_id cutoff_date data) as [v0|e];
    rewrite Hrun; exact Hk.
Qed.

Lemma record_last_n_directory team_id season_year cutoff_date n :
  keeps directory_kept (record_last_n W team_id season_year cutoff_date n).
Proof.
  unfold record_last_n.
  keeps_auto ltac:(apply fetch_team_recent_wins_directory).
Qed.

Lemma pick_winner_directory away home cutoff_date :
  keeps directory_kept (pick_winner W away home cutoff_date).
Proof.
  unfold pick_winner.
  keeps_auto ltac:(first [ apply load_team_map_directory
                         | apply record_last_n_directory ]).
Qed.

Lemma matchup_lines_directory d games :
  keeps directory_kept (matchup_lines W d games).
Proof.
  induction games as [|g rest IH]; [apply keeps_ret; apply _|].
  cbn [matchup_lines]. unfold matchup_line.
  keeps_auto ltac:(first [apply pick_winner_directory | apply IH]).
Qed.

Lemma preds_cmd_directory update args :
  keeps directory_kept (preds_cmd W update args).
Proof.
  unfold preds_cmd, get_tomorrow_utc, fetch_scoreboard_games_utc.
  keeps_auto ltac:(first [ apply send_text_directory
                         | apply scoreboard_from_directory
                         | apply matchup_lines_directory
                         | apply send_all_directory ]).
Qed.

Lemma run_call_directory c st :
  forward c -> directory_kept st (run_call W c st).
Proof.
  destruct c; simpl; intros Hc.
  - apply load_team_map_directory.
  - apply fetch_team_recent_wins_directory.
  - apply record_last_n_directory.
  - apply scoreboard_from_directory.
  - apply pick_winner_directory.
  - apply preds_cmd_directory.
  - by apply sleep_directory.
Qed.

Lemma run_calls_directory cs st :
  Forall forward cs -> directory_kept st (run_calls W cs st).
Proof.
  intros Hcs. revert st. induction Hcs as [|c cs Hc _ IH]; intros st;
    [reflexivity|].
  simpl. etrans; [by apply run_call_directory|apply IH].
Qed.

Lemma parse_team_list_nonempty data m :
  parse_team_list data = Ok m -> m <> ∅.
Proof.
  unfold parse_team_list. intros H.
  repeat match type of H with
         | (?r ≫= _) = Ok _ =>
             destruct r; cbn [mbind result_bind] in H; [|discriminate H]
         end.
  destruct (bool_decide (_ = ∅)) eqn:E; [discriminate H|].
  injection H as <-. by apply bool_decide_eq_false in E.
Qed.

(** What a lookup that returns leaves in the cache. *)
Lemma load_team_map_cached st m st1 :
  load_team_map W st = (Ok m, st1) ->
  TEAM_MAP_CACHE st1 = Some m /\ m <> ∅
  /\ (team_map_fresh st = None -> TEAM_MAP_CACHE_TS st1 = clock st).
Proof.
  intros H. pose proof (load_team_map_run W st) as Hrun.
  destruct (team_map_fresh st) as [m0|] eqn:Hfresh.
  - rewrite Hrun in H. injection H as <- <-.
    unfold team_map_fresh in Hfresh.
    destruct (TEAM_MAP_CACHE st) as [m1|]; [|discriminate Hfresh].
    destruct (bool_decide (m1 = ∅)) eqn:E; [discriminate Hfresh|].
    apply bool_decide_eq_false in E. cbn [negb andb] in Hfresh.
    destruct (_ <? _); [|discriminate Hfresh].
    injection Hfresh as <-. by repeat split.
  - destruct (get_json_with_retries W ESPN_TEAMS_URL [] st)
      as [[data|e] st0]; [|rewrite Hrun in H; discriminate H].
    destruct (parse_team_list data) as [m'|e] eqn:Hp;
      rewrite Hrun in H; [|discriminate H].
    injection H as <- <-. split; [reflexivity|].
    split; [by eapply parse_team_list_nonempty|reflexivity].
Qed.
End DirectoryKept.

(** X4. After a lookup of the team directory has returned a mapping,
    and whatever the process does next, every lookup made while less
    than six hours have passed since the time stamp of the cache returns
    that same mapping from the cache, without any request. *)
Theorem team_directory_stable_within_ttl W st m st1 later :
  load_team_map W st = (Ok m, st1) ->
  Forall forward later ->
  let st2 := run_calls W later st1 in
  clock st2 - TEAM_MAP_CACHE_TS st1 < TEAM_MAP_TTL_SECONDS ->
  load_team_map W st2 = (Ok m, st2).
Proof.
  intros Hload Hlater st2 Hlive.
  destruct (load_team_map_cached W st m st1 Hload) as (Hm & Hne & _).
  destruct (run_calls_directory W later st1 Hlater) as [_ Hkept].
  destruct (Hkept m Hm Hne Hlive) as [Hm2 Hts2]. fold st2 in Hm2, Hts2.
  pose proof (load_team_map_run W st2) as Hrun.
  unfold team_map_fresh in Hrun. rewrite Hm2, Hts2 in Hrun.
  rewrite bool_decide_eq_false_2 in Hrun by done.
  rewrite (proj2 (Z.ltb_lt _ _) Hlive) in Hrun. exact Hrun.
Qed.

Lemma team_directory_stable_within_ttl_witness :
  let st1 := snd (load_team_map Demo.demo_world (initial_state 1000)) in
  let st2 := run_calls Demo.demo_world
               [CTick 20000; CPreds Demo.listening [u "2026-02-19"]; CTick 1000] st1 in
  fst (load_team_map Demo.demo_world st2)
  = fst (load_team_map Demo.demo_world (initial_state 1000))
  /\ http_calls (snd (load_team_map Demo.demo_world st2)) = http_calls st2.
Proof.
  intros st1 st2. subst st2.
  rewrite (team_directory_stable_within_ttl Demo.demo_world
             (initial_state 1000)
             ({[ u "BOS" := Team 2 "Celtics"; u "GSW" := Team 9 "Warriors";
                 u "NYK" := Team 18 "Knicks" ]}) st1
             [CTick 20000; CPreds Demo.listening [u "2026-02-19"]; CTick 1000]).
  - split; [vm_compute; reflexivity|reflexivity].
  - vm_compute. reflexivity.
  - repeat constructor; simpl; lia.
  - vm_compute. reflexivity.
Defined.

(** X5. A lookup that finds the cache empty or expired and returns has
    put the returned mapping, never empty, in the cache, stamped with
    the time read before the download began: the time spent in retries
    counts against the six hours. *)
Theorem load_team_map_reload_stamp W st m st1 :
  team_map_fresh st = None ->
  load_team_map W st = (Ok m, st1) ->
  TEAM_MAP_CACHE st1 = Some m
  /\ m <> ∅
  /\ TEAM_MAP_CACHE_TS st1 = clock st
  /\ clock st <= clock st1.
Proof.
  intros Hstale Hload.
  destruct (load_team_map_cached W st m st1 Hload) as (Hm & Hne & Hts).
  split; [exact Hm|]. split; [exact Hne|]. split; [by apply Hts|].
  pose proof (load_team_map_directory W st) as [Hclock _].
  by rewrite Hload in Hclock.
Qed.

Lemma load_team_map_reload_stamp_witness :
  let st1 := snd (load_team_map Demo2.flaky_world (initial_state 1000)) in
  TEAM_MAP_CACHE_TS st1 = 1000 /\ clock st1 = 1006 /\ http_calls st1 = 3%nat.
Proof.
  intros st1.
  edestruct (load_team_map_reload_stamp Demo2.flaky_world (initial_state 1000))
    as (_ & _ & Hts & _).
  - reflexivity.
  - vm_compute. reflexivity.
  - split; [exact Hts|]. split; vm_compute; reflexivity.
Defined.

(* --------------------------------------------------------------------- *)
(** *** Abbreviations again *)

Lemma normalize_abbr_idem x : normalize_abbr (normalize_abbr x) = normalize_abbr x.
Proof.
  unfold normalize_abbr at 2 3.
  destruct (ABBR_FIX !! strip (upper x)) as [v|] eqn:E; simpl.
  - apply elem_of_list_to_map_2 in E.
    pose proof ABBR_FIX_values_fixed as HF.
    rewrite Forall_forall in HF. apply (HF _ E).
  - by apply normalize_abbr_fixed_stripped.
Qed.

Lemma normalize_abbr_any_fixed x s :
  normalize_abbr_any x = Ok s -> normalize_abbr s = s.
Proof.
  unfold normalize_abbr_any.
  destruct (truthy x).
  - destruct x; try discriminate. intros [= <-]. apply normalize_abbr_idem.
  - intros [= <-]. reflexivity.
Qed.

Lemma lstrip_app_space w s : forallb isspace w = true -> lstrip (w ++ s) = lstrip s.
Proof.
  induction w as [|c w IH]; [done|].
  simpl. intros [-> H]%andb_true_iff. auto.
Qed.

Lemma strip_surrounded w1 s w2 :
  forallb isspace w1 = true -> forallb isspace w2 = true ->
  strip (w1 ++ s ++ w2) = strip s.
Proof.
  intros H1 H2. unfold strip. rewrite (lstrip_app_space w1 _ H1).
  destruct (lstrip_suffix s) as (w & Hs & Hw).
  destruct (lstrip s) as [|c t] eqn:Et.
  - (* [s] is white space only *)
    rewrite app_nil_r in Hs. subst w.
    rewrite (lstrip_all_space (s ++ w2))
      by (rewrite forallb_app; by rewrite Hw, H2).
    reflexivity.
  - assert (lstrip (s ++ w2) = (c :: t) ++ w2) as ->.
    { rewrite Hs at 1. rewrite <- app_assoc.
      rewrite (lstrip_app_space w _ Hw).
      pose proof (lstrip_head s) as Hh. rewrite Et in Hh.
      simpl. by rewrite Hh. }
    unfold rstrip. rewrite rev_app_distr.
    rewrite lstrip_app_space by (by rewrite forallb_rev).
    reflexivity.
Qed.

(** X6. [normalize_abbr] does not see the case of letters nor white
    space around the abbreviation: such variants of one abbreviation are
    sent to the same key. *)
Theorem normalize_abbr_insensitive s w1 w2 :
  forallb isspace w1 = true -> forallb isspace w2 = true ->
  normalize_abbr (w1 ++ s ++ w2) = normalize_abbr s
  /\ normalize_abbr (upper s) = normalize_abbr s
  /\ normalize_abbr (w1 ++ upper s ++ w2) = normalize_abbr s.
Proof.
  intros H1 H2.
  assert (forall t, normalize_abbr (w1 ++ t ++ w2) = normalize_abbr t) as Hws.
  { intros t. unfold normalize_abbr.
    assert (strip (upper (w1 ++ t ++ w2)) = strip (upper t)) as ->; [|done].
    rewrite !upper_app, (upper_spaces w1 H1), (upper_spaces w2 H2).
    by apply strip_surrounded. }
  assert (normalize_abbr (upper s) = normalize_abbr s) as Hup.
  { unfold normalize_abbr. by rewrite upper_idem. }
  split; [apply Hws|]. split; [exact Hup|]. by rewrite Hws.
Qed.

Lemma normalize_abbr_insensitive_witness :
  normalize_abbr (u "  gs ") = u "GSW".
Proof.
  destruct (normalize_abbr_insensitive (u "gs") (u "  ") (u " "))
    as (H & _ & _); [reflexivity|reflexivity|].
  etrans; [exact H|]. reflexivity.
Defined.

(* --------------------------------------------------------------------- *)
(** *** What the directory holds *)

Lemma fold_result_invariant {A B} (P : A -> Prop) (f : A -> B -> result A) l :
  (forall a b a', f a b = Ok a' -> P a -> P a') ->
  forall a a', fold_result f a l = Ok a' -> P a -> P a'.
Proof.
  intros Hf. induction l as [|b l IH]; intros a a'.
  - by intros [= <-].
  - cbn [fold_result]. destruct (f a b) as [a1|e] eqn:E; [|discriminate].
    cbn [mbind result_bind]. intros H Ha. eapply IH; [exact H|].
    by eapply Hf.
Qed.

Ltac invert_binds H :=
  repeat match type of H with
         | (?r ≫= _) = Ok _ =>
             let E := fresh "E" in
             destruct r eqn:E; cbn [mbind result_bind] in H; [|discriminate H]
         end.

Lemma team_entry_normal_keys m item m' :
  team_entry m item = Ok m' -> normal_keys m -> normal_keys m'.
Proof.
  unfold team_entry. intros H Hm. invert_binds H.
  destruct (truthy _ && negb (bool_decide (_ = []))) eqn:Hcond.
  - invert_binds H. injection H as <-.
    apply andb_true_iff in Hcond as [_ Hne].
    apply negb_true_iff, bool_decide_eq_false in Hne.
    match goal with
    | Hn : normalize_abbr_any _ = Ok ?abbr |- _ =>
        intros k t; destruct (decide (abbr = k)) as [<-|Hk];
          [intros _; split; [exact Hne|by eapply normalize_abbr_any_fixed]|]
    end.
    rewrite lookup_insert_ne by done. apply Hm.
  - by injection H as <-.
Qed.

(** X7. The mapping read from the provider's team list is not empty,
    and each of its keys is a non-empty abbreviation already in normal
    form: entries without identifier or abbreviation are left out, and
    looking up a normalised abbreviation is looking up a key as it was
    stored. *)
Theorem parse_team_list_keys data m :
  parse_team_list data = Ok m ->
  m <> ∅
  /\ forall k t, m !! k = Some t -> k <> [] /\ normalize_abbr k = k.
Proof.
  intros H. split; [by eapply parse_team_list_nonempty|].
  unfold parse_team_list in H. invert_binds H.
  destruct (bool_decide (_ = ∅)); [discriminate H|]. injection H as <-.
  match goal with
  | Hf : fold_result team_entry ∅ _ = Ok _ |- _ =>
      apply (fold_result_invariant normal_keys team_entry _
               team_entry_normal_keys _ _ Hf)
  end.
  intros k t Hk. by rewrite lookup_empty in Hk.
Qed.

Lemma parse_team_list_keys_witness :
  let m : gmap str team :=
    {[ u "BOS" := Team 2 "Celtics"; u "GSW" := Team 9 "Warriors";
       u "NYK" := Team 18 "Knicks" ]} in
  m <> ∅ /\ forall k t, m !! k = Some t -> k <> [] /\ normalize_abbr k = k.
Proof.
  intros m.
  apply (parse_team_list_keys Demo.teams_json). vm_compute. reflexivity.
Defined.

(* --------------------------------------------------------------------- *)
(** *** Records and the breakdown *)

Lemma count_wins_bounds sample :
  0 <= count_wins sample <= Z.of_nat (length sample).
Proof.
  unfold count_wins. pose proof (length_filter (fun x => x = true) sample).
  lia.
Qed.

Lemma slice_to_length_min {A} n (l : list A) :
  0 <= n -> Z.of_nat (length (slice_to n l)) = Z.min n (Z.of_nat (length l)).
Proof.
  intros H. unfold slice_to. rewrite (proj2 (Z.leb_le 0 n) H).
  rewrite length_take. lia.
Qed.

Lemma record_of_sum win_flags n :
  0 <= n ->
  0 <= fst (record_of win_flags n)
  /\ 0 <= snd (record_of win_flags n)
  /\ fst (record_of win_flags n) + snd (record_of win_flags n)
     = Z.min n (Z.of_nat (length win_flags)).
Proof.
  intros Hn. unfold record_of. cbn [fst snd].
  pose proof (count_wins_bounds (slice_to n win_flags)).
  pose proof (slice_to_length_min n win_flags Hn). lia.
Qed.

Lemma record_last_n_inv W team_id season_year cutoff_date n st r st' :
  record_last_n W team_id season_year cutoff_date n st = (Ok r, st') ->
  exists win_flags,
    fetch_team_recent_wins W team_id season_year cutoff_date st
    = (Ok win_flags, st')
    /\ r = record_of win_flags n.
Proof.
  unfold record_last_n. intros H.
  apply run_bind_ok_inv in H as (v & st1 & Hf & Hr).
  injection Hr as <- <-. eauto.
Qed.

(** X8. The record over the last [n] games ([n >= 0]) counts the first
    [n] flags of the team's sequence, all of them when there are fewer:
    wins and losses are not negative and add up to the smaller of [n]
    and the number of games; the sequence it counted is in the cache
    afterwards. *)
Theorem record_last_n_counts W team_id season_year cutoff_date n st w l st' :
  0 <= n ->
  record_last_n W team_id season_year cutoff_date n st = (Ok (w, l), st') ->
  exists win_flags,
    SCHEDULE_WINS_CACHE st' !! cache_key team_id season_year cutoff_date
    = Some win_flags
    /\ w = count_wins (take (Z.to_nat n) win_flags)
    /\ 0 <= w /\ 0 <= l
    /\ w + l = Z.min n (Z.of_nat (length win_flags)).
Proof.
  intros Hn H.
  apply record_last_n_inv in H as (v & Hf & Hr).
  exists v. split; [by eapply fetch_team_recent_wins_stored|].
  pose proof (record_of_sum v n Hn) as (H1 & H2 & H3).
  rewrite <- Hr in H1, H2, H3. cbn [fst snd] in *.
  repeat split; try done.
  unfold record_of, slice_to in Hr. rewrite (proj2 (Z.leb_le 0 n) Hn) in Hr.
  by injection Hr as -> _.
Qed.

Lemma record_last_n_counts_witness :
  fst (record_last_n Demo.demo_world 2 2025 Demo.feb19 3 (initial_state 1000))
  = Ok (2, 1).
Proof.
  destruct (record_last_n Demo.demo_world 2 2025 Demo.feb19 3
              (initial_state 1000)) as [[[w l]|e] st'] eqn:E;
    [|vm_compute in E; discriminate E].
  destruct (record_last_n_counts Demo.demo_world 2 2025 Demo.feb19 3
              (initial_state 1000) w l st') as (v & _ & _ & _ & _ & _);
    [lia|exact E|].
  vm_compute in E. by injection E as <- <- _.
Defined.

(* --------------------------------------------------------------------- *)
(** *** What is spent and what is said *)

#[global] Instance silent_preorder : PreOrder silent.
Proof.
  split.
  - by intros st.
  - intros a b c Hab Hbc. unfold silent in *. congruence.
Qed.

Lemma spent_refl st : spent 0 0 0 st st.
Proof. unfold spent, same_caches. repeat split; lia. Qed.

Lemma spent_trans a b s a' b' s' st st1 st2 :
  spent a b s st st1 -> spent a' b' s' st1 st2 ->
  spent (a + a') (b + b') (s + s') st st2.
Proof.
  unfold spent, same_caches.
  intros (H1 & H2 & (H3 & H4 & H5) & H6) (K1 & K2 & (K3 & K4 & K5) & K6).
  repeat split; try lia; congruence.
Qed.

Lemma spent_weaken a b s a' b' s' st st' :
  (a' <= a)%nat -> (b <= b')%nat -> s <= s' ->
  spent a b s st st' -> spent a' b' s' st st'.
Proof.
  unfold spent. intros ? ? ? (H1 & H2 & H3 & H4).
  split; [lia|]. split; [lia|]. by split.
Qed.


Section Spent.
Context (W : world).

Lemma get_json_with_retries_spent url params st :
  spent 1 4 24 st (snd (get_json_with_retries W url params st)).
Proof.
  unfold get_json_with_retries, MAX_RETRIES.
  change (Z.to_nat 4) with 4%nat. cbn [seq map].
  rewrite retry_from_cons.
  destruct (provider W (http_calls st) _) as [d1|e1];
    [simpl; unfold spent, same_caches; simpl; repeat split; lia|].
  rewrite retry_from_cons. cbn [after_requests http_calls].
  destruct (provider W (http_calls st + 1) _) as [d2|e2];
    [simpl; unfold spent, same_caches; simpl; repeat split; lia|].
  rewrite retry_from_cons. cbn [after_requests http_calls].
  destruct (provider W (http_calls st + 1 + 1) _) as [d3|e3];
    [simpl; unfold spent, same_caches; simpl; repeat split; lia|].
  rewrite retry_from_cons. cbn [after_requests http_calls].
  destruct (provider W (http_calls st + 1 + 1 + 1) _) as [d4|e4];
    simpl; unfold spent, same_caches; simpl; repeat split; lia.
Qed.







Lemma record_last_n_bounds team_id season_year cutoff_date n st r st' :
  0 <= n ->
  record_last_n W team_id season_year cutoff_date n st = (Ok r, st') ->
  record_within n r.
Proof.
  intros Hn H. apply record_last_n_inv in H as (v & _ & ->).
  pose proof (record_of_sum v n Hn) as (H1 & H2 & H3).
  unfold record_within. lia.
Qed.
End Spent.

(** X9. What [pick_winner] returns is consistent: the breakdown names
    the two normalised abbreviations, the winner is one of them, both
    last-10 records are there and count at most 10 games, and the last-5
    records (at most 5 games each) are there exactly when the last-10
    wins are equal, the reason being then "last5" or "home_tiebreak" and
    otherwise "last10". *)
Theorem pick_winner_breakdown W a h cutoff_date st winner info st' :
  pick_winner W a h cutoff_date st = (Ok (winner, info), st') ->
  info_away info = normalize_abbr a
  /\ info_home info = normalize_abbr h
  /\ (winner = info_away info \/ winner = info_home info)
  /\ record_within 10 (away10 info)
  /\ record_within 10 (home10 info)
  /\ ((reason info = u "last10"
       /\ fst (away10 info) <> fst (home10 info)
       /\ away5 info = None /\ home5 info = None)
      \/ (exists a5 h5,
            away5 info = Some a5 /\ home5 info = Some h5
            /\ record_within 5 a5 /\ record_within 5 h5
            /\ fst (away10 info) = fst (home10 info)
            /\ ((reason info = u "last5" /\ fst a5 <> fst h5)
                \/ (reason info = u "home_tiebreak" /\ fst a5 = fst h5
                    /\ winner = info_home info)))).
Proof.
  unfold pick_winner. intros H.
  apply run_bind_ok_inv in H as (m & st1 & _ & H).
  destruct (m !! normalize_abbr a) as [ta|]; [|discriminate H].
  destruct (m !! normalize_abbr h) as [th|]; [|discriminate H].
  apply run_bind_ok_inv in H as (a10 & st2 & Ha10 & H).
  apply run_bind_ok_inv in H as (h10 & st3 & Hh10 & H).
  apply record_last_n_bounds in Ha10; [|lia].
  apply record_last_n_bounds in Hh10; [|lia].
  destruct (Z.eqb_spec (fst a10) (fst h10)) as [E10|N10]; cbn [negb] in H.
  - apply run_bind_ok_inv in H as (a5 & st4 & Ha5 & H).
    apply run_bind_ok_inv in H as (h5 & st5 & Hh5 & H).
    apply record_last_n_bounds in Ha5; [|lia].
    apply record_last_n_bounds in Hh5; [|lia].
    destruct (Z.eqb_spec (fst a5) (fst h5)) as [E5|N5]; cbn [negb] in H;
      injection H as <- <- <-; cbn [info_away info_home away10 home10 away5
                                      home5 reason];
      (split; [reflexivity|]); (split; [reflexivity|]).
    + split; [by right|]. split; [done|]. split; [done|].
      right. exists a5, h5. do 5 (split; [done|]). right. by repeat split.
    + split; [destruct (fst h5 <? fst a5); [by left|by right]|].
      split; [done|]. split; [done|].
      right. exists a5, h5. do 5 (split; [done|]). left. by split.
  - injection H as <- <- <-.
    cbn [info_away info_home away10 home10 away5 home5 reason].
    split; [reflexivity|]. split; [reflexivity|].
    split; [destruct (fst h10 <? fst a10); [by left|by right]|].
    split; [done|]. split; [done|]. left. by repeat split.
Qed.

Lemma pick_winner_breakdown_witness :
  exists winner info,
    fst (pick_winner Demo.demo_world "ny" "GS" Demo.feb19 (initial_state 1000))
    = Ok (winner, info)
    /\ info_away info = u "NYK" /\ info_home info = u "GSW"
    /\ record_within 10 (away10 info).
Proof.
  destruct (pick_winner Demo.demo_world "ny" "GS" Demo.feb19
              (initial_state 1000)) as [[[winner info]|e] st'] eqn:E;
    [|vm_compute in E; discriminate E].
  exists winner, info. split; [reflexivity|].
  destruct (pick_winner_breakdown Demo.demo_world "ny" "GS" Demo.feb19
              (initial_state 1000) winner info st' E)
    as (Ha & Hh & _ & Hr & _).
  split; [etrans; [exact Ha|vm_compute; reflexivity]|].
  split; [etrans; [exact Hh|vm_compute; reflexivity]|exact Hr].
Defined.

(** X10. When an abbreviation of a matchup is not in the directory,
    [pick_winner] raises [ValueError] naming the normalised abbreviation
    (the away side when both are unknown) right after the directory
    lookup: no schedule is requested; the line of the report shows the
    matchup with that message. *)
Theorem pick_winner_unknown_team W a h cutoff_date st team_map st1 :
  load_team_map W st = (Ok team_map, st1) ->
  let away := normalize_abbr a in
  let home := normalize_abbr h in
  let g := {| away_abbr := a; home_abbr := h |} in
  let line (x : str) : str :=
    away +++ " @ " +++ home +++ "  " +++ ARROW
    +++ "  (error: Unknown team abbreviation: " +++ x +++ ")" in
  (team_map !! away = None ->
     pick_winner W a h cutoff_date st = (Err (unknown_team away), st1)
     /\ matchup_line W cutoff_date g st = (Ok (line away), st1))
  /\ (is_Some (team_map !! away) -> team_map !! home = None ->
     pick_winner W a h cutoff_date st = (Err (unknown_team home), st1)
     /\ matchup_line W cutoff_date g st = (Ok (line home), st1)).
Proof.
  intros Hload away home g line.
  assert (forall x,
            pick_winner W a h cutoff_date st = (Err (unknown_team x), st1) ->
            matchup_line W cutoff_date g st = (Ok (line x), st1)) as Hline.
  { intros x Hp. rewrite matchup_line_run. cbn [g away_abbr home_abbr].
    rewrite Hp. reflexivity. }
  split.
  - intros Ha.
    assert (pick_winner W a h cutoff_date st = (Err (unknown_team away), st1))
      as Hp.
    { unfold pick_winner. rewrite (run_bind_ok _ _ _ _ _ Hload).
      fold away. by rewrite Ha. }
    split; [exact Hp|by apply Hline].
  - intros [ta Ha] Hh.
    assert (pick_winner W a h cutoff_date st = (Err (unknown_team home), st1))
      as Hp.
    { unfold pick_winner. rewrite (run_bind_ok _ _ _ _ _ Hload).
      fold away home. by rewrite Ha, Hh. }
    split; [exact Hp|by apply Hline].
Qed.

Lemma pick_winner_unknown_team_witness :
  fst (matchup_line Demo.demo_world Demo.feb19
         {| away_abbr := "sea"; home_abbr := "NY" |} (initial_state 1000))
  = Ok ("SEA @ NYK  " +++ ARROW
        +++ "  (error: Unknown team abbreviation: SEA)").
Proof.
  destruct (load_team_map Demo.demo_world (initial_state 1000))
    as [[m|e] st1] eqn:E; [|vm_compute in E; discriminate E].
  destruct (pick_winner_unknown_team Demo.demo_world "sea" "NY" Demo.feb19
              (initial_state 1000) m st1 E) as [Haway _].
  destruct Haway as [_ Hline].
  - vm_compute in E. injection E as <- _. vm_compute. reflexivity.
  - rewrite Hline. vm_compute. reflexivity.
Defined.

(** X11. What a call of [fetch_team_recent_wins] does to the schedule
    cache: when it returns, the cache is the one before with the returned
    sequence under the key of the call, every other key as it was; when
    it raises, the cache is unchanged and still has nothing under the
    key, so the next call asks the provider again. The team directory
    and the outbox are untouched in both cases. *)
Theorem fetch_team_recent_wins_effect W team_id season_year cutoff_date st :
  let key := cache_key team_id season_year cutoff_date in
  let run := fetch_team_recent_wins W team_id season_year cutoff_date st in
  match fst run with
  | Ok v =>
      SCHEDULE_WINS_CACHE (snd run) = <[key := v]> (SCHEDULE_WINS_CACHE st)
  | Err e =>
      SCHEDULE_WINS_CACHE (snd run) = SCHEDULE_WINS_CACHE st
      /\ SCHEDULE_WINS_CACHE st !! key = None
      /\ (http_calls st < http_calls (snd run))%nat
  end
  /\ TEAM_MAP_CACHE (snd run) = TEAM_MAP_CACHE st
  /\ TEAM_MAP_CACHE_TS (snd run) = TEAM_MAP_CACHE_TS st
  /\ outbox (snd run) = outbox st.
Proof.
  intros key run. subst run.
  pose proof (fetch_team_recent_wins_run W team_id season_year cutoff_date st)
    as Hrun.
  cbv zeta in Hrun. fold key in Hrun.
  destruct (SCHEDULE_WINS_CACHE st !! key) as [v0|] eqn:Hc.
  { rewrite Hrun. cbn [fst snd]. by rewrite insert_id. }
  pose proof (get_json_with_retries_spent W (ESPN_TEAM_SCHEDULE_URL team_id)
                [(u "season", str_of_Z season_year)] st)
    as (Hcalls & _ & (Hm & Hts & Hs) & Hout).
  destruct (get_json_with_retries W _ _ st) as [[data|e] st0];
    [|rewrite Hrun; cbn [fst snd] in *; repeat split; try done; lia].
  destruct (compute_win_flags W team_id cutoff_date data) as [v0|e];
    rewrite Hrun; cbn [fst snd] in *.
  - simpl. rewrite Hs. by repeat split.
  - repeat split; try done. lia.
Qed.


(* --------------------------------------------------------------------- *)
(** *** The scoreboard *)

Lemma scan_sides_normal competitors : forall home away home' away',
  scan_sides competitors home away = Ok (home', away') ->
  (forall s, home = Some s -> normalize_abbr s = s) ->
  (forall s, away = Some s -> normalize_abbr s = s) ->
  (forall s, home' = Some s -> normalize_abbr s = s)
  /\ (forall s, away' = Some s -> normalize_abbr s = s).
Proof.
  induction competitors as [|c rest IH]; intros home away home' away' H Hh Ha.
  - injection H as <- <-. by split.
  - cbn [scan_sides] in H. invert_binds H.
    match goal with
    | Hn : normalize_abbr_any _ = Ok ?abbr |- _ =>
        pose proof (normalize_abbr_any_fixed _ _ Hn) as Hfix
    end.
    destruct (eq_str _ _); [|destruct (eq_str _ _)].
    + eapply IH; [exact H| |exact Ha]. by intros s [= <-].
    + eapply IH; [exact H|exact Hh|]. by intros s [= <-].
    + eapply IH; [exact H|exact Hh|exact Ha].
Qed.

Lemma matchup_of_normal home away g :
  matchup_of home away = Some g ->
  (forall s, home = Some s -> normalize_abbr s = s) ->
  (forall s, away = Some s -> normalize_abbr s = s) ->
  normal_matchup g.
Proof.
  unfold matchup_of.
  destruct home as [[|hc hs]|]; try discriminate.
  destruct away as [[|ac as_]|]; try discriminate.
  intros [= <-] Hh Ha. unfold normal_matchup, normal_abbr. cbn [away_abbr home_abbr].
  repeat split; try discriminate; auto.
Qed.

Lemma scan_games_normal events : forall games,
  scan_games events = Ok games -> Forall normal_matchup games.
Proof.
  induction events as [|ev rest IH]; intros games H.
  - injection H as <-. constructor.
  - cbn [scan_games] in H.
    destruct (py_get ev "competitions" (JArr [])) as [comps|e];
      cbn [mbind result_bind] in H; [|discriminate H].
    destruct (negb (truthy comps)); [by apply IH|].
    invert_binds H.
    match goal with
    | Hs : scan_sides _ None None = Ok ?p |- _ =>
        destruct p as [home away];
        destruct (scan_sides_normal _ _ _ _ _ Hs) as [Hh Ha]; [done|done|]
    end.
    cbn [fst snd] in H.
    destruct (matchup_of home away) as [g|] eqn:Hg; injection H as <-.
    + constructor; [by eapply matchup_of_normal|by apply IH].
    + by apply IH.
Qed.

(** X12. Every matchup read from a scoreboard document has two non-empty
    abbreviations that are already in normal form: events without a home
    or an away side are left out, and the normalisations applied later
    (in [pick_winner] and in the error line) change nothing. *)
Theorem parse_scoreboard_normalized data games :
  parse_scoreboard data = Ok games ->
  forall g, In g games ->
    away_abbr g <> [] /\ home_abbr g <> []
    /\ normalize_abbr (away_abbr g) = away_abbr g
    /\ normalize_abbr (home_abbr g) = home_abbr g.
Proof.
  unfold parse_scoreboard. intros H. invert_binds H.
  apply scan_games_normal in H. rewrite Forall_forall in H.
  intros g Hg%list_elem_of_In.
  destruct (H g Hg) as [[? ?] [? ?]]. by repeat split.
Qed.

Lemma parse_scoreboard_normalized_witness :
  parse_scoreboard Demo.scoreboard_json
  = Ok [ {| away_abbr := "GSW"; home_abbr := "BOS" |};
         {| away_abbr := "SEA"; home_abbr := "NYK" |};
         {| away_abbr := "NYK"; home_abbr := "GSW" |} ]
  /\ normalize_abbr (u "GSW") = u "GSW".
Proof.
  assert (parse_scoreboard Demo.scoreboard_json
          = Ok [ {| away_abbr := "GSW"; home_abbr := "BOS" |};
                 {| away_abbr := "SEA"; home_abbr := "NYK" |};
                 {| away_abbr := "NYK"; home_abbr := "GSW" |} ]) as E
    by (vm_compute; reflexivity).
  split; [exact E|].
  destruct (parse_scoreboard_normalized _ _ E
              {| away_abbr := "GSW"; home_abbr := "BOS" |})
    as (_ & _ & Hfix & _); [by left|exact Hfix].
Defined.

Lemma scoreboard_attempt_spent W url params st :
  spent 1 4 24 st
    (snd ((data ← get_json_with_retries W url params;
           lift (parse_scoreboard data)) st)).
Proof.
  rewrite run_bind.
  pose proof (get_json_with_retries_spent W url params st) as H.
  by destruct (get_json_with_retries W url params st) as [[data|e] st1].
Qed.

(** X13. One call of [fetch_scoreboard_games_utc] issues between one and
    eight requests and sleeps at most 48 seconds; it touches neither the
    caches nor the outbox; and it raises only after both scoreboard
    addresses have been tried, a document that cannot be read counting
    as a failure of its address. *)
Theorem fetch_scoreboard_games_utc_bounded W game_date_utc st :
  let run := fetch_scoreboard_games_utc W game_date_utc st in
  (http_calls st < http_calls (snd run) <= http_calls st + 8)%nat
  /\ clock st <= clock (snd run) <= clock st + 48
  /\ same_caches st (snd run)
  /\ outbox (snd run) = outbox st
  /\ (is_ok (fst run) = false ->
      (http_calls st + 2 <= http_calls (snd run))%nat).
Proof.
  intros run. subst run.
  unfold fetch_scoreboard_games_utc, ESPN_SCOREBOARD_URLS.
  cbn [scoreboard_from]. unfold try_except.
  match goal with
  | |- context [ (get_json_with_retries W ?url ?params ≫= ?k) st ] =>
      pose proof (scoreboard_attempt_spent W url params st) as H1;
      destruct ((get_json_with_retries W url params ≫= k) st)
        as [[games|e1] st1]
  end.
  { cbn [fst snd] in *. destruct H1 as (Hc & Hk & Hs & Ho).
    split; [lia|]. split; [lia|]. split; [exact Hs|]. split; [exact Ho|].
    discriminate. }
  match goal with
  | |- context [ (get_json_with_retries W ?url ?params ≫= ?k) st1 ] =>
      pose proof (scoreboard_attempt_spent W url params st1) as H2;
      destruct ((get_json_with_retries W url params ≫= k) st1)
        as [[games|e2] st2]
  end.
  - cbn [fst snd] in *.
    destruct (spent_trans _ _ _ _ _ _ _ _ _ H1 H2) as (Hc & Hk & Hs & Ho).
    split; [lia|]. split; [lia|]. split; [exact Hs|]. split; [exact Ho|].
    discriminate.
  - cbn [fst snd raise] in *.
    destruct (spent_trans _ _ _ _ _ _ _ _ _ H1 H2) as (Hc & Hk & Hs & Ho).
    split; [lia|]. split; [lia|]. split; [exact Hs|]. split; [exact Ho|].
    intros _. lia.
Qed.

(* --------------------------------------------------------------------- *)
(** *** The replies of /preds *)




(** X14. A non-empty argument that does not match [dddd-dd-dd] gets
    the usage text and nothing else: the handler does what one
    [send_text] of that text does, so nothing is requested from the
    provider, no time passes and the caches stay; the text is in the
    outbox when the chat takes it, and nothing happens at all when the
    update carries no message. *)
Theorem preds_cmd_usage W update arg rest st :
  arg <> [] -> date_pattern arg = false ->
  let usage : str := "Use: /preds or /preds YYYY-MM-DD (UTC)" in
  let run := preds_cmd W update (arg :: rest) st in
  run = send_text (Some update) usage st
  /\ http_calls (snd run) = http_calls st
  /\ clock (snd run) = clock st
  /\ same_caches st (snd run)
  /\ (takes_all update -> run = (Ok tt, sent [usage] st))
  /\ (message update = None -> run = (Ok tt, st)).
Proof.
  intros Hne Hp usage run.
  assert (run = send_text (Some update) usage st) as Hrun.
  { subst run. destruct arg as [|c a]; [done|].
    unfold preds_cmd. cbn [head].
    rewrite run_bind. unfold lift at 1.
    unfold parse_date_arg. rewrite Hp. reflexivity. }
  rewrite Hrun. split; [reflexivity|].
  split; [|split; [|split; [apply send_text_caches|split]]].
  - unfold send_text. destruct update as [[reply_text|]]; [|done].
    by destruct (reply_text _ _).
  - unfold send_text. destruct update as [[reply_text|]]; [|done].
    by destruct (reply_text _ _).
  - apply send_text_taken.
  - apply send_text_no_message.
Qed.

Lemma preds_cmd_usage_witness :
  preds_cmd Demo.demo_world Demo.listening [u "2026-2-19"]
    (initial_state 1000)
  = (Ok tt,
     State None 0 ∅ 1000 0 [u "Use: /preds or /preds YYYY-MM-DD (UTC)"]).
Proof.
  destruct (preds_cmd_usage Demo.demo_world Demo.listening (u "2026-2-19") []
              (initial_state 1000)) as (_ & _ & _ & _ & Htaken & _).
  - discriminate.
  - vm_compute. reflexivity.
  - rewrite Htaken; [reflexivity|].
    eexists. split; [reflexivity|]. reflexivity.
Defined.




(* --------------------------------------------------------------------- *)
(** *** Dates as text *)

Lemma padded_ok_4 n : 0 <= n <= 9999 -> padded_ok 4 n = true.
Proof.
  intros H.
  assert (forallb (padded_ok 4) (map Z.of_nat (seq 0 (100 * 100))) = true)
    as Hall by (vm_compute; reflexivity).
  rewrite forallb_forall in Hall. apply Hall.
  apply in_map_iff. exists (Z.to_nat n). split; [lia|].
  apply in_seq. lia.
Qed.

Lemma padded_ok_2 n : 0 <= n <= 99 -> padded_ok 2 n = true.
Proof.
  intros H.
  assert (forallb (padded_ok 2) (map Z.of_nat (seq 0 100)) = true)
    as Hall by (vm_compute; reflexivity).
  rewrite forallb_forall in Hall. apply Hall.
  apply in_map_iff. exists (Z.to_nat n). split; [lia|].
  apply in_seq. lia.
Qed.

Lemma padded_4_shape n :
  0 <= n <= 9999 ->
  exists a b c e,
    zero_pad 4 n = [a; b; c; e]
    /\ forallb isdigit [a; b; c; e] = true
    /\ digits_value [a; b; c; e] = n.
Proof.
  intros H%padded_ok_4. unfold padded_ok in H.
  apply andb_true_iff in H as [[Hl Hd]%andb_true_iff Hv].
  apply Nat.eqb_eq in Hl. apply Z.eqb_eq in Hv.
  destruct (zero_pad 4 n) as [|a [|b [|c [|e [|? ?]]]]]; try discriminate Hl.
  by exists a, b, c, e.
Qed.

Lemma padded_2_shape n :
  0 <= n <= 99 ->
  exists a b,
    zero_pad 2 n = [a; b]
    /\ forallb isdigit [a; b] = true
    /\ digits_value [a; b] = n.
Proof.
  intros H%padded_ok_2. unfold padded_ok in H.
  apply andb_true_iff in H as [[Hl Hd]%andb_true_iff Hv].
  apply Nat.eqb_eq in Hl. apply Z.eqb_eq in Hv.
  destruct (zero_pad 2 n) as [|a [|b [|? ?]]]; try discriminate Hl.
  by exists a, b.
Qed.

Lemma days_in_month_le y m : days_in_month y m <= 31.
Proof.
  unfold days_in_month.
  destruct (m =? 2); [destruct (is_leap y); lia|].
  destruct (_ || _); lia.
Qed.

Lemma valid_date_ranges y m d :
  valid_date y m d = true -> 1 <= y <= 9999 /\ 1 <= m <= 12 /\ 1 <= d <= 31.
Proof.
  unfold valid_date. intros H.
  repeat (apply andb_true_iff in H as [H ?]).
  pose proof (days_in_month_le y m). lia.
Qed.

(** X16. The ISO text of a calendar date, which is how the report names
    the date, is read back by [parse_date_arg] as that same date: the
    date shown in a report can be given to /preds as it stands. *)
Theorem parse_date_arg_isoformat d :
  valid_date (year d) (month d) (day d) = true ->
  parse_date_arg (Some (date_isoformat d)) = Ok (Some d)
  /\ length (date_isoformat d) = 10%nat.
Proof.
  intros Hv. destruct d as [y m dd]. cbn [year month day] in Hv.
  destruct (valid_date_ranges _ _ _ Hv) as (Hy & Hm & Hd).
  destruct (padded_4_shape y) as (y1 & y2 & y3 & y4 & Ey & Dy & Vy); [lia|].
  destruct (padded_2_shape m) as (m1 & m2 & Em & Dm & Vm); [lia|].
  destruct (padded_2_shape dd) as (d1 & d2 & Ed & Dd & Vd); [lia|].
  unfold date_isoformat. cbn [year month day]. rewrite Ey, Em, Ed.
  change (u "-") with [45%N]. cbn [app].
  split; [|reflexivity].
  rewrite parse_date_arg_pattern.
  - cbn [take drop]. rewrite Vy, Vm, Vd.
    by rewrite (date_new_valid _ _ _ Hv).
  - cbn [forallb] in Dy, Dm, Dd. cbn [date_pattern].
    repeat match goal with
           | H : _ && _ = true |- _ => apply andb_true_iff in H as [? H]
           end.
    repeat match goal with
           | H : isdigit _ = true |- _ => rewrite H; clear H
           end.
    reflexivity.
Qed.

Lemma parse_date_arg_isoformat_witness :
  parse_date_arg (Some (date_isoformat (Date 2024 2 29)))
  = Ok (Some (Date 2024 2 29))
  /\ date_isoformat (Date 2024 2 29) = u "2024-02-29".
Proof.
  split; [|vm_compute; reflexivity].
  apply (parse_date_arg_isoformat (Date 2024 2 29)). reflexivity.
Defined.

Lemma year_four_digits y : 1000 <= y <= 9999 -> str_of_Z y = zero_pad 4 y.
Proof.
  intros Hy.
  assert (forallb (fun n => bool_decide (str_of_Z (Z.of_nat n)
                                         = zero_pad 4 (Z.of_nat n)))
                  (seq (Z.to_nat 1000) (Z.to_nat 9000)) = true) as Hall
    by (vm_compute; reflexivity).
  rewrite forallb_forall in Hall.
  specialize (Hall (Z.to_nat y)). rewrite Z2Nat.id in Hall by lia.
  eapply bool_decide_eq_true_1, Hall, in_seq. lia.
Qed.

(** X17. The key of the schedule cache tells calls apart: for calendar
    dates from the year 1000 on, two calls have the same key only if
    team, season year and cutoff date are all the same, so a sequence
    cached for one cutoff date is never returned for another. *)
Theorem cache_key_injective team1 season1 d1 team2 season2 d2 :
  valid_date (year d1) (month d1) (day d1) = true ->
  valid_date (year d2) (month d2) (day d2) = true ->
  1000 <= year d1 -> 1000 <= year d2 ->
  cache_key team1 season1 d1 = cache_key team2 season2 d2 ->
  team1 = team2 /\ season1 = season2 /\ d1 = d2.
Proof.
  intros Hv1 Hv2 Hy1 Hy2 Hk. unfold cache_key in Hk.
  injection Hk as -> -> Hs. split; [done|]. split; [done|].
  destruct d1 as [y m d], d2 as [y' m' d']. cbn [year month day] in *.
  destruct (valid_date_ranges _ _ _ Hv1) as (Hy & Hm & Hd).
  destruct (valid_date_ranges _ _ _ Hv2) as (Hy' & Hm' & Hd').
  unfold date_to_yyyymmdd in Hs. cbn [year month day] in Hs.
  rewrite (year_four_digits y), (year_four_digits y') in Hs by lia.
  destruct (padded_4_shape y) as (? & ? & ? & ? & Ey & _ & Vy); [lia|].
  destruct (padded_2_shape m) as (? & ? & Em & _ & Vm); [lia|].
  destruct (padded_2_shape d) as (? & ? & Ed & _ & Vd); [lia|].
  destruct (padded_4_shape y') as (? & ? & ? & ? & Ey' & _ & Vy'); [lia|].
  destruct (padded_2_shape m') as (? & ? & Em' & _ & Vm'); [lia|].
  destruct (padded_2_shape d') as (? & ? & Ed' & _ & Vd'); [lia|].
  rewrite Ey, Em, Ed, Ey', Em', Ed' in Hs. cbn [app] in Hs.
  injection Hs as -> -> -> -> -> -> -> ->.
  congruence.
Qed.

Lemma cache_key_injective_witness :
  date_to_yyyymmdd (Date 2026 2 19) = u "20260219"
  /\ cache_key 2 2025 (Date 2026 2 19) <> cache_key 2 2025 (Date 2026 2 20).
Proof.
  split; [vm_compute; reflexivity|]. intros H.
  destruct (cache_key_injective 2 2025 (Date 2026 2 19) 2 2025
              (Date 2026 2 20)) as (_ & _ & Hd);
    [reflexivity|reflexivity|simpl; lia|simpl; lia|exact H|].
  discriminate Hd.
Defined.

(* --------------------------------------------------------------------- *)
(** *** The rows of the ranking *)

(** X18. [get_first] returns the value of the first of the keys that the
    dict binds to something else than [None], and the default when there
    is none: with a default that is not [None] it never returns [None]
    (so the sums over it never meet one), a value of 0 is returned as it
    is, and looking through [k1 + k2] is looking through [k1] with the
    result for [k2] as its default. *)
Theorem get_first_spec d keys default :
  (default <> JNull -> get_first d keys default <> JNull)
  /\ (get_first d keys default = default
      \/ exists k, In k keys
                   /\ dict_get d k = Some (get_first d keys default))
  /\ (forall k1 k2,
        get_first d (k1 ++ k2) default
        = get_first d k1 (get_first d k2 default))
  /\ (forall k v rest,
        dict_get d k = Some v -> v <> JNull ->
        get_first d (k :: rest) default = v).
Proof.
  split; [|split; [|split]].
  - intros Hd. induction keys as [|k rest IH]; [done|].
    cbn [get_first]. destruct (dict_get d k) as [[]|]; done.
  - induction keys as [|k rest IH]; [by left|].
    cbn [get_first].
    destruct (dict_get d k) as [v|] eqn:E.
    + destruct v;
        try (right; exists k; split; [by left|exact E]).
      destruct IH as [IH|(k' & Hin & Hk')]; [by left|].
      right. exists k'. split; [by right|exact Hk'].
    + destruct IH as [IH|(k' & Hin & Hk')]; [by left|].
      right. exists k'. split; [by right|exact Hk'].
  - intros k1 k2. induction k1 as [|k rest IH]; [done|].
    cbn [app get_first]. destruct (dict_get d k) as [[]|]; done.
  - intros k v rest E Hv. cbn [get_first]. rewrite E. by destruct v.
Qed.

Lemma lift_ok_inv {S A} (r : result A) (st st' : S) a :
  lift r st = (Ok a, st') -> r = Ok a /\ st' = st.
Proof. unfold lift. by intros [= -> ->]. Qed.

Lemma count_apps_from last : forall a a',
  fold_result (fun acc x =>
                 v ← py_get x "minutes" (JInt 0);
                 b ← py_gt0 v;
                 Ok (if b : bool then acc + 1 else acc)) a last = Ok a' ->
  a <= a' <= a + Z.of_nat (length last).
Proof.
  induction last as [|x last IH]; intros a a' H.
  - injection H as <-. simpl. lia.
  - cbn [fold_result] in H.
    match type of H with
    | (?r ≫= _) = Ok _ =>
        destruct r as [a1|] eqn:E; cbn [mbind result_bind] in H;
          [|discriminate H]
    end.
    invert_binds E. injection E as <-. apply IH in H.
    match goal with
    | H : context [if ?b then _ else _] |- _ => destruct b
    end; cbn [length]; lia.
Qed.

Lemma count_apps_bounds last apps :
  count_apps last = Ok apps -> 0 <= apps <= Z.of_nat (length last).
Proof. intros H%count_apps_from. lia. Qed.

Lemma slice_last_length hist last_n last_j last :
  1 <= last_n ->
  slice_last hist last_n = Ok last_j -> py_iter last_j = Ok last ->
  Z.of_nat (length last) <= last_n.
Proof.
  intros Hn Hs Hi. unfold slice_last, slice_from in Hs.
  destruct (Z.leb_spec 0 (- last_n)); [lia|].
  destruct hist; try discriminate Hs; injection Hs as <-;
    cbn [py_iter] in Hi; injection Hi as <-;
    rewrite ?length_map, length_drop; lia.
Qed.

Lemma py_truediv_ok_nonzero F a b q : py_truediv F a b = Ok q -> b <> 0.
Proof.
  unfold py_truediv. destruct (Z.eqb_spec b 0); [discriminate|done].
Qed.

Section Rows.
Context (F : float_ops) (last_n min_apps min_total_min : Z).

(** What [player_rows] hands to the tables. *)
Lemma player_rows_ok in_defcon name team hist r dr :
  strip name = name ->
  player_rows F last_n min_apps min_total_min in_defcon name team hist
  = Ok (Some (r, dr)) ->
  top_row_ok F last_n min_apps min_total_min r
  /\ match dr with
     | Some x => in_defcon = true /\ defcon_row_ok F last_n min_apps x
     | None => in_defcon = false
     end.
Proof.
  intros Hname H. unfold player_rows in H.
  destruct (negb (truthy hist)); [discriminate H|].
  invert_binds H.
  match goal with
  | Hs : slice_last hist last_n = Ok ?lj, Hi : py_iter ?lj = Ok ?l,
    Hc : count_apps ?l = Ok ?apps |- _ =>
      pose proof (fun Hn => slice_last_length _ _ _ _ Hn Hs Hi) as Hlen;
      pose proof (count_apps_bounds _ _ Hc) as Happs
  end.
  destruct (excluded _ _ _ _) eqn:Hex; [discriminate H|].
  unfold excluded in Hex. apply orb_false_iff in Hex as [Ha Hm].
  apply Z.ltb_ge in Ha, Hm.
  invert_binds H.
  match goal with
  | Hq : py_truediv F _ ?apps = Ok _ |- _ =>
      pose proof (py_truediv_ok_nonzero _ _ _ _ Hq) as Hnz
  end.
  destruct in_defcon.
  - invert_binds H. injection H as <- <-.
    split; [|split; [reflexivity|]]; cbn;
      repeat split; first [done | lia].
  - injection H as <- <-.
    split; [|reflexivity]. cbn.
    repeat split; first [done | lia].
Qed.

Lemma table_append_all Q pos x (t : table F) :
  Q pos x -> table_all F Q t -> table_all F Q (table_append F pos x t).
Proof.
  intros Hx Ht. unfold table_all, table_append in *.
  rewrite Forall_fmap. eapply Forall_impl; [exact Ht|].
  intros [k l] Hl. unfold compose. cbn [fst snd] in *.
  destruct (decide (k = pos)) as [->|]; cbn [fst snd]; [|done].
  apply Forall_app. split; [done|]. by constructor.
Qed.

Lemma slice_to_all {A} (Q : A -> Prop) n l : Forall Q l -> Forall Q (slice_to n l).
Proof. intros H. unfold slice_to. destruct (0 <=? n); by apply Forall_take. Qed.

Lemma finalize_all Q top_n (t : table F) :
  table_all F Q t -> table_all F Q (finalize F top_n t).
Proof.
  intros Ht. unfold table_all, finalize in *.
  rewrite Forall_fmap. eapply Forall_impl; [exact Ht|].
  intros [k l] Hl. unfold compose. cbn [fst snd] in *.
  apply slice_to_all.
  by rewrite (sort_desc_perm (key_ltb F) (sort_key F) l).
Qed.

Lemma assoc_get_in {K V} `{EqDecision K} (k : K) (d : list (K * V)) v :
  assoc_get k d = Some v -> In (k, v) d.
Proof.
  induction d as [|[k' v'] d IH]; [discriminate|].
  cbn [assoc_get]. destruct (decide (k' = k)) as [->|].
  - intros [= ->]. by left.
  - intros H. right. by apply IH.
Qed.

Lemma table_get_all Q pos (t : table F) :
  table_all F Q t -> Forall (Q pos) (table_get F pos t).
Proof.
  intros Ht. unfold table_get.
  destruct (assoc_get pos t) as [l|] eqn:E; [|constructor].
  apply assoc_get_in in E. unfold table_all in Ht.
  rewrite Forall_forall in Ht.
  apply (Ht (pos, l)). by apply list_elem_of_In.
Qed.

Context (P : fpl_world).

Let top_inv : position -> row F -> Prop :=
  fun _ r => top_row_ok F last_n min_apps min_total_min r.
Let defcon_inv : position -> row F -> Prop :=
  fun pos r => pos <> GK /\ defcon_row_ok F last_n min_apps r.

Lemma add_rows_all pos rows name team hist (acc : table F * table F) :
  strip name = name ->
  player_rows F last_n min_apps min_total_min (has_key F pos (top_defcon0 F))
              name team hist = Ok rows ->
  table_all F top_inv (fst acc) -> table_all F defcon_inv (snd acc) ->
  table_all F top_inv (fst (add_rows F pos rows acc))
  /\ table_all F defcon_inv (snd (add_rows F pos rows acc)).
Proof.
  intros Hname Hrows Ht Hd.
  destruct rows as [[r dr]|]; [|by split].
  destruct (player_rows_ok _ _ _ _ _ _ Hname Hrows) as [Hr Hdr].
  destruct dr as [x|]; cbn [add_rows fst snd].
  - destruct Hdr as [Hk Hx]. split.
    + by apply table_append_all.
    + apply table_append_all; [|done]. split; [|done].
      intros ->. vm_compute in Hk. discriminate Hk.
  - split; [|done]. by apply table_append_all.
Qed.

Lemma players_loop_all teams elements : forall acc n acc' n',
  players_loop F P last_n min_apps min_total_min teams elements acc n
  = (Ok acc', n') ->
  table_all F top_inv (fst acc) -> table_all F defcon_inv (snd acc) ->
  table_all F top_inv (fst acc') /\ table_all F defcon_inv (snd acc').
Proof.
  induction elements as [|p rest IH]; intros acc n acc' n' H Ht Hd.
  { injection H as <- _. by split. }
  cbn [players_loop] in H.
  apply run_bind_ok_inv in H as (et & n1 & [_ ->]%lift_ok_inv & H).
  apply run_bind_ok_inv in H as (pos & n1 & [_ ->]%lift_ok_inv & H).
  destruct pos as [pos|]; [|by eapply IH].
  apply run_bind_ok_inv in H as (pid & n1 & [_ ->]%lift_ok_inv & H).
  apply run_bind_ok_inv in H as (fn & n1 & [_ ->]%lift_ok_inv & H).
  apply run_bind_ok_inv in H as (sn & n1 & [_ ->]%lift_ok_inv & H).
  apply run_bind_ok_inv in H as (tk & n1 & [_ ->]%lift_ok_inv & H).
  apply run_bind_ok_inv in H as (team & n1 & [_ ->]%lift_ok_inv & H).
  apply run_bind_ok_inv in H as (h & n1 & _ & H).
  destruct h as [hist|]; [|by eapply IH].
  apply run_bind_ok_inv in H as (rows & n2 & [Hrows ->]%lift_ok_inv & H).
  destruct (add_rows_all pos rows _ _ _ acc (strip_idem _) Hrows Ht Hd)
    as [Ht' Hd'].
  by eapply IH.
Qed.

Lemma initial_tables_all :
  table_all F top_inv (top_by_pos0 F) /\ table_all F defcon_inv (top_defcon0 F).
Proof. split; repeat constructor. Qed.
End Rows.

(** X19. Every row of the ranking that [compute_weekly_fpl] returns has
    passed the filters: at least one appearance and at least [min_apps],
    at least [min_total_min] minutes, at most [last_n] appearances (for
    [last_n >= 1]), the quotient being that of the row's total by its
    appearances, and the name without white space around it; and the
    defensive table has rows like these under DEF, MID and FWD only,
    none under GK. *)
Theorem compute_weekly_fpl_rows F P top_n last_n min_apps min_total_min
  n top defcon n' :
  compute_weekly_fpl F P top_n last_n min_apps min_total_min n
  = (Ok (top, defcon), n') ->
  (forall pos,
      Forall (top_row_ok F last_n min_apps min_total_min)
             (table_get F pos top))
  /\ (forall pos,
      Forall (defcon_row_ok F last_n min_apps) (table_get F pos defcon))
  /\ table_get F GK defcon = [].
Proof.
  intros Hrun. unfold compute_weekly_fpl in Hrun.
  apply run_bind_ok_inv in Hrun as (boot & n1 & _ & Hrun).
  apply run_bind_ok_inv in Hrun as (elements_j & n2 & _ & Hrun).
  apply run_bind_ok_inv in Hrun as (teams & n3 & _ & Hrun).
  apply run_bind_ok_inv in Hrun as (elements & n4 & _ & Hrun).
  apply run_bind_ok_inv in Hrun as (acc & n5 & Hloop & Hrun).
  injection Hrun as <- <- _.
  destruct (initial_tables_all F last_n min_apps min_total_min) as [Ht0 Hd0].
  destruct (players_loop_all F last_n min_apps min_total_min P teams elements
              _ _ _ _ Hloop Ht0 Hd0) as [Ht Hd].
  apply (finalize_all F _ top_n) in Ht, Hd.
  split; [|split].
  - intros pos. exact (table_get_all F _ pos _ Ht).
  - intros pos. pose proof (table_get_all F _ pos _ Hd) as H.
    eapply Forall_impl; [exact H|]. by intros r [_ Hr].
  - pose proof (table_get_all F _ GK _ Hd) as H.
    destruct (table_get F GK (finalize F top_n (snd acc))) as [|r l]; [done|].
    apply Forall_cons in H as [[Hgk _] _]. done.
Qed.

Lemma compute_weekly_fpl_rows_witness :
  exists top defcon,
    fst (compute_weekly_fpl Q_float FplDemo.demo_fpl 2 5 2 0 0%nat)
    = Ok (top, defcon)
    /\ map (fun r => (r.1.1.1.2, r.1.2)) (table_get Q_float FWD top)
       = [(4, u "Erling Haaland"); (4, u "Ollie Watkins")]
    /\ Forall (top_row_ok Q_float 5 2 0) (table_get Q_float FWD top).
Proof.
  destruct (compute_weekly_fpl Q_float FplDemo.demo_fpl 2 5 2 0 0%nat)
    as [[[top defcon]|e] n'] eqn:E; [|vm_compute in E; discriminate E].
  exists top, defcon. split; [reflexivity|].
  destruct (compute_weekly_fpl_rows Q_float FplDemo.demo_fpl 2 5 2 0 0%nat
              top defcon n' E) as (Htop & _ & _).
  split; [|apply Htop].
  vm_compute in E. injection E as <- _ _. vm_compute. reflexivity.
Defined.

(* --------------------------------------------------------------------- *)
(** *** Requests of the ranking *)

Section Requests.
Context (F : float_ops) (P : fpl_world).

Lemma summary_attempt_costs_one pid h n n1 :
  try_except
    (s ← fpl_element_summary P pid;
     hist ← lift (py_get s "history" (JArr []));
     mret (Some hist))
    (fun _ => mret None) n = (Ok h, n1) ->
  n1 = S n.
Proof.
  unfold try_except. rewrite run_bind.
  unfold fpl_element_summary, fpl_get.
  destruct (P n _) as [s|e]; [|by intros [= _ <-]].
  rewrite run_bind. unfold lift.
  destruct (py_get s "history" (JArr [])) as [hist|e]; by intros [= _ <-].
Qed.

Lemma players_loop_requests last_n min_apps min_total_min teams elements :
  forall acc n acc' n',
    players_loop F P last_n min_apps min_total_min teams elements acc n
    = (Ok acc', n') ->
    n' = (n + length (List.filter has_position elements))%nat.
Proof.
  induction elements as [|p rest IH]; intros acc n acc' n' H.
  { injection H as _ <-. simpl. lia. }
  cbn [players_loop] in H. cbn [List.filter]. unfold has_position at 1.
  apply run_bind_ok_inv in H as (et & n1 & [-> ->]%lift_ok_inv & H).
  apply run_bind_ok_inv in H as (pos & n1 & [Hpos ->]%lift_ok_inv & H).
  cbn [mbind result_bind]. rewrite Hpos.
  destruct pos as [pos|]; [|by eapply IH].
  apply run_bind_ok_inv in H as (pid & n1 & [_ ->]%lift_ok_inv & H).
  apply run_bind_ok_inv in H as (fn & n1 & [_ ->]%lift_ok_inv & H).
  apply run_bind_ok_inv in H as (sn & n1 & [_ ->]%lift_ok_inv & H).
  apply run_bind_ok_inv in H as (tk & n1 & [_ ->]%lift_ok_inv & H).
  apply run_bind_ok_inv in H as (team & n1 & [_ ->]%lift_ok_inv & H).
  apply run_bind_ok_inv in H as (h & n1 & ->%summary_attempt_costs_one & H).
  destruct h as [hist|].
  - apply run_bind_ok_inv in H as (rows & n2 & [_ ->]%lift_ok_inv & H).
    apply IH in H. cbn [length]. lia.
  - apply IH in H. cbn [length]. lia.
Qed.
End Requests.

(** X20. A run of [compute_weekly_fpl] that returns has issued one
    request for the bootstrap document and then exactly one summary
    request for each player whose [element_type] is one of the four
    positions, whether that request succeeded or not, and none for the
    other elements. *)
Theorem compute_weekly_fpl_requests F P top_n last_n min_apps min_total_min
  n r n' :
  compute_weekly_fpl F P top_n last_n min_apps min_total_min n = (Ok r, n') ->
  exists boot elements,
    P n BOOTSTRAP_URL = Ok boot
    /\ py_item boot "elements" ≫= py_iter = Ok elements
    /\ n' = (n + 1 + length (List.filter has_position elements))%nat.
Proof.
  intros Hrun. unfold compute_weekly_fpl in Hrun.
  apply run_bind_ok_inv in Hrun as (boot & n1 & Hboot & Hrun).
  unfold fpl_bootstrap, fpl_get in Hboot. injection Hboot as Hboot <-.
  apply run_bind_ok_inv in Hrun as (elements_j & n2 & [Hej ->]%lift_ok_inv & Hrun).
  apply run_bind_ok_inv in Hrun as (teams & n3 & [_ ->]%lift_ok_inv & Hrun).
  apply run_bind_ok_inv in Hrun as (elements & n4 & [Hel ->]%lift_ok_inv & Hrun).
  apply run_bind_ok_inv in Hrun as (acc & n5 & Hloop & Hrun).
  injection Hrun as _ <-.
  apply players_loop_requests in Hloop.
  exists boot, elements. split; [exact Hboot|].
  split; [by rewrite Hej|lia].
Qed.

Lemma compute_weekly_fpl_requests_witness :
  snd (compute_weekly_fpl Q_float FplDemo.demo_fpl 2 5 2 0 0%nat) = 6%nat.
Proof.
  destruct (compute_weekly_fpl Q_float FplDemo.demo_fpl 2 5 2 0 0%nat)
    as [[r|e] n'] eqn:E; [|vm_compute in E; discriminate E].
  destruct (compute_weekly_fpl_requests Q_float FplDemo.demo_fpl 2 5 2 0
              0%nat r n' E) as (boot & elements & Hboot & Hel & ->).
  vm_compute in Hboot. injection Hboot as <-.
  vm_compute in Hel. injection Hel as <-.
  reflexivity.
Defined.

(** X21. A player whose summary request fails is left out and the loop
    goes on: with a provider whose answers do not change, the outcome
    for a list of players that begins with such a player is the outcome
    for the rest of the list. *)
Theorem players_loop_skips_failed_fetch F P last_n min_apps min_total_min
  teams p rest acc n pos pid team e :
  steady P ->
  py_get p "element_type" JNull ≫= pos_map_get = Ok (Some pos) ->
  py_item p "id" = Ok pid ->
  py_get p "team" JNull ≫= teams_get teams = Ok team ->
  P n (FPL_BASE +++ "/element-summary/" +++ py_str pid +++ "/") = Err e ->
  fst (players_loop F P last_n min_apps min_total_min teams (p :: rest) acc n)
  = fst (players_loop F P last_n min_apps min_total_min teams rest acc n).
Proof.
  intros HP Hpos Hid Hteam Hfail.
  destruct p as [| | | | |kv]; try discriminate Hid.
  cbn [players_loop].
  destruct (py_get (JObj kv) "element_type" JNull) as [et|] eqn:Het;
    [|discriminate Hpos].
  cbn [mbind result_bind] in Hpos.
  destruct (py_get (JObj kv) "team" JNull) as [tk|] eqn:Htk;
    [|discriminate Hteam].
  cbn [mbind result_bind] in Hteam.
  rewrite run_bind. unfold lift at 1. rewrite run_bind. unfold lift at 1.
  rewrite Hpos.
  rewrite run_bind. unfold lift at 1. rewrite Hid.
  rewrite run_bind. unfold lift at 1. rewrite py_get_object.
  rewrite run_bind. unfold lift at 1. rewrite py_get_object.
  rewrite run_bind. unfold lift at 1.
  rewrite run_bind. unfold lift at 1. rewrite Hteam.
  rewrite run_bind. unfold try_except. rewrite run_bind.
  unfold fpl_element_summary at 1, fpl_get at 1. rewrite Hfail.
  cbn [mret M_ret].
  apply (players_loop_reproducible F P HP).
Qed.

Lemma players_loop_skips_failed_fetch_witness :
  fst (players_loop Q_float FplDemo.demo_fpl 5 2 0
         [(KNum 1, JStr "Man City")]
         [FplDemo.player 3 3 "Phil" "Foden" 1;
          FplDemo.player 2 4 "Erling" "Haaland" 1]
         (top_by_pos0 Q_float, top_defcon0 Q_float) 0%nat)
  = fst (players_loop Q_float FplDemo.demo_fpl 5 2 0
           [(KNum 1, JStr "Man City")]
           [FplDemo.player 2 4 "Erling" "Haaland" 1]
           (top_by_pos0 Q_float, top_defcon0 Q_float) 0%nat).
Proof.
  apply (players_loop_skips_failed_fetch Q_float FplDemo.demo_fpl 5 2 0
           [(KNum 1, JStr "Man City")]
           (FplDemo.player 3 3 "Phil" "Foden" 1)
           [FplDemo.player 2 4 "Erling" "Haaland" 1]
           (top_by_pos0 Q_float, top_defcon0 Q_float) 0%nat MID (JInt 3)
           (JStr "Man City") (Exn RequestError "503 Server Error")).
  - intros i j url. reflexivity.
  - vm_compute. reflexivity.
  - vm_compute. reflexivity.
  - vm_compute. reflexivity.
  - vm_compute. reflexivity.
Defined.

(* --------------------------------------------------------------------- *)
(** *** The cost of a prediction, and asking again *)

#[global] Instance directory_same_preorder : PreOrder directory_same.
Proof.
  split.
  - by intros st.
  - intros a b c [H1 H2] [H3 H4]. unfold directory_same. split; congruence.
Qed.

Lemma cost_refl st : cost 0 0 st st.
Proof. unfold cost. repeat split; lia. Qed.

Lemma cost_trans k s k' s' st st1 st2 :
  cost k s st st1 -> cost k' s' st1 st2 -> cost (k + k') (s + s') st st2.
Proof.
  unfold cost. intros (H1 & H2 & H3) (K1 & K2 & K3).
  split; [lia|]. split; [lia|]. congruence.
Qed.

Lemma cost_weaken k s k' s' st st' :
  (k <= k')%nat -> s <= s' -> cost k s st st' -> cost k' s' st st'.
Proof.
  unfold cost. intros ? ? (H1 & H2 & H3). split; [lia|]. split; [lia|done].
Qed.

Lemma spent_cost a b s st st' : spent a b s st st' -> cost b s st st'.
Proof. intros (H1 & H2 & _ & H3). split; [lia|]. by split. Qed.

Section PredictionCost.
Context (W : world).

Lemma load_team_map_cost st : cost 4 24 st (snd (load_team_map W st)).
Proof.
  pose proof (load_team_map_run W st) as Hrun.
  destruct (team_map_fresh st) as [m|];
    [rewrite Hrun; eapply cost_weaken, cost_refl; lia|].
  pose proof (get_json_with_retries_spent W ESPN_TEAMS_URL [] st) as Hs.
  apply spent_cost in Hs.
  destruct (get_json_with_retries W ESPN_TEAMS_URL [] st) as [[data|e] st1];
    [|by rewrite Hrun].
  destruct (parse_team_list data) as [m'|e]; rewrite Hrun; exact Hs.
Qed.

Lemma fetch_team_recent_wins_cost team_id season_year cutoff_date st :
  cost 4 24 st
    (snd (fetch_team_recent_wins W team_id season_year cutoff_date st)).
Proof.
  pose proof (fetch_team_recent_wins_run W team_id season_year cutoff_date st)
    as Hrun.
  cbv zeta in Hrun.
  destruct (SCHEDULE_WINS_CACHE st !! _) as [v0|];
    [rewrite Hrun; eapply cost_weaken, cost_refl; lia|].
  pose proof (get_json_with_retries_spent W (ESPN_TEAM_SCHEDULE_URL team_id)
                [(u "season", str_of_Z season_year)] st) as Hs.
  apply spent_cost in Hs.
  destruct (get_json_with_retries W _ _ st) as [[data|e] st0];
    [|by rewrite Hrun].
  destruct (compute_win_flags W team_id cutoff_date data) as [v0|e];
    rewrite Hrun; exact Hs.
Qed.

Lemma record_last_n_cost team_id season_year cutoff_date n st :
  cost 4 24 st (snd (record_last_n W team_id season_year cutoff_date n st)).
Proof.
  unfold record_last_n. rewrite run_bind.
  pose proof (fetch_team_recent_wins_cost team_id season_year cutoff_date st)
    as H.
  by destruct (fetch_team_recent_wins W team_id season_year cutoff_date st)
    as [[v|e] st1].
Qed.

Lemma fetch_team_recent_wins_directory_same team_id season_year cutoff_date :
  keeps directory_same
    (fetch_team_recent_wins W team_id season_year cutoff_date).
Proof.
  intros st.
  pose proof (fetch_team_recent_wins_run W team_id season_year cutoff_date st)
    as Hrun.
  cbv zeta in Hrun.
  destruct (SCHEDULE_WINS_CACHE st !! _) as [v0|];
    [rewrite Hrun; reflexivity|].
  pose proof (get_json_with_retries_caches W (ESPN_TEAM_SCHEDULE_URL team_id)
                [(u "season", str_of_Z season_year)] st) as (Hm & Hts & _).
  destruct (get_json_with_retries W _ _ st) as [[data|e] st0];
    [|by rewrite Hrun].
  destruct (compute_win_flags W team_id cutoff_date data) as [v0|e];
    rewrite Hrun; by split.
Qed.

Lemma record_last_n_directory_same team_id season_year cutoff_date n :
  keeps directory_same (record_last_n W team_id season_year cutoff_date n).
Proof.
  unfold record_last_n.
  keeps_auto ltac:(apply fetch_team_recent_wins_directory_same).
Qed.

(** A record that was returned is answered from the cache from then on,
    for every number of games, without a change of state. *)
Lemma record_last_n_cached team_id season_year cutoff_date n st r st1 :
  record_last_n W team_id season_year cutoff_date n st = (Ok r, st1) ->
  exists v,
    r = record_of v n
    /\ forall st2 n',
        schedule_kept st1 st2 ->
        record_last_n W team_id season_year cutoff_date n' st2
        = (Ok (record_of v n'), st2).
Proof.
  intros H. apply record_last_n_inv in H as (v & Hf & ->).
  exists v. split; [reflexivity|]. intros st2 n' Hk.
  apply record_last_n_run, fetch_team_recent_wins_hit.
  eapply lookup_weaken; [|exact Hk].
  by eapply fetch_team_recent_wins_stored.
Qed.
End PredictionCost.

(** X22. A prediction that was returned is returned again, from the
    caches alone, when it is asked again while the team directory is
    within its time to live: same winner, same breakdown, and the state
    is left as it is, so no request is issued. *)
Theorem pick_winner_repeat W a h cutoff_date st r st1 :
  pick_winner W a h cutoff_date st = (Ok r, st1) ->
  clock st1 - TEAM_MAP_CACHE_TS st1 < TEAM_MAP_TTL_SECONDS ->
  pick_winner W a h cutoff_date st1 = (Ok r, st1).
Proof.
  intros H Hlive. unfold pick_winner in H.
  apply run_bind_ok_inv in H as (m & s1 & Hload & H).
  destruct (m !! normalize_abbr a) as [ta|] eqn:Ha; [|discriminate H].
  destruct (m !! normalize_abbr h) as [th|] eqn:Hh; [|discriminate H].
  apply run_bind_ok_inv in H as (a10 & s2 & Ha10 & H).
  apply run_bind_ok_inv in H as (h10 & s3 & Hh10 & H).
  pose proof (record_last_n_kept W (team_id th)
                (espn_season_year_for_date cutoff_date) cutoff_date 10 s2)
    as Hk23.
  rewrite Hh10 in Hk23. cbn [snd] in Hk23.
  pose proof (record_last_n_directory_same W (team_id ta)
                (espn_season_year_for_date cutoff_date) cutoff_date 10 s1)
    as [Hm12 Hts12].
  rewrite Ha10 in Hm12, Hts12. cbn [snd] in Hm12, Hts12.
  pose proof (record_last_n_directory_same W (team_id th)
                (espn_season_year_for_date cutoff_date) cutoff_date 10 s2)
    as [Hm23 Hts23].
  rewrite Hh10 in Hm23, Hts23. cbn [snd] in Hm23, Hts23.
  destruct (record_last_n_cached W _ _ _ _ _ _ _ Ha10) as (va & Eva & Haa).
  destruct (record_last_n_cached W _ _ _ _ _ _ _ Hh10) as (vh & Evh & Hhh).
  (* the state at the end of the first call is [s3] *)
  assert (st1 = s3) as ->.
  { destruct (negb (fst a10 =? fst h10)); cbv iota in H.
    - by injection H as _ <-.
    - rewrite (run_bind_ok _ _ _ _ _ (Haa s3 5 Hk23)) in H.
      rewrite (run_bind_ok _ _ _ _ _ (Hhh s3 5 ltac:(reflexivity))) in H.
      destruct (negb _); cbv iota in H; by injection H as _ <-. }
  (* the directory is answered from the cache *)
  destruct (load_team_map_cached W st m s1 Hload) as (Hm1 & Hne & _).
  assert (load_team_map W s3 = (Ok m, s3)) as Hload3.
  { pose proof (load_team_map_run W s3) as Hrun.
    unfold team_map_fresh in Hrun.
    rewrite Hm23, Hm12, Hm1 in Hrun.
    rewrite bool_decide_eq_false_2 in Hrun by done.
    rewrite (proj2 (Z.ltb_lt _ _) Hlive) in Hrun. exact Hrun. }
  unfold pick_winner.
  rewrite (run_bind_ok _ _ _ _ _ Hload3), Ha, Hh.
  rewrite (run_bind_ok _ _ _ _ _ (Haa s3 10 Hk23)), <- Eva.
  rewrite (run_bind_ok _ _ _ _ _ (Hhh s3 10 ltac:(reflexivity))), <- Evh.
  destruct (negb (fst a10 =? fst h10)); cbv iota in H |- *.
  - by injection H as <-.
  - rewrite (run_bind_ok _ _ _ _ _ (Haa s3 5 Hk23)) in H |- *.
    rewrite (run_bind_ok _ _ _ _ _ (Hhh s3 5 ltac:(reflexivity))) in H |- *.
    destruct (negb _); cbv iota in H |- *; by injection H as <-.
Qed.

Lemma pick_winner_repeat_witness :
  let st1 := snd (pick_winner Demo.demo_world "ny" "GS" Demo.feb19
                    (initial_state 1000)) in
  fst (pick_winner Demo.demo_world "ny" "GS" Demo.feb19 st1)
  = fst (pick_winner Demo.demo_world "ny" "GS" Demo.feb19 (initial_state 1000))
  /\ http_calls (snd (pick_winner Demo.demo_world "ny" "GS" Demo.feb19 st1))
     = http_calls st1.
Proof.
  intros st1.
  destruct (pick_winner Demo.demo_world "ny" "GS" Demo.feb19
              (initial_state 1000)) as [[r|e] s] eqn:E;
    [|vm_compute in E; discriminate E].
  subst st1. cbn [fst snd].
  rewrite (pick_winner_repeat Demo.demo_world "ny" "GS" Demo.feb19
             (initial_state 1000) r s E).
  - by split.
  - vm_compute in E. injection E as _ <-. vm_compute. reflexivity.
Defined.

(** X23. One call of [pick_winner] issues at most twelve requests (four
    for the directory, four for each of the two schedules; the last-5
    records are read from the cache) and sleeps at most 72 seconds; it
    sends nothing. *)
Theorem pick_winner_bounded W a h cutoff_date st :
  let st' := snd (pick_winner W a h cutoff_date st) in
  (http_calls st <= http_calls st' <= http_calls st + 12)%nat
  /\ clock st <= clock st' <= clock st + 72
  /\ outbox st' = outbox st.
Proof.
  intros st'. subst st'. change (cost 12 72 st (snd (pick_winner W a h cutoff_date st))).
  unfold pick_winner. rewrite run_bind.
  pose proof (load_team_map_cost W st) as C1.
  destruct (load_team_map W st) as [[m|e] s1];
    [|eapply cost_weaken; [| |exact C1]; lia].
  cbn [snd] in C1.
  destruct (m !! normalize_abbr a) as [ta|];
    [|eapply cost_weaken; [| |exact C1]; lia].
  destruct (m !! normalize_abbr h) as [th|];
    [|eapply cost_weaken; [| |exact C1]; lia].
  rewrite run_bind.
  pose proof (record_last_n_cost W (team_id ta)
                (espn_season_year_for_date cutoff_date) cutoff_date 10 s1)
    as C2.
  destruct (record_last_n W (team_id ta) _ cutoff_date 10 s1)
    as [[a10|e] s2] eqn:Ha10;
    [|eapply cost_weaken; [| |exact (cost_trans _ _ _ _ _ _ _ C1 C2)]; lia].
  cbn [snd] in C2. rewrite run_bind.
  pose proof (record_last_n_cost W (team_id th)
                (espn_season_year_for_date cutoff_date) cutoff_date 10 s2)
    as C3.
  pose proof (record_last_n_kept W (team_id th)
                (espn_season_year_for_date cutoff_date) cutoff_date 10 s2)
    as Hk23.
  destruct (record_last_n W (team_id th) _ cutoff_date 10 s2)
    as [[h10|e] s3] eqn:Hh10;
    [|eapply cost_weaken;
      [| |exact (cost_trans _ _ _ _ _ _ _ (cost_trans _ _ _ _ _ _ _ C1 C2) C3)];
      lia].
  cbn [snd] in C3, Hk23.
  pose proof (cost_trans _ _ _ _ _ _ _ (cost_trans _ _ _ _ _ _ _ C1 C2) C3)
    as C.
  destruct (record_last_n_cached W _ _ _ _ _ _ _ Ha10) as (va & _ & Haa).
  destruct (record_last_n_cached W _ _ _ _ _ _ _ Hh10) as (vh & _ & Hhh).
  destruct (negb (fst a10 =? fst h10)); [exact C|].
  rewrite (run_bind_ok _ _ _ _ _ (Haa s3 5 Hk23)).
  rewrite (run_bind_ok _ _ _ _ _ (Hhh s3 5 ltac:(reflexivity))).
  destruct (negb _); exact C.
Qed.

(* --------------------------------------------------------------------- *)
(** *** Tomorrow *)

Lemma sum_snoc l x : fold_right Z.add 0 (l ++ [x]) = fold_right Z.add 0 l + x.
Proof. induction l as [|y l IH]; simpl; lia. Qed.

Lemma days_before_month_succ y m :
  1 <= m ->
  days_before_month y (m + 1) = days_before_month y m + days_in_month y m.
Proof.
  intros Hm. unfold days_before_month.
  replace (Z.to_nat (m + 1 - 1)) with (S (Z.to_nat (m - 1))) by lia.
  rewrite seq_S, !map_app. cbn [map]. rewrite sum_snoc.
  do 2 f_equal. lia.
Qed.

Lemma days_before_month_1 y : days_before_month y 1 = 0.
Proof. reflexivity. Qed.

Lemma days_before_month_12 y :
  days_before_month y 12 = 334 + (if is_leap y then 1 else 0).
Proof.
  unfold days_before_month.
  change (map Z.of_nat (seq 1 (Z.to_nat (12 - 1))))
    with [1; 2; 3; 4; 5; 6; 7; 8; 9; 10; 11].
  unfold days_in_month. simpl. destruct (is_leap y); lia.
Qed.

Lemma days_before_year_succ y :
  days_before_year (y + 1)
  = days_before_year y + 365 + (if is_leap y then 1 else 0).
Proof.
  unfold days_before_year, is_leap.
  replace (y + 1 - 1) with y by lia.
  destruct (Z.eqb_spec (y mod 4) 0), (Z.eqb_spec (y mod 100) 0),
    (Z.eqb_spec (y mod 400) 0); cbn [negb andb orb];
    Z.to_euclidean_division_equations; lia.
Qed.

Ltac decide_date_ltb :=
  unfold date_ltb; cbn [year month day];
  repeat match goal with
         | |- context [?a <? ?b] => destruct (Z.ltb_spec a b); try lia
         end;
  repeat match goal with
         | |- context [?a =? ?b] => destruct (Z.eqb_spec a b); try lia
         end;
  reflexivity.

(** X24. /preds without argument predicts for the day after the UTC date
    of the clock: for a calendar date before 9999-12-31,
    [get_tomorrow_utc] returns the calendar date whose ordinal is the
    next one, changing nothing; on 9999-12-31 it raises
    [OverflowError]. *)
Theorem get_tomorrow_utc_next W st :
  let today := utcnow_date W (clock st) in
  valid_date (year today) (month today) (day today) = true ->
  (today <> Date 9999 12 31 ->
     exists d,
       get_tomorrow_utc W st = (Ok d, st)
       /\ valid_date (year d) (month d) (day d) = true
       /\ ymd2ord d = ymd2ord today + 1
       /\ date_ltb today d = true)
  /\ (today = Date 9999 12 31 ->
      exists msg, get_tomorrow_utc W st = (Err (Exn OverflowError msg), st)).
Proof.
  intros today Hv.
  assert (get_tomorrow_utc W st = (next_day today, st)) as Hrun.
  { unfold get_tomorrow_utc. rewrite run_bind. reflexivity. }
  rewrite Hrun. clear Hrun.
  destruct today as [y m d]. cbn [year month day] in Hv.
  split; [|intros [= -> -> ->]; eexists; reflexivity].
  intros Hlast.
  unfold valid_date in Hv.
  repeat (apply andb_true_iff in Hv as [Hv ?]).
  repeat match goal with
         | H : (_ <=? _) = true |- _ => apply Z.leb_le in H
         end.
  unfold next_day. cbn [year month day].
  destruct (Z.ltb_spec d (days_in_month y m)) as [Hd|Hd].
  { eexists. split; [reflexivity|]. cbn [year month day].
    split; [|split].
    - unfold valid_date.
      repeat (apply andb_true_iff; split); apply Z.leb_le; lia.
    - unfold ymd2ord. cbn [year month day]. lia.
    - decide_date_ltb. }
  assert (d = days_in_month y m) as -> by lia.
  destruct (Z.ltb_spec m 12) as [Hm|Hm].
  { eexists. split; [reflexivity|]. cbn [year month day].
    split; [|split].
    - unfold valid_date.
      assert (1 <= days_in_month y (m + 1)).
      { unfold days_in_month.
        destruct (m + 1 =? 2); [destruct (is_leap y); lia|].
        destruct (_ || _); lia. }
      repeat (apply andb_true_iff; split); apply Z.leb_le; lia.
    - unfold ymd2ord. cbn [year month day].
      rewrite days_before_month_succ by lia. lia.
    - decide_date_ltb. }
  assert (m = 12) as -> by lia.
  assert (days_in_month y 12 = 31) as Hdec by reflexivity.
  rewrite Hdec in *.
  destruct (Z.ltb_spec y 9999) as [Hy|Hy].
  { eexists. split; [reflexivity|]. cbn [year month day].
    split; [|split].
    - unfold valid_date.
      assert (days_in_month (y + 1) 1 = 31) as -> by reflexivity.
      repeat (apply andb_true_iff; split); apply Z.leb_le; lia.
    - unfold ymd2ord. cbn [year month day].
      rewrite days_before_year_succ, days_before_month_1,
        days_before_month_12.
      lia.
    - decide_date_ltb. }
  exfalso. apply Hlast. f_equal. lia.
Qed.

Lemma get_tomorrow_utc_next_witness :
  get_tomorrow_utc new_year_eve_world (initial_state 1000)
  = (Ok (Date 2025 1 1), initial_state 1000)
  /\ ymd2ord (Date 2025 1 1) = ymd2ord (Date 2024 12 31) + 1.
Proof.
  destruct (get_tomorrow_utc_next new_year_eve_world (initial_state 1000))
    as [Hnext _]; [reflexivity|].
  destruct Hnext as (d & Hrun & _ & Hord & _); [discriminate|].
  assert (d = Date 2025 1 1) as ->.
  { vm_compute in Hrun. by injection Hrun as <-. }
  split; [exact Hrun|exact Hord].
Defined.

(* --------------------------------------------------------------------- *)
(** *** The ranking keeps the best *)

Lemma key_ltb_above F :
  float_linear F ->
  forall a1 b1 c1 d1 a3 b3 c3 d3,
    float_ltb F a3 a1 = true ->
    key_ltb F (a1, b1, c1, d1) (a3, b3, c3, d3) = false.
Proof.
  intros ((Hsym & Hasym) & _ & _ & _ & _ & Hne) a1 b1 c1 d1 a3 b3 c3 d3 H.
  unfold key_ltb. rewrite (Hsym a1 a3), (Hne _ _ H). cbn [negb].
  by apply Hasym.
Qed.

Lemma key_not_below_trans F :
  float_linear F ->
  forall x y z,
    key_ltb F x y = false -> key_ltb F y z = false -> key_ltb F x z = false.
Proof.
  intros HF [[[a1 b1] c1] d1] [[[a2 b2] c2] d2] [[[a3 b3] c3] d3].
  pose proof (key_ltb_above F HF a1 b1 c1 d1 a3 b3 c3 d3) as Habove.
  destruct HF as ((Hsym & Hasym) & Htot & Htrans & Heq & Hcongr & Hne).
  unfold key_ltb in *.
  destruct (float_eqb F a1 a2) eqn:E12, (float_eqb F a2 a3) eqn:E23;
    cbn [negb]; intros H1 H2.
  - rewrite (Heq _ _ _ E12 E23). cbn [negb].
    destruct (Z.eqb_spec b1 b2), (Z.eqb_spec b2 b3), (Z.eqb_spec b1 b3),
      (Z.eqb_spec c1 c2), (Z.eqb_spec c2 c3), (Z.eqb_spec c1 c3);
      cbn [negb] in *; lia.
  - apply Habove.
    destruct (Hcongr _ _ a3 E12) as [_ ->].
    by apply Htot.
  - apply Habove.
    destruct (Hcongr _ _ a1 E23) as [<- _].
    by apply Htot.
  - apply Habove.
    apply (Htrans _ a2); by apply Htot.
Qed.

Lemma Q_float_linear : float_linear Q_float.
Proof.
  split; [apply Q_float_order|]. simpl.
  assert (forall a b, negb (Qle_bool b a) = true <-> (a < b)%Q) as Hlt.
  { intros a b. rewrite negb_true_iff, <- not_true_iff_false, Qle_bool_iff.
    split; [apply Qnot_le_lt|apply Qlt_not_le]. }
  assert (forall a b, negb (Qle_bool b a) = false <-> (b <= a)%Q) as Hge.
  { intros a b. by rewrite negb_false_iff, Qle_bool_iff. }
  assert (forall a b, Qeq_bool a b = false <-> ~ (a == b)%Q) as Hneq.
  { intros a b. by rewrite <- not_true_iff_false, Qeq_bool_iff. }
  split; [|split; [|split; [|split]]].
  - intros a b Hab Hba. apply Hlt. apply Hneq in Hab. apply Hge in Hba.
    apply Qnot_le_lt. intros Hle. apply Hab. by apply Qle_antisym.
  - intros a b c Hab Hbc. apply Hlt. apply Hlt in Hab, Hbc.
    by eapply Qlt_trans.
  - intros a b c Hab Hbc. apply Qeq_bool_iff in Hab, Hbc.
    apply Qeq_bool_iff. by rewrite Hab.
  - intros a b c Hab. apply Qeq_bool_iff in Hab.
    split; f_equal; apply eq_iff_eq_true; rewrite !Qle_bool_iff;
      by rewrite Hab.
  - intros a b Hab. apply Hlt in Hab. apply Hneq. intros E.
    rewrite E in Hab. by apply Qlt_irrefl in Hab.
Qed.

Section Best.
Context (F : float_ops) (HF : float_linear F).

Lemma sort_desc_strongly_sorted (l : list (row F)) :
  StronglySorted (not_below (key_ltb F) (sort_key F))
                 (sort_desc (key_ltb F) (sort_key F) l).
Proof.
  apply Sorted_StronglySorted.
  - intros x y z. unfold not_below. apply key_not_below_trans, HF.
  - apply sort_desc_sorted, key_ltb_asym, HF.
Qed.
End Best.

(** X25. The lists returned by the ranking hold the best rows: for floats
    that behave as numbers and [top_n >= 0], the list kept for a
    position has [min(top_n, number of rows)] rows of that position, and
    no row that was left out has a larger key (quotient, then total,
    then appearances, then the fourth field) than a row that was
    kept. *)
Theorem finalize_keeps_the_best F top_n pos (t : table F) :
  float_linear F -> 0 <= top_n ->
  let all := table_get F pos t in
  let top := table_get F pos (finalize F top_n t) in
  exists rest,
    top ++ rest ≡ₚ all
    /\ Z.of_nat (length top) = Z.min top_n (Z.of_nat (length all))
    /\ forall x y, In x top -> In y rest ->
         key_ltb F (sort_key F x) (sort_key F y) = false.
Proof.
  intros HF Htop all top. subst all top.
  rewrite table_get_finalize. unfold table_get.
  destruct (assoc_get pos t) as [l|]; cbn [default from_option id];
    [|exists []; split; [done|]; split; [simpl; lia|by intros x y []]].
  unfold slice_to. rewrite (proj2 (Z.leb_le 0 top_n) Htop).
  set (sorted := sort_desc (key_ltb F) (sort_key F) l).
  exists (drop (Z.to_nat top_n) sorted).
  split; [|split].
  - rewrite take_drop. apply sort_desc_perm.
  - rewrite length_take. unfold sorted. rewrite sort_desc_length. lia.
  - intros x y Hx%list_elem_of_In Hy%list_elem_of_In.
    pose proof (sort_desc_strongly_sorted F HF l) as Hs. fold sorted in Hs.
    rewrite <- (take_drop (Z.to_nat top_n) sorted) in Hs.
    exact (StronglySorted_app_1_elem_of _ _ _ _ _ Hs Hx Hy).
Qed.

Lemma finalize_keeps_the_best_witness :
  exists rest,
    table_get Q_float FWD (finalize Q_float 2 forwards) ++ rest
    ≡ₚ table_get Q_float FWD forwards
    /\ Z.of_nat (length (table_get Q_float FWD (finalize Q_float 2 forwards)))
       = Z.min 2 (Z.of_nat (length (table_get Q_float FWD forwards)))
    /\ forall x y,
         In x (table_get Q_float FWD (finalize Q_float 2 forwards)) ->
         In y rest ->
         key_ltb Q_float (sort_key Q_float x) (sort_key Q_float y) = false.
Proof.
  apply (finalize_keeps_the_best Q_float 2 FWD forwards).
  - apply Q_float_linear.
  - lia.
Defined.

Example forwards_ranked :
  map (fun r => r.1.2) (table_get Q_float FWD (finalize Q_float 2 forwards))
  = [u "Erling Haaland"; u "Ollie Watkins"].
Proof. vm_compute. reflexivity. Qed.
